(** * Command and file-event guard hooks: a shallow embedding

    Source files embedded here:
    - [hooks/docker-command-guard.py]     (module [DockerGuard])
    - [hooks/typescript-quality-guard.py] (module [TsGuard])

    Both hooks read one JSON event, match a string of it against fixed
    lists of regular expressions with Python's [re.search], print at
    most one message to standard error and leave with exit status 0
    or 2.

    Characters.  A Python [str] is modelled as a [string] of the
    Standard Library, read as the UTF-8 encoding of the text: an ASCII
    character is one [ascii] below 128, and an [ascii] from 128 on is
    part of the encoding of a character beyond ASCII.  The tables
    below ([is_word], [is_space], [is_digit], [lower]) are those of
    Python 3's [re] module for the ASCII characters.  They do not
    describe the characters beyond ASCII, which [re] classifies with
    the Unicode tables (letters such as U+00E9 are word characters,
    U+00A0 is white space, U+FF11 is a digit, U+017F matches "s" under
    [re.IGNORECASE]).  The matcher is therefore that of [re] on ASCII
    text, which [Shape.ascii_text] delimits.  A property that depends
    on the tables is stated for ASCII text, or for text whose
    characters next to the place of the match are ASCII; a property
    that takes the outcome of the code's own searches as a hypothesis
    does not depend on them. *)

From Stdlib Require Import Bool Ascii String List ZArith Lia.
From Stdlib Require Import DecimalString.
From Stdlib Require DecimalNat DecimalFacts.
Import ListNotations.
Local Open Scope string_scope.

Set Warnings "-register-all".

(** ** Character tables of [re] *)

Module Chars.

Definition code (c : ascii) : nat := nat_of_ascii c.

Definition between (lo hi : nat) (c : ascii) : bool :=
  (lo <=? code c)%nat && (code c <=? hi)%nat.

Definition is_digit (c : ascii) : bool := between 48 57 c.
Definition is_upper (c : ascii) : bool := between 65 90 c.
Definition is_lower (c : ascii) : bool := between 97 122 c.

(** [\w] on ASCII characters: letters, digits and the underscore. *)
Definition is_word (c : ascii) : bool :=
  is_digit c || is_upper c || is_lower c || (code c =? 95)%nat.

(** [\s] of a [str] pattern on ASCII characters: tab, line feed,
    vertical tab, form feed, carriage return, the four separators
    28..31 and the space. *)
Definition is_space (c : ascii) : bool :=
  between 9 13 c || between 28 31 c || (code c =? 32)%nat.

Definition newline : ascii := ascii_of_nat 10.

(** Lower-casing used by [re.IGNORECASE], on ASCII characters. *)
Definition lower (c : ascii) : ascii :=
  if is_upper c then ascii_of_nat (code c + 32) else c.

Fixpoint lower_str (s : string) : string :=
  match s with
  | EmptyString => EmptyString
  | String c t => String (lower c) (lower_str t)
  end.

End Chars.

(** ** The fragment of Python's pattern language used by the hooks *)

Module Re.
Import Chars.

(** A one-character item of a pattern. *)
Inductive cclass : Type :=
  | Lit (c : ascii)      (* an ordinary or escaped character *)
  | Space                (* \s *)
  | Word                 (* \w *)
  | Digit                (* \d *)
  | Dot.                 (* .  (any character but a line feed) *)

Inductive regex : Type :=
  | Eps
  | One (p : cclass)
  | Seq (r1 r2 : regex)
  | Alt (r1 r2 : regex)          (* r1|r2, r1 tried first *)
  | Plus (p : cclass)            (* p+, greedy *)
  | Star (p : cclass)            (* p*, greedy *)
  | WordB                        (* \b *)
  | EndS                         (* $ *)
  | NotAhead (r : regex).        (* (?!r) *)

(** [accepts ic p c]: character [c] is matched by item [p]; [ic] is
    the [re.IGNORECASE] flag. *)
Definition accepts (ic : bool) (p : cclass) (c : ascii) : bool :=
  match p with
  | Lit x => if ic then Ascii.eqb (lower c) (lower x) else Ascii.eqb c x
  | Space => is_space c
  | Word => is_word c
  | Digit => is_digit c
  | Dot => negb (Ascii.eqb c newline)
  end.

Definition word_opt (o : option ascii) : bool :=
  match o with Some c => is_word c | None => false end.

Definition head (s : string) : option ascii :=
  match s with EmptyString => None | String c _ => Some c end.

(** [\b] between the character before the position and the one at it. *)
Definition at_boundary (prev : option ascii) (s : string) : bool :=
  xorb (word_opt prev) (word_opt (head s)).

(** [$] without [re.MULTILINE]: the end of the string, or just before
    a line feed that ends the string. *)
Definition at_end (s : string) : bool :=
  match s with
  | EmptyString => true
  | String c EmptyString => Ascii.eqb c newline
  | _ => false
  end.

Definition is_some {A} (o : option A) : bool :=
  match o with Some _ => true | None => false end.

(** A position in the subject: the character before it (for [\b]) and
    what is left to read. *)
Definition pos : Type := (option ascii * string)%type.

(** A continuation receives the position the pattern has reached and
    answers with the position where the whole match ends, if any. *)
Definition cont : Type := option ascii -> string -> option pos.

Definition stop : cont := fun prev s => Some (prev, s).

Definition orelse (x y : option pos) : option pos :=
  match x with Some _ => x | None => y end.

Section Matcher.
Variable ic : bool.

(** Greedy repetition of an item: the longest run is tried first and
    given back one character at a time. *)
Fixpoint star (p : cclass) (prev : option ascii) (s : string) (k : cont)
  : option pos :=
  match s with
  | String c t =>
      if accepts ic p c then orelse (star p (Some c) t k) (k prev s)
      else k prev s
  | EmptyString => k prev s
  end.

Definition plus (p : cclass) (prev : option ascii) (s : string) (k : cont)
  : option pos :=
  match s with
  | String c t => if accepts ic p c then star p (Some c) t k else None
  | EmptyString => None
  end.

(** The backtracking matcher anchored at the current position;
    alternatives are explored in the order of [re]. *)
Fixpoint run (r : regex) (prev : option ascii) (s : string) (k : cont)
  : option pos :=
  match r with
  | Eps => k prev s
  | One p =>
      match s with
      | String c t => if accepts ic p c then k (Some c) t else None
      | EmptyString => None
      end
  | Seq r1 r2 => run r1 prev s (fun prev' s' => run r2 prev' s' k)
  | Alt r1 r2 => orelse (run r1 prev s k) (run r2 prev s k)
  | Plus p => plus p prev s k
  | Star p => star p prev s k
  | WordB => if at_boundary prev s then k prev s else None
  | EndS => if at_end s then k prev s else None
  | NotAhead r' =>
      match run r' prev s stop with
      | Some _ => None
      | None => k prev s
      end
  end.

(** [re.search]: the leftmost start position at which [run] succeeds;
    the answer is the position where that match ends. *)
Fixpoint search_from (r : regex) (prev : option ascii) (s : string)
  : option pos :=
  match run r prev s stop with
  | Some e => Some e
  | None =>
      match s with
      | String c t => search_from r (Some c) t
      | EmptyString => None
      end
  end.

End Matcher.

(** [re.search(r, s)] and [re.search(r, s, re.IGNORECASE)], read as a
    truth value. *)
Definition search (ic : bool) (r : regex) (s : string) : bool :=
  is_some (search_from ic r None s).

(** Pattern-building helpers. *)
Fixpoint lit (s : string) : regex :=
  match s with
  | EmptyString => Eps
  | String c t => Seq (One (Lit c)) (lit t)
  end.

Fixpoint cat (rs : list regex) : regex :=
  match rs with
  | [] => Eps
  | r :: rs' => Seq r (cat rs')
  end.

Definition sp : regex := Plus Space.          (* \s+ *)
Definition ws : regex := Plus Word.           (* \w+ *)
Definition any : regex := Star Dot.           (* .*  *)

End Re.

Import Re.

(** ** Python values, exceptions and the effects of a hook process *)

Module Py.

(** What [json.load] can build. *)
Inductive value : Type :=
  | VNone
  | VBool (b : bool)
  | VInt (n : Z)
  | VFloat (nonzero : bool)      (* only the truth value of a float is kept *)
  | VStr (s : string)
  | VList (l : list value)
  | VDict (d : list (string * value)).

Definition type_name (v : value) : string :=
  match v with
  | VNone => "NoneType"
  | VBool _ => "bool"
  | VInt _ => "int"
  | VFloat _ => "float"
  | VStr _ => "str"
  | VList _ => "list"
  | VDict _ => "dict"
  end.

(** Truth value of an object, as tested by [if x] and [not x]. *)
Definition truthy (v : value) : bool :=
  match v with
  | VNone => false
  | VBool b => b
  | VInt n => negb (n =? 0)%Z
  | VFloat nz => nz
  | VStr s => negb (s =? "")
  | VList l => match l with [] => false | _ => true end
  | VDict d => match d with [] => false | _ => true end
  end.

Fixpoint lookup (key : string) (d : list (string * value)) : option value :=
  match d with
  | [] => None
  | (k, v) :: d' => if k =? key then Some v else lookup key d'
  end.

(** The subclasses of [Exception] that the hooks can meet; each carries
    the text that [str(e)] gives. *)
Inductive exn : Type :=
  | JSONDecodeError (msg : string)
  | AttributeError (msg : string)
  | TypeError (msg : string)
  | OSError (msg : string)
  | TimeoutExpired (msg : string).

Definition str_of_exn (e : exn) : string :=
  match e with
  | JSONDecodeError m | AttributeError m | TypeError m
  | OSError m | TimeoutExpired m => m
  end.

(** How a computation ends: with a value, with an exception under way,
    or with [SystemExit] under way ([sys.exit]); [SystemExit] is not an
    [Exception], so [except Exception] lets it through. *)
Inductive result (A : Type) : Type :=
  | Ret (a : A)
  | Raise (e : exn)
  | SysExit (code : Z).
Arguments Ret {A} a.
Arguments Raise {A} e.
Arguments SysExit {A} code.

(** A computation threads the text printed to standard error so far:
    one list element per [print] call. *)
Definition M (A : Type) : Type := list string -> result A * list string.

Definition ret {A} (a : A) : M A := fun err => (Ret a, err).

Definition bind {A B} (m : M A) (f : A -> M B) : M B :=
  fun err =>
    match m err with
    | (Ret a, err') => f a err'
    | (Raise e, err') => (Raise e, err')
    | (SysExit c, err') => (SysExit c, err')
    end.

Definition raise {A} (e : exn) : M A := fun err => (Raise e, err).
Definition sys_exit {A} (code : Z) : M A := fun err => (SysExit code, err).

(** [print(s, file=sys.stderr)] *)
Definition print_stderr (s : string) : M unit :=
  fun err => (Ret tt, (err ++ [s])%list).

(** [try: body  except Exception as e: handler e] *)
Definition try_except {A} (body : M A) (handler : exn -> M A) : M A :=
  fun err =>
    match body err with
    | (Raise e, err') => handler e err'
    | other => other
    end.

Declare Scope py_scope.
Delimit Scope py_scope with py.
Notation "x <- m ;; k" := (bind m (fun x => k))
  (at level 61, m at next level, right associativity) : py_scope.
Notation "m ;;; k" := (bind m (fun _ => k))
  (at level 61, right associativity) : py_scope.

(** [d.get(key, default)]; an object that is not a [dict] has no such
    method. *)
Definition get (d : value) (key : string) (default : value) : M value :=
  match d with
  | VDict kv =>
      ret (match lookup key kv with Some v => v | None => default end)
  | _ =>
      raise (AttributeError
               ("'" ++ type_name d ++ "' object has no attribute 'get'"))
  end.

(** Python's substring test [needle in hay] on two [str]. *)
Fixpoint contains (needle hay : string) : bool :=
  String.prefix needle hay
  || match hay with
     | EmptyString => false
     | String _ t => contains needle t
     end.

(** [needle in v] for a [str] needle and any object [v]. *)
Definition str_in (needle : string) (v : value) : M bool :=
  match v with
  | VStr s => ret (contains needle s)
  | VList l =>
      ret (existsb (fun x => match x with
                             | VStr s => s =? needle
                             | _ => false
                             end) l)
  | VDict d => ret (is_some (lookup needle d))
  | _ =>
      raise (TypeError
               ("argument of type '" ++ type_name v ++ "' is not iterable"))
  end.

(** A [re] function given a subject that is not a [str]. *)
Definition re_type_error {A} (v : value) : M A :=
  raise (TypeError
           ("expected string or bytes-like object, got '"
              ++ type_name v ++ "'")).

(** What the process reads on standard input, as [json.load] sees it:
    text that is no JSON document (with the text of the decoder's
    error), or the decoded document. *)
Inductive stdin : Type :=
  | Malformed (msg : string)
  | Json (v : value).

Definition json_load (i : stdin) : M value :=
  match i with
  | Malformed msg => raise (JSONDecodeError msg)
  | Json v => ret v
  end.

(** What the operating system sees of one run: the exit status and the
    text on standard error.  A program that ends without [sys.exit]
    leaves with status 0; an exception that nothing caught ends it
    with status 1. *)
Definition process (m : M unit) : Z * list string :=
  match m [] with
  | (Ret _, err) => (0%Z, err)
  | (SysExit c, err) => (c, err)
  | (Raise e, err) => (1%Z, (err ++ [str_of_exn e])%list)
  end.

Definition dq : string := String (ascii_of_nat 34) EmptyString.

End Py.

(** ** hooks/docker-command-guard.py *)

Module DockerGuard.
Import Py.
Local Open Scope py_scope.

Definition dev_or_serve : regex := Alt (lit "dev") (lit "serve").
Definition not_startapp : regex := NotAhead (Seq (lit "startapp") WordB).
Definition no_help : regex := NotAhead (Seq any (lit "--help")).

Definition BLOCKED_PATTERNS : list regex :=
  [ (* Frontend dev servers *)
    cat [WordB; lit "npm"; sp; lit "run"; sp; dev_or_serve; WordB];
      (* \bnpm\s+run\s+(dev|serve)\b *)
    cat [WordB; lit "yarn"; sp; dev_or_serve; WordB];
      (* \byarn\s+(dev|serve)\b *)
    cat [WordB; lit "pnpm"; sp; dev_or_serve; WordB];
      (* \bpnpm\s+(dev|serve)\b *)
    cat [WordB; lit "vite"; WordB; NotAhead (Seq any (lit "build"))];
      (* \bvite\b(?!.*build) *)
    (* Django dev server *)
    cat [WordB; lit "python"; sp; lit "manage.py"; sp; lit "runserver"; WordB];
      (* \bpython\s+manage\.py\s+runserver\b *)
    cat [WordB; lit "./manage.py"; sp; lit "runserver"; WordB];
      (* \b\.\/manage\.py\s+runserver\b *)
    (* Django management commands *)
    cat [WordB; lit "python"; sp; lit "manage.py"; sp; not_startapp; ws];
      (* \bpython\s+manage\.py\s+(?!startapp\b)\w+ *)
    cat [WordB; lit "./manage.py"; sp; not_startapp; ws];
      (* \b\.\/manage\.py\s+(?!startapp\b)\w+ *)
    (* ASGI/WSGI dev servers *)
    cat [WordB; lit "uvicorn"; WordB; no_help];
      (* \buvicorn\b(?!.*--help) *)
    cat [WordB; lit "gunicorn"; WordB; no_help];
      (* \bgunicorn\b(?!.*--help) *)
    cat [WordB; lit "daphne"; WordB; no_help];
      (* \bdaphne\b(?!.*--help) *)
    (* Celery worker *)
    cat [WordB; lit "celery"; sp; lit "-A"; sp; ws; sp; lit "worker"; WordB]
      (* \bcelery\s+-A\s+\w+\s+worker\b *)
  ].

Definition ALLOWED_PATTERNS : list regex :=
  [ (* Build commands *)
    cat [WordB; lit "npm"; sp; lit "run"; sp; lit "build"; WordB];
      (* \bnpm\s+run\s+build\b *)
    cat [WordB; lit "npm"; sp; lit "run"; sp; lit "test"; WordB];
      (* \bnpm\s+run\s+test\b *)
    cat [WordB; lit "yarn"; sp; lit "build"; WordB];
      (* \byarn\s+build\b *)
    cat [WordB; lit "vite"; sp; lit "build"; WordB];
      (* \bvite\s+build\b *)
    (* Django: only startapp *)
    cat [WordB; lit "python"; sp; lit "manage.py"; sp; lit "startapp"; WordB];
      (* \bpython\s+manage\.py\s+startapp\b *)
    cat [WordB; lit "./manage.py"; sp; lit "startapp"; WordB];
      (* \b\.\/manage\.py\s+startapp\b *)
    (* Docker commands *)
    cat [WordB; lit "docker"; sp; lit "compose"; WordB];
      (* \bdocker\s+compose\b *)
    cat [WordB; lit "docker-compose"; WordB];
      (* \bdocker-compose\b *)
    cat [WordB; lit "docker"; sp];
      (* \bdocker\s+ *)
    (* Package management *)
    cat [WordB; lit "npm"; sp;
         Alt (lit "install") (Alt (lit "ci") (lit "update")); WordB];
      (* \bnpm\s+(install|ci|update)\b *)
    cat [WordB; lit "pip"; sp; lit "install"; WordB]
      (* \bpip\s+install\b *)
  ].

(** The keys of the [HELP_MESSAGES] dictionary. *)
Inductive help_key : Type :=
  | npm_dev | django_runserver | django_management | uvicorn | celery_worker.

(** The message texts are kept byte for byte (UTF-8). *)
Definition HELP_MESSAGES (key : help_key) : string :=
  match key with
  | npm_dev =>
"
❌ BLOCKED: npm run dev

This command is already running in Docker.

✅ Instead use:
  - View logs: docker compose logs -f frontend
  - Restart: docker compose restart frontend
  - Build: docker compose run --rm frontend npm run build
"
  | django_runserver =>
"
❌ BLOCKED: python manage.py runserver

This command is already running in Docker.

✅ Instead use:
  - View logs: docker compose logs -f django
  - Restart: docker compose restart django
  - Shell: docker compose run --rm django python manage.py shell
"
  | django_management =>
"
❌ BLOCKED: python manage.py <command>

Django management commands require the Postgres database running in Docker.

✅ Instead use:
  - Migrations: docker compose run --rm django python manage.py makemigrations
  - Migrate: docker compose run --rm django python manage.py migrate
  - Shell: docker compose run --rm django python manage.py shell
  - Create superuser: docker compose run --rm django python manage.py createsuperuser
  - Custom commands: docker compose run --rm django python manage.py <command>

⚠️  EXCEPTION: Only 'startapp' runs locally (for file ownership):
  - Create app: python manage.py startapp <app_name>
"
  | uvicorn =>
"
❌ BLOCKED: uvicorn/gunicorn dev server

This service is already running in Docker.

✅ Instead use:
  - View logs: docker compose logs -f backend
  - Restart: docker compose restart backend
  - Run commands: docker compose run --rm backend <command>
"
  | celery_worker =>
"
❌ BLOCKED: celery worker

Celery worker is already running in Docker.

✅ Instead use:
  - View logs: docker compose logs -f celery
  - Restart: docker compose restart celery
  - Inspect: docker compose exec celery celery -A <app> inspect active
"
  end.

Definition fallback_message : string :=
  "This command conflicts with Docker services already running.".

(** The five tests of [get_help_message]; none of them passes
    [re.IGNORECASE]. *)
Definition help_npm : regex :=
  cat [WordB; lit "npm"; sp; lit "run"; sp; dev_or_serve; WordB].
  (* \bnpm\s+run\s+(dev|serve)\b *)
Definition help_runserver : regex :=
  cat [WordB; lit "python"; sp; lit "manage.py"; sp; lit "runserver"; WordB].
  (* \bpython\s+manage\.py\s+runserver\b *)
Definition help_management : regex :=
  cat [WordB; lit "python"; sp; lit "manage.py"; sp; not_startapp; ws].
  (* \bpython\s+manage\.py\s+(?!startapp\b)\w+ *)
Definition help_asgi : regex :=
  cat [WordB; Alt (lit "uvicorn") (Alt (lit "gunicorn") (lit "daphne")); WordB].
  (* \b(uvicorn|gunicorn|daphne)\b *)
Definition help_celery : regex :=
  cat [WordB; lit "celery"; sp; lit "-A"; sp; ws; sp; lit "worker"; WordB].
  (* \bcelery\s+-A\s+\w+\s+worker\b *)

Definition get_help_message (command : string) : string :=
  if search false help_npm command then HELP_MESSAGES npm_dev
  else if search false help_runserver command then HELP_MESSAGES django_runserver
  else if search false help_management command then HELP_MESSAGES django_management
  else if search false help_asgi command then HELP_MESSAGES uvicorn
  else if search false help_celery command then HELP_MESSAGES celery_worker
  else fallback_message.

(** Each [for] loop returns at the first pattern found in [command],
    with [re.IGNORECASE]. *)
Definition should_block_command (command : string) : bool * string :=
  if existsb (fun pattern => search true pattern command) ALLOWED_PATTERNS
  then (false, "")
  else if existsb (fun pattern => search true pattern command) BLOCKED_PATTERNS
  then (true, get_help_message command)
  else (false, "").

(** [should_block_command] on an object that passed [if not command]:
    the first [re.search] of the first loop raises on anything but a
    [str]. *)
Definition check_command (command : value) : M (bool * string) :=
  match command with
  | VStr s => ret (should_block_command s)
  | _ => re_type_error command
  end.

(** The [try] block of [main]. *)
Definition main_body (input : stdin) : M unit :=
  hook_input <- json_load input ;;
  tool_input <- get hook_input "tool_input" (VDict []) ;;
  command <- get tool_input "command" (VStr "") ;;
  if negb (truthy command) then sys_exit 0
  else
    r <- check_command command ;;
    let '(should_block, reason) := r in
    if should_block then
      print_stderr reason ;;;
      sys_exit 2
    else sys_exit 0.

Definition error_prefix : string := "Hook error: ".

Definition main (input : stdin) : M unit :=
  try_except (main_body input)
    (fun e =>
       print_stderr (error_prefix ++ str_of_exn e) ;;;
       sys_exit 0).

End DockerGuard.

(** ** hooks/typescript-quality-guard.py *)

Module TsGuard.
Import Py.
Local Open Scope py_scope.

(* test mock : \.spec\.ts|\.test\.ts *)
Definition warning_test_mock : string :=
"
⚠️  TYPESCRIPT QUALITY REMINDER: Writing Test File

Common test patterns that cause TypeScript errors:

1. Template Refs - Cast to proper HTML type:
   ✅ (wrapper.find('[data-test=" ++ dq ++ "input" ++ dq ++ "]').element as HTMLInputElement).value

2. Component Instance Access - Use 'any' in tests:
   ✅ await (wrapper.vm as any).methodName()

3. Mock Composables - Match real return types:
   ✅ Use computed(() => value) for computed refs, not ref(value)

4. Complete Mocks - Include ALL required properties:
   💡 Hover over type in VSCode to see all required fields

Reference: frontend/TYPESCRIPT_PATTERNS.md
".

(* vue component : \.vue$ *)
Definition warning_vue_component : string :=
"
⚠️  TYPESCRIPT QUALITY REMINDER: Writing Vue Component

Before writing component code:

1. Run type-check to ensure codebase is clean:
   docker compose run --rm frontend npm run type-check

2. If creating types, ensure unions/enums are COMPLETE:
   ✅ Add ALL possible values upfront to avoid future errors

3. API calls should use generic types:
   ✅ api.get<User>('/users/me/') not api.get('/users/me/')

Reference: /lint-and-format --frontend --categorize --suggest-fixes
".

(* typescript types : \.types\.ts|types/.*\.ts *)
Definition warning_typescript_types : string :=
"
⚠️  TYPESCRIPT QUALITY REMINDER: Writing Type Definitions

Type safety checklist:

1. Union types - Include ALL possible values now, not later
2. Interfaces - Mark optional fields with '?'
3. Enums - Add new values as features are created
4. null vs undefined - Be consistent (prefer null)

Common issue: Adding type values after code uses them
✅ Update type FIRST, then use new values in code

Reference: frontend/TYPESCRIPT_PATTERNS.md - Pattern 7
".

(* composable : composables/.*\.ts *)
Definition warning_composable : string :=
"
⚠️  TYPESCRIPT QUALITY REMINDER: Writing Composable

Composable type safety:

1. Computed properties - Return ComputedRef<T>, not Ref<T>
2. Refs - Use Ref<T> for mutable state
3. Return types - Explicitly type the return object
4. Generic types - Use <T> for reusable composables

Common issue: Mixing ref() and computed() incorrectly
✅ If logic computes a value, use computed(), not ref()

Reference: frontend/TYPESCRIPT_PATTERNS.md - Pattern 6
".

Record pattern_info : Type := {
  name : string;
  trigger : regex;
  warning : string
}.

(** The entries of the dictionary, in its (insertion) order. *)
Definition PATTERN_WARNINGS : list pattern_info :=
  [ {| name := "test mock";
       trigger := Alt (lit ".spec.ts") (lit ".test.ts");
         (* \.spec\.ts|\.test\.ts *)
       warning := warning_test_mock |};
    {| name := "vue component";
       trigger := Seq (lit ".vue") EndS;
         (* \.vue$ *)
       warning := warning_vue_component |};
    {| name := "typescript types";
       trigger := Alt (lit ".types.ts") (cat [lit "types/"; any; lit ".ts"]);
         (* \.types\.ts|types/.*\.ts *)
       warning := warning_typescript_types |};
    {| name := "composable";
       trigger := cat [lit "composables/"; any; lit ".ts"];
         (* composables/.*\.ts *)
       warning := warning_composable |} ].

(** The world outside the process, as far as the probe looks at it:
    whether [Path.cwd() / "frontend"] exists, and how the type-check
    command run by [subprocess.run] ends: with the text of its error
    stream, or with an exception (command not found, time-out after
    30 seconds, ...). *)
Inductive observed (A : Type) : Type :=
  | Gives (a : A)
  | Fails (e : exn).
Arguments Gives {A} a.
Arguments Fails {A} e.

Record world : Type := {
  frontend_exists : observed bool;
  type_check_stderr : observed string
}.

Definition observe {A} (o : observed A) : M A :=
  match o with
  | Gives a => ret a
  | Fails e => raise e
  end.

(** [error TS\d+:] *)
Definition error_marker : regex :=
  cat [lit "error TS"; Plus Digit; lit ":"].

(** [len(re.findall(r, s))]: matches are taken from left to right and
    do not overlap.  [skip] counts the characters of the last match
    that are still to be passed.  (The marker never matches the empty
    string; an empty match is counted and the scan moves on by one
    character.) *)
Fixpoint count_from (r : regex) (skip : nat) (prev : option ascii)
  (s : string) : nat :=
  match skip with
  | S skip' =>
      match s with
      | String c t => count_from r skip' (Some c) t
      | EmptyString => 0
      end
  | O =>
      match run false r prev s stop with
      | Some (_, rest) =>
          S (match s with
             | String c t =>
                 count_from r (String.length s - String.length rest - 1)
                   (Some c) t
             | EmptyString => 0
             end)
      | None =>
          match s with
          | String c t => count_from r 0 (Some c) t
          | EmptyString => 0
          end
      end
  end.

Definition findall_count (r : regex) (s : string) : nat :=
  count_from r 0 None s.

(** [None] is Python's [None]: no count available. *)
Definition check_typescript_error_count (w : world) : M (option nat) :=
  try_except
    (present <- observe (frontend_exists w) ;;
     if negb present then ret None
     else
       stderr <- observe (type_check_stderr w) ;;
       let error_count := findall_count error_marker stderr in
       ret (Some error_count))
    (fun _ => ret None).

(** First entry, in the order of the dictionary, whose trigger is found
    in the path (with [re.IGNORECASE]). *)
Fixpoint first_warning (entries : list pattern_info) (file_path : string)
  : option string :=
  match entries with
  | [] => None
  | pattern_info :: rest =>
      if search true (trigger pattern_info) file_path
      then Some (warning pattern_info)
      else first_warning rest file_path
  end.

Definition get_pattern_warning (file_path : string) : option string :=
  first_warning PATTERN_WARNINGS file_path.

(** [get_pattern_warning] on any object: the first [re.search] raises
    on anything but a [str]. *)
Definition pattern_warning_of (file_path : value) : M (option string) :=
  match file_path with
  | VStr s => ret (get_pattern_warning s)
  | _ => re_type_error file_path
  end.

Definition nl : string := String Chars.newline EmptyString.

(** [str(n)] of a count. *)
Definition decimal (n : nat) : string :=
  NilEmpty.string_of_uint (Nat.to_uint n).

(** The three lines added to the warning when errors were counted. *)
Definition enrichment (error_count : nat) : string :=
  nl ++ "⚠️  CURRENT TYPESCRIPT ERRORS: " ++ decimal error_count
    ++ nl
    ++ "   Consider fixing existing errors before adding new code."
    ++ nl
    ++ "   Run: /lint-and-format --frontend --categorize"
    ++ nl.

(** [if warning:] on [None] or a [str]. *)
Definition warning_given (w : option string) : bool :=
  match w with
  | Some s => negb (s =? "")
  | None => false
  end.

(** The [try] block of [main]. *)
Definition main_body (w : world) (input : stdin) : M unit :=
  hook_input <- json_load input ;;
  tool_input <- get hook_input "tool_input" (VDict []) ;;
  tool_name <- get hook_input "tool_name" (VStr "") ;;
  if negb (match tool_name with
           | VStr s => (s =? "Write") || (s =? "Edit")
           | _ => false
           end)
  then sys_exit 0
  else
    file_path <- get tool_input "file_path" (VStr "") ;;
    if negb (truthy file_path) then sys_exit 0
    else
      in_src <- (a <- str_in "frontend/src" file_path ;;
                 if a then ret true else str_in "frontend\src" file_path) ;;
      if negb in_src then sys_exit 0
      else
        warning <- pattern_warning_of file_path ;;
        (if warning_given warning then
           error_count <- check_typescript_error_count w ;;
           let output :=
             match warning with Some s => s | None => "" end
             ++ match error_count with
                | Some n => if (0 <? n)%nat then enrichment n else ""
                | None => ""
                end in
           print_stderr output
         else ret tt) ;;;
        sys_exit 0.

Definition error_prefix : string := "TypeScript Quality Guard hook error: ".

Definition main (w : world) (input : stdin) : M unit :=
  try_except (main_body w input)
    (fun e =>
       print_stderr (error_prefix ++ str_of_exn e) ;;;
       sys_exit 0).

End TsGuard.

(** ** Notions used to state the properties *)

Module Shape.
Import Chars Re.

(** Two strings that differ at most in the case of their letters. *)
Definition same_letters (s1 s2 : string) : Prop :=
  lower_str s1 = lower_str s2.

Definition lower_opt (o : option ascii) : option ascii :=
  option_map lower o.

(** Two continuations that succeed together on positions that differ
    at most in letter case. *)
Definition agree (k1 k2 : cont) : Prop :=
  forall p1 p2 t1 t2,
    lower_opt p1 = lower_opt p2 -> same_letters t1 t2 ->
    is_some (k1 p1 t1) = is_some (k2 p2 t2).

(** A string of [\w] characters only. *)
Fixpoint all_word (s : string) : bool :=
  match s with
  | EmptyString => true
  | String c t => is_word c && all_word t
  end.

(** A continuation that fails on every string of word characters. *)
Definition dead (k : cont) : Prop :=
  forall prev s, all_word s = true -> k prev s = None.

Definition nonword_item (p : cclass) : bool :=
  match p with
  | Lit c => negb (is_word c)
  | Space => true
  | _ => false
  end.

(** A syntactic test: every match of the pattern reads at least one
    character that is not a word character. *)
Fixpoint needs_nonword (r : regex) : bool :=
  match r with
  | One p | Plus p => nonword_item p
  | Seq r1 r2 => needs_nonword r1 || needs_nonword r2
  | Alt r1 r2 => needs_nonword r1 && needs_nonword r2
  | _ => false
  end.

(** Reading the literal [w] at the head of [s]. *)
Fixpoint strip (ic : bool) (w : string) (prev : option ascii) (s : string)
  : option pos :=
  match w with
  | EmptyString => Some (prev, s)
  | String x w' =>
      match s with
      | String c t =>
          if accepts ic (Lit x) c then strip ic w' (Some c) t else None
      | EmptyString => None
      end
  end.

(** Equality of two strings, up to letter case when [ic] is set. *)
Definition same (ic : bool) (s w : string) : bool :=
  if ic then lower_str s =? lower_str w else s =? w.

(** ASCII characters and ASCII text: where the character tables are
    those of [re]. *)
Definition is_ascii (c : ascii) : bool := (code c <? 128)%nat.

Fixpoint ascii_text (s : string) : bool :=
  match s with
  | EmptyString => true
  | String c t => is_ascii c && ascii_text t
  end.

(** The neighbour of a position, when there is one, is an ASCII
    character other than a word character: [re] sees no word character
    on that side. *)
Definition ascii_nonword (o : option ascii) : bool :=
  match o with
  | Some c => is_ascii c && negb (is_word c)
  | None => true
  end.

End Shape.

(** ** Events *)

Module Event.
Import Py.

(** The decoded event is an object whose [tool_input] is an object
    with the string [cmd] under [command]. *)
Definition carries_command (i : stdin) (cmd : string) : Prop :=
  exists d ti,
    i = Json (VDict d)
    /\ lookup "tool_input" d = Some (VDict ti)
    /\ lookup "command" ti = Some (VStr cmd).

(** The decoded event is a write or an edit of the file [path]. *)
Definition writes_file (i : stdin) (path : string) : Prop :=
  exists d ti tool,
    i = Json (VDict d)
    /\ lookup "tool_name" d = Some (VStr tool)
    /\ (tool = "Write" \/ tool = "Edit")
    /\ lookup "tool_input" d = Some (VDict ti)
    /\ lookup "file_path" ti = Some (VStr path).

(** The event of a command, as the agent runtime sends it. *)
Definition bash_event (cmd : string) : stdin :=
  Json (VDict [("tool_name", VStr "Bash");
               ("tool_input", VDict [("command", VStr cmd)])]).

Definition file_event (tool path : string) : stdin :=
  Json (VDict [("tool_name", VStr tool);
               ("tool_input", VDict [("file_path", VStr path)])]).

(** Path inside the front-end source tree, as [main] tests it. *)
Definition in_frontend_src (path : string) : bool :=
  contains "frontend/src" path || contains "frontend\src" path.

(** [n] occurs in [h]. *)
Definition substring_of (n h : string) : Prop :=
  exists a b, h = a ++ n ++ b.

(** What [main] adds to a warning for a given answer of the probe. *)
Definition extra (count : option nat) : string :=
  match count with
  | Some n => if (0 <? n)%nat then TsGuard.enrichment n else ""
  | None => ""
  end.

(** Reading a decimal numeral back: one ASCII digit or more, without
    a leading zero before another digit. *)
Fixpoint read_digits (acc : nat) (s : string) : option nat :=
  match s with
  | EmptyString => Some acc
  | String c t =>
      if Chars.is_digit c
      then read_digits (10 * acc + (Chars.code c - 48)) t
      else None
  end.

Definition read_decimal (s : string) : option nat :=
  match s with
  | EmptyString => None
  | String "0" (String _ _) => None
  | _ => read_digits 0 s
  end.

(** The count that the probe hands to [main], if any. *)
Definition probe_value (w : TsGuard.world) : option nat :=
  match TsGuard.check_typescript_error_count w [] with
  | (Ret r, _) => r
  | _ => None
  end.

(** The payload of the decoded event [d] has nothing under [key]: the
    event has no [tool_input], or its [tool_input] is an object in which
    [key] is absent or bound to a value that Python takes as false
    ([None], the empty string, 0, [False], an empty list or object). *)
Definition lacks_field (key : string) (d : list (string * value)) : Prop :=
  lookup "tool_input" d = None
  \/ exists ti,
       lookup "tool_input" d = Some (VDict ti)
       /\ (lookup key ti = None
           \/ exists v, lookup key ti = Some v /\ truthy v = false).

Definition is_object (v : value) : bool :=
  match v with VDict _ => true | _ => false end.

Definition is_text (v : value) : bool :=
  match v with VStr _ => true | _ => false end.

(** The action kind of the decoded event [d] is "Write" or "Edit". *)
Definition write_or_edit (d : list (string * value)) : Prop :=
  exists tool,
    lookup "tool_name" d = Some (VStr tool)
    /\ (tool = "Write" \/ tool = "Edit").

(** The texts of the exceptions met on an event of the wrong shape. *)
Definition no_get (v : value) : string :=
  "'" ++ type_name v ++ "' object has no attribute 'get'".
Definition no_text (v : value) : string :=
  "expected string or bytes-like object, got '" ++ type_name v ++ "'".
Definition not_iterable (v : value) : string :=
  "argument of type '" ++ type_name v ++ "' is not iterable".

(** The string [needle] is an element of the list [v], or a key of the
    object [v]. *)
Definition member (needle : string) (v : value) : bool :=
  match v with
  | VList l =>
      existsb (fun x => match x with
                        | VStr s => s =? needle
                        | _ => false
                        end) l
  | VDict kv => is_some (lookup needle kv)
  | _ => false
  end.

(** What the advisory guard prints on a write or edit whose file path
    [v] is neither false nor a string: a number cannot be searched for
    "frontend/src"; a list or an object can, and when it holds that
    string (or the one with a backslash) the search of the first
    trigger fails on it. *)
Definition wrong_path_output (v : value) : list string :=
  match v with
  | VList _ | VDict _ =>
      if member "frontend/src" v || member "frontend\src" v
      then [TsGuard.error_prefix ++ no_text v]
      else []
  | _ => [TsGuard.error_prefix ++ not_iterable v]
  end.

(** The action kind of the decoded event [d] is neither "Write" nor
    "Edit". *)
Definition not_write_or_edit (d : list (string * value)) : Prop :=
  forall tool,
    lookup "tool_name" d = Some (VStr tool) ->
    tool <> "Write" /\ tool <> "Edit".

(** Two states of the outside world: the type-check command runs
    into its time-out; it ends and reports two errors. *)
Definition world_timeout : TsGuard.world :=
  {| TsGuard.frontend_exists := TsGuard.Gives true;
     TsGuard.type_check_stderr :=
       TsGuard.Fails (TimeoutExpired "timed out after 30 seconds") |}.

Definition world_two_errors : TsGuard.world :=
  {| TsGuard.frontend_exists := TsGuard.Gives true;
     TsGuard.type_check_stderr :=
       TsGuard.Gives
         ("src/a.ts(1,1): error TS2322: Type mismatch." ++ TsGuard.nl
          ++ "src/b.ts(7,3): error TS7006: Implicit any." ++ TsGuard.nl) |}.

End Event.

(** ** The management-command family of the command guard *)

Module Family.
Import Re DockerGuard.

(** The seventh block pattern and the fifth allow pattern. *)
Definition management_block : regex :=
  cat [WordB; lit "python"; sp; lit "manage.py"; sp; not_startapp; ws].
Definition startapp_allow : regex :=
  cat [WordB; lit "python"; sp; lit "manage.py"; sp; lit "startapp"; WordB].

(** The message that [get_help_message] picks for the command
    "python manage.py <sub>". *)
Definition family_message (sub : string) : string :=
  if sub =? "runserver" then HELP_MESSAGES django_runserver
  else HELP_MESSAGES django_management.

End Family.

(** ** Families of commands and paths *)

Module Cases.
Import Chars Re Shape Py DockerGuard.

(** The character before the position reached after reading [a]. *)
Fixpoint last_of (prev : option ascii) (a : string) : option ascii :=
  match a with
  | EmptyString => prev
  | String c t => last_of (Some c) t
  end.

(** A string of [\d] characters only. *)
Fixpoint all_digit (s : string) : bool :=
  match s with
  | EmptyString => true
  | String c t => is_digit c && all_digit t
  end.

(** The word is the name of one of the three servers of the ASGI/WSGI
    block patterns. *)
Definition asgi_word (ic : bool) (w : string) : bool :=
  same ic w "uvicorn" || same ic w "gunicorn" || same ic w "daphne".

(** The words that a block pattern finds when they stand alone:
    [\bvite\b], [\buvicorn\b], [\bgunicorn\b], [\bdaphne\b]. *)
Definition lone_blocked_word (w : string) : bool :=
  same true w "vite" || asgi_word true w.

(** Phrases of the allow patterns that end at a word boundary. *)
Definition allow_phrases : list string :=
  [ "npm run build"; "npm run test"; "yarn build"; "vite build";
    "python manage.py startapp"; "docker compose"; "docker-compose";
    "npm install"; "npm ci"; "npm update"; "pip install" ].

(** What the classifier answers on "npm run <script>". *)
Definition npm_run_outcome (script : string) : bool * string :=
  if same true script "build" || same true script "test" then (false, "")
  else if same true script "dev" || same true script "serve"
          || lone_blocked_word script
  then (true,
        if (script =? "dev") || (script =? "serve")
        then HELP_MESSAGES npm_dev
        else if asgi_word false script then HELP_MESSAGES uvicorn
        else fallback_message)
  else (false, "").

(** The fourth block pattern. *)
Definition vite_block : regex :=
  cat [WordB; lit "vite"; WordB; NotAhead (Seq any (lit "build"))].

(** What the classifier answers on "vite <word>". *)
Definition vite_outcome (w : string) : bool * string :=
  if contains "build" (lower_str w) then (false, "")
  else (true,
        if asgi_word false w then HELP_MESSAGES uvicorn
        else fallback_message).

(** What the classifier answers on "./manage.py <word>". *)
Definition manage_py_outcome (w : string) : bool * string :=
  if lone_blocked_word w
  then (true,
        if asgi_word false w then HELP_MESSAGES uvicorn
        else fallback_message)
  else (false, "").

(** The three patterns that open with [\b\.\/manage\.py]: the sixth
    and the eighth block pattern and the sixth allow pattern. *)
Definition dot_slash_patterns : list regex :=
  [ nth 5 BLOCKED_PATTERNS Eps;
    nth 7 BLOCKED_PATTERNS Eps;
    nth 5 ALLOWED_PATTERNS Eps ].

(** The names of the three servers. *)
Definition servers : list string := ["uvicorn"; "gunicorn"; "daphne"].

(** What a run of the hook gives for an answer of the classifier. *)
Definition rendered (answer : bool * string) : Z * list string :=
  if fst answer then (2%Z, [snd answer]) else (0%Z, []).

(** A string without line feed. *)
Fixpoint no_newline (s : string) : bool :=
  match s with
  | EmptyString => true
  | String c t => negb (Ascii.eqb c newline) && no_newline t
  end.

(** [s] ends with [suffix]. *)
Definition ends_with (suffix s : string) : Prop :=
  exists p, s = p ++ suffix.

(** The triggers of the first two entries of [PATTERN_WARNINGS]. *)
Definition test_trigger : regex := Alt (lit ".spec.ts") (lit ".test.ts").
Definition vue_trigger : regex := Seq (lit ".vue") EndS.

(** What is left of [s] after the text [w] at its head (letter case
    matters). *)
Fixpoint drop_prefix (w s : string) : option string :=
  match w with
  | EmptyString => Some s
  | String x w' =>
      match s with
      | String c t => if Ascii.eqb c x then drop_prefix w' t else None
      | EmptyString => None
      end
  end.

(** Digits and then a colon; [seen] tells whether a digit was read. *)
Fixpoint digits_then_colon (seen : bool) (s : string) : bool :=
  match s with
  | EmptyString => false
  | String c t =>
      if is_digit c then digits_then_colon true t
      else seen && Ascii.eqb c ":"
  end.

(** What follows the digits in the marker: the colon. *)
Definition after_digits : cont :=
  fun p u => run false (Seq (lit ":") Eps) p u stop.

(** The error marker stands at the head of [s]: "error TS", one digit
    or more, a colon. *)
Definition marker_here (s : string) : bool :=
  match drop_prefix "error TS" s with
  | Some t => digits_then_colon false t
  | None => false
  end.

(** The number of positions of [s] at which the marker stands. *)
Fixpoint occurrences (s : string) : nat :=
  (if marker_here s then 1 else 0)
  + match s with
    | EmptyString => 0
    | String _ t => occurrences t
    end.

(** None of the first [n] characters of [s] is the letter e. *)
Fixpoint no_e_prefix (n : nat) (s : string) : bool :=
  match n, s with
  | S k, String c t => negb (Ascii.eqb c "e") && no_e_prefix k t
  | _, _ => true
  end.

End Cases.

(** ** Paths that trigger the later warnings *)

Module PathCases.
Import Chars Re Shape Py Event Cases.
(** [x], then text without line feed, then [y] occur in [s]. *)
Definition between (x y s : string) : Prop :=
  exists a m b, s = a ++ x ++ m ++ y ++ b /\ no_newline m = true.

(** The triggers of the last two entries of [PATTERN_WARNINGS]. *)
Definition types_trigger : regex :=
  Alt (lit ".types.ts") (cat [lit "types/"; any; lit ".ts"]).
Definition composable_trigger : regex :=
  cat [lit "composables/"; any; lit ".ts"].

(** The four tests on a lower-cased path that decide the warning. *)
Definition test_path (lp : string) : Prop :=
  substring_of ".spec.ts" lp \/ substring_of ".test.ts" lp.
Definition vue_path (lp : string) : Prop :=
  ends_with ".vue" lp \/ ends_with (".vue" ++ TsGuard.nl) lp.
Definition types_path (lp : string) : Prop :=
  substring_of ".types.ts" lp \/ between "types/" ".ts" lp.
Definition composable_path (lp : string) : Prop :=
  between "composables/" ".ts" lp.
End PathCases.

(** ** The celery worker command *)

Module CeleryCases.
Import Chars Re Shape Py Event DockerGuard Cases.

(** What the classifier answers on "celery -A <app> worker". *)
Definition celery_outcome (app : string) : bool * string :=
  if same true app "docker" then (false, "")
  else (true,
        if asgi_word false app then HELP_MESSAGES uvicorn
        else HELP_MESSAGES celery_worker).

End CeleryCases.

(** * Properties *)

(** ** Facts on the character tables *)

Module CharFacts.
Import Chars.

Ltac all_chars c := destruct c as [[] [] [] [] [] [] [] []]; vm_compute.

Lemma lower_idem (c : ascii) : lower (lower c) = lower c.
Proof. all_chars c; reflexivity. Qed.

Lemma is_word_lower (c : ascii) : is_word (lower c) = is_word c.
Proof. all_chars c; reflexivity. Qed.

Lemma is_space_lower (c : ascii) : is_space (lower c) = is_space c.
Proof. all_chars c; reflexivity. Qed.

Lemma is_digit_lower (c : ascii) : is_digit (lower c) = is_digit c.
Proof. all_chars c; reflexivity. Qed.

Lemma newline_lower (c : ascii) :
  Ascii.eqb (lower c) newline = Ascii.eqb c newline.
Proof. all_chars c; reflexivity. Qed.

Lemma word_not_space (c : ascii) : is_word c = true -> is_space c = false.
Proof. all_chars c; intros H; first [reflexivity | discriminate H]. Qed.

Lemma lower_str_idem (s : string) : lower_str (lower_str s) = lower_str s.
Proof.
  induction s as [|c t IH]; simpl; [reflexivity|].
  now rewrite lower_idem, IH.
Qed.

Lemma length_app (s1 s2 : string) :
  String.length (s1 ++ s2) = String.length s1 + String.length s2.
Proof. induction s1 as [|c t IH]; simpl; [reflexivity | now rewrite IH]. Qed.

Lemma app_empty (s : string) : s ++ "" = s.
Proof. induction s as [|c t IH]; simpl; [reflexivity | now rewrite IH]. Qed.

End CharFacts.

(** ** Facts on the matcher *)

Module ReFacts.
Import Chars Re Shape CharFacts.

Lemma is_some_orelse (x y : option pos) :
  is_some (orelse x y) = is_some x || is_some y.
Proof. now destruct x, y. Qed.

Lemma accepts_case (p : cclass) (c1 c2 : ascii) :
  lower c1 = lower c2 -> accepts true p c1 = accepts true p c2.
Proof.
  intros H; destruct p; simpl.
  - now rewrite H.
  - now rewrite <- (is_space_lower c1), <- (is_space_lower c2), H.
  - now rewrite <- (is_word_lower c1), <- (is_word_lower c2), H.
  - now rewrite <- (is_digit_lower c1), <- (is_digit_lower c2), H.
  - now rewrite <- (newline_lower c1), <- (newline_lower c2), H.
Qed.

Lemma word_opt_case (p1 p2 : option ascii) :
  lower_opt p1 = lower_opt p2 -> word_opt p1 = word_opt p2.
Proof.
  destruct p1 as [a|], p2 as [b|]; simpl; intros H; try discriminate; auto.
  injection H as H.
  now rewrite <- (is_word_lower a), <- (is_word_lower b), H.
Qed.

Lemma same_letters_cons (c1 c2 : ascii) (t1 t2 : string) :
  same_letters (String c1 t1) (String c2 t2) ->
  lower c1 = lower c2 /\ same_letters t1 t2.
Proof. unfold same_letters; simpl; intros H; now injection H. Qed.

Lemma at_boundary_case (p1 p2 : option ascii) (s1 s2 : string) :
  lower_opt p1 = lower_opt p2 -> same_letters s1 s2 ->
  at_boundary p1 s1 = at_boundary p2 s2.
Proof.
  intros Hp Hs; unfold at_boundary.
  rewrite (word_opt_case _ _ Hp); f_equal.
  apply word_opt_case.
  destruct s1, s2; simpl; try discriminate Hs; auto.
  apply same_letters_cons in Hs as [-> _]; reflexivity.
Qed.

Lemma at_end_case (s1 s2 : string) :
  same_letters s1 s2 -> at_end s1 = at_end s2.
Proof.
  destruct s1 as [|c1 t1], s2 as [|c2 t2]; simpl; try discriminate; auto.
  intros H; apply same_letters_cons in H as [Hc Ht].
  destruct t1, t2; try discriminate Ht; auto.
  now rewrite <- (newline_lower c1), <- (newline_lower c2), Hc.
Qed.

Lemma star_case (p : cclass) (s1 : string) :
  forall s2 prev1 prev2 k1 k2,
    same_letters s1 s2 -> lower_opt prev1 = lower_opt prev2 ->
    agree k1 k2 ->
    is_some (star true p prev1 s1 k1) = is_some (star true p prev2 s2 k2).
Proof.
  induction s1 as [|c1 t1 IH]; intros [|c2 t2] prev1 prev2 k1 k2 Hs Hp Hk;
    try discriminate Hs; simpl.
  - now apply Hk.
  - destruct (same_letters_cons _ _ _ _ Hs) as [Hc Ht].
    rewrite (accepts_case p _ _ Hc).
    destruct (accepts true p c2).
    + rewrite !is_some_orelse. f_equal.
      * apply IH; auto. simpl. now rewrite Hc.
      * now apply Hk.
    + now apply Hk.
Qed.

Lemma agree_stop : agree stop stop.
Proof. now intros ? ? ? ? _ _. Qed.

(** With [re.IGNORECASE] the matcher cannot tell apart two subjects
    that differ in letter case only. *)
Lemma run_case (r : regex) :
  forall s1 s2 prev1 prev2 k1 k2,
    same_letters s1 s2 -> lower_opt prev1 = lower_opt prev2 ->
    agree k1 k2 ->
    is_some (run true r prev1 s1 k1) = is_some (run true r prev2 s2 k2).
Proof.
  induction r as [|p|r1 IH1 r2 IH2|r1 IH1 r2 IH2|p|p| | |r IH];
    intros s1 s2 prev1 prev2 k1 k2 Hs Hp Hk; simpl.
  - now apply Hk.
  - destruct s1 as [|c1 t1], s2 as [|c2 t2]; try discriminate Hs; auto.
    destruct (same_letters_cons _ _ _ _ Hs) as [Hc Ht].
    rewrite (accepts_case p _ _ Hc).
    destruct (accepts true p c2); auto.
    apply Hk; auto. simpl. now rewrite Hc.
  - apply IH1; auto.
    intros q1 q2 t1 t2 Hq Ht. now apply IH2.
  - rewrite !is_some_orelse. f_equal; [apply IH1 | apply IH2]; auto.
  - unfold plus.
    destruct s1 as [|c1 t1], s2 as [|c2 t2]; try discriminate Hs; auto.
    destruct (same_letters_cons _ _ _ _ Hs) as [Hc Ht].
    rewrite (accepts_case p _ _ Hc).
    destruct (accepts true p c2); auto.
    apply star_case; auto. simpl. now rewrite Hc.
  - now apply star_case.
  - rewrite (at_boundary_case _ _ _ _ Hp Hs).
    destruct (at_boundary prev2 s2); auto.
  - rewrite (at_end_case _ _ Hs).
    destruct (at_end s2); auto.
  - pose proof (IH s1 s2 prev1 prev2 stop stop Hs Hp agree_stop) as E.
    destruct (run true r prev1 s1 stop), (run true r prev2 s2 stop);
      try discriminate E; auto.
Qed.

Lemma search_from_case (r : regex) (s1 : string) :
  forall s2 prev1 prev2,
    same_letters s1 s2 -> lower_opt prev1 = lower_opt prev2 ->
    is_some (search_from true r prev1 s1)
    = is_some (search_from true r prev2 s2).
Proof.
  induction s1 as [|c1 t1 IH]; intros [|c2 t2] prev1 prev2 Hs Hp;
    try discriminate Hs; simpl;
    pose proof (run_case r _ _ _ _ _ _ Hs Hp agree_stop) as E.
  - destruct (run true r prev1 "" stop), (run true r prev2 "" stop);
      try discriminate E; auto.
  - destruct (same_letters_cons _ _ _ _ Hs) as [Hc Ht].
    destruct (run true r prev1 (String c1 t1) stop),
             (run true r prev2 (String c2 t2) stop);
      try discriminate E; auto.
    apply IH; auto. simpl. now rewrite Hc.
Qed.

Lemma search_case (r : regex) (s1 s2 : string) :
  same_letters s1 s2 -> search true r s1 = search true r s2.
Proof. intros H. unfold search. now apply search_from_case. Qed.

(** *** Runs of word characters *)

Lemma all_word_cons (c : ascii) (t : string) :
  all_word (String c t) = true -> is_word c = true /\ all_word t = true.
Proof. simpl; intros H; now apply andb_true_iff in H. Qed.

Lemma nonword_item_rejects (ic : bool) (p : cclass) (c : ascii) :
  nonword_item p = true -> is_word c = true -> accepts ic p c = false.
Proof.
  destruct p as [x| | | |]; simpl; try discriminate.
  - intros Hx Hc. apply negb_true_iff in Hx.
    destruct ic.
    + destruct (Ascii.eqb_spec (lower c) (lower x)) as [E|]; auto.
      rewrite <- (is_word_lower c), E, is_word_lower in Hc. congruence.
    + destruct (Ascii.eqb_spec c x) as [E|]; auto. congruence.
  - intros _. apply word_not_space.
Qed.

Lemma star_dead (ic : bool) (p : cclass) (k : cont) :
  dead k ->
  forall s prev, all_word s = true -> star ic p prev s k = None.
Proof.
  intros Hk; induction s as [|c t IH]; intros prev Hs; simpl.
  - now apply Hk.
  - destruct (all_word_cons _ _ Hs) as [_ Ht].
    rewrite (Hk _ _ Hs), (IH _ Ht). now destruct (accepts ic p c).
Qed.

(** A matcher can only succeed through its continuation. *)
Lemma run_dead (ic : bool) (r : regex) :
  forall k, dead k ->
  forall s prev, all_word s = true -> run ic r prev s k = None.
Proof.
  induction r as [|p|r1 IH1 r2 IH2|r1 IH1 r2 IH2|p|p| | |r IH];
    intros k Hk s prev Hs; simpl.
  - now apply Hk.
  - destruct s as [|c t]; auto.
    destruct (all_word_cons _ _ Hs) as [_ Ht].
    rewrite (Hk _ _ Ht). now destruct (accepts ic p c).
  - apply IH1; auto. intros q t Ht. now apply IH2.
  - now rewrite IH1, IH2.
  - destruct s as [|c t]; simpl; auto.
    destruct (all_word_cons _ _ Hs) as [_ Ht].
    rewrite (star_dead ic p k Hk _ _ Ht). now destruct (accepts ic p c).
  - now apply star_dead.
  - rewrite (Hk _ _ Hs). now destruct (at_boundary prev s).
  - rewrite (Hk _ _ Hs). now destruct (at_end s).
  - rewrite (Hk _ _ Hs). now destruct (run ic r prev s stop).
Qed.

(** A pattern that needs a character outside [\w] finds nothing at the
    head of a run of word characters... *)
Lemma run_needs (ic : bool) (r : regex) :
  needs_nonword r = true ->
  forall k s prev, all_word s = true -> run ic r prev s k = None.
Proof.
  induction r as [|p|r1 IH1 r2 IH2|r1 IH1 r2 IH2|p|p| | |r IH];
    simpl; try discriminate; intros Hn k s prev Hs.
  - destruct s as [|c t]; auto.
    destruct (all_word_cons _ _ Hs) as [Hc _].
    now rewrite (nonword_item_rejects ic p c Hn Hc).
  - apply orb_true_iff in Hn as [Hn|Hn].
    + now apply IH1.
    + apply run_dead; auto. intros q t Ht. now apply IH2.
  - apply andb_true_iff in Hn as [Hn1 Hn2].
    now rewrite IH1, IH2.
  - destruct s as [|c t]; simpl; auto.
    destruct (all_word_cons _ _ Hs) as [Hc _].
    now rewrite (nonword_item_rejects ic p c Hn Hc).
Qed.

(** ... nor anywhere inside it. *)
Lemma search_from_needs (ic : bool) (r : regex) :
  needs_nonword r = true ->
  forall s prev, all_word s = true -> search_from ic r prev s = None.
Proof.
  intros Hn; induction s as [|c t IH]; intros prev Hs; simpl;
    rewrite (run_needs ic r Hn _ _ _ Hs); auto.
  destruct (all_word_cons _ _ Hs) as [_ Ht]. now apply IH.
Qed.

Lemma star_space_word (ic : bool) (prev : option ascii) (s : string) (k : cont) :
  all_word s = true -> star ic Space prev s k = k prev s.
Proof.
  destruct s as [|c t]; simpl; auto.
  intros H; apply andb_true_iff in H as [Hc _].
  now rewrite (word_not_space c Hc).
Qed.

Lemma star_stop (ic : bool) (p : cclass) (s : string) :
  forall prev, is_some (star ic p prev s stop) = true.
Proof.
  induction s as [|c t IH]; intros prev; simpl; auto.
  destruct (accepts ic p c); auto.
  now rewrite is_some_orelse, IH.
Qed.

(** *** Literals *)

Lemma run_lit (ic : bool) (w : string) :
  forall prev s k,
    run ic (lit w) prev s k
    = match strip ic w prev s with
      | Some (p, t) => k p t
      | None => None
      end.
Proof.
  induction w as [|x w IH]; intros prev s k; simpl; auto.
  destruct s as [|c t]; auto.
  destruct (if ic then _ else _); auto.
Qed.

Lemma same_cons (ic : bool) (c x : ascii) (t w : string) :
  same ic (String c t) (String x w) = accepts ic (Lit x) c && same ic t w.
Proof. destruct ic; simpl; reflexivity. Qed.

(** A literal word followed by [\b], tried at the head of a run of
    word characters that follows a word character, succeeds exactly
    when the run is that word. *)
Lemma lit_wordb_after_word (ic : bool) (w : string) :
  forall sub prev,
    all_word sub = true -> word_opt prev = true ->
    is_some (run ic (Seq (lit w) WordB) prev sub stop) = same ic sub w.
Proof.
  induction w as [|x w IH]; intros sub prev Hs Hp.
  - simpl. unfold at_boundary. rewrite Hp.
    destruct sub as [|c t]; [now destruct ic|].
    destruct (all_word_cons _ _ Hs) as [Hc _].
    simpl. rewrite Hc. now destruct ic.
  - destruct sub as [|c t]; [now destruct ic|].
    destruct (all_word_cons _ _ Hs) as [Hc Ht].
    rewrite same_cons.
    change (run ic (Seq (lit (String x w)) WordB) prev (String c t) stop)
      with (if accepts ic (Lit x) c
            then run ic (Seq (lit w) WordB) (Some c) t stop
            else None).
    destruct (accepts ic (Lit x) c); [|reflexivity].
    now apply IH.
Qed.

Lemma lit_wordb (ic : bool) (x : ascii) (w sub : string) (prev : option ascii) :
  all_word sub = true ->
  is_some (run ic (Seq (lit (String x w)) WordB) prev sub stop)
  = same ic sub (String x w).
Proof.
  intros Hs.
  destruct sub as [|c t]; [now destruct ic|].
  destruct (all_word_cons _ _ Hs) as [Hc Ht].
  rewrite same_cons.
  change (run ic (Seq (lit (String x w)) WordB) prev (String c t) stop)
    with (if accepts ic (Lit x) c
          then run ic (Seq (lit w) WordB) (Some c) t stop
          else None).
  destruct (accepts ic (Lit x) c); [|reflexivity].
  now apply lit_wordb_after_word.
Qed.

(** *** Neighbours that are no word characters *)

Lemma ascii_nonword_word (o : option ascii) :
  ascii_nonword o = true -> word_opt o = false.
Proof.
  destruct o as [c|]; simpl; [|reflexivity].
  intros H. apply andb_true_iff in H as [_ H].
  now apply negb_true_iff in H.
Qed.

Lemma word_item_rejects (ic : bool) (x c : ascii) :
  is_word x = true -> is_word c = false -> accepts ic (Lit x) c = false.
Proof.
  intros Hx Hc. simpl. destruct ic.
  - destruct (Ascii.eqb_spec (lower c) (lower x)) as [E|]; auto.
    rewrite <- (is_word_lower c), E, is_word_lower in Hc. congruence.
  - destruct (Ascii.eqb_spec c x) as [E|]; auto. congruence.
Qed.

(** A literal word followed by [\b], tried at the head of a run of word
    characters that is followed by something else than a word
    character, succeeds exactly when the run is that word. *)
Lemma lit_wordb_then_rest_after_word (ic : bool) (rest : string) (w : string) :
  word_opt (head rest) = false ->
  forall sub prev,
    all_word w = true -> all_word sub = true -> word_opt prev = true ->
    is_some (run ic (Seq (lit w) WordB) prev (sub ++ rest) stop)
    = same ic sub w.
Proof.
  intros Hr. induction w as [|x w IH]; intros sub prev Hw Hs Hp.
  - simpl. unfold at_boundary. rewrite Hp.
    destruct sub as [|c t].
    + simpl. rewrite Hr. now destruct ic.
    + destruct (all_word_cons _ _ Hs) as [Hc _].
      simpl. rewrite Hc. now destruct ic.
  - destruct (all_word_cons _ _ Hw) as [Hx Hw'].
    destruct sub as [|c t].
    + destruct rest as [|c r]; [now destruct ic|].
      change (run ic (Seq (lit (String x w)) WordB) prev ("" ++ String c r) stop)
        with (if accepts ic (Lit x) c
              then run ic (Seq (lit w) WordB) (Some c) r stop
              else None).
      rewrite (word_item_rejects ic x c Hx Hr). now destruct ic.
    + destruct (all_word_cons _ _ Hs) as [Hc Ht].
      rewrite same_cons.
      change (run ic (Seq (lit (String x w)) WordB) prev
                (String c t ++ rest) stop)
        with (if accepts ic (Lit x) c
              then run ic (Seq (lit w) WordB) (Some c) (t ++ rest) stop
              else None).
      destruct (accepts ic (Lit x) c); [|reflexivity].
      now apply IH.
Qed.

Lemma lit_wordb_then_rest (ic : bool) (x : ascii) (w sub rest : string)
  (prev : option ascii) :
  word_opt (head rest) = false ->
  all_word (String x w) = true -> all_word sub = true -> sub <> "" ->
  is_some (run ic (Seq (lit (String x w)) WordB) prev (sub ++ rest) stop)
  = same ic sub (String x w).
Proof.
  intros Hr Hw Hs Hne.
  destruct (all_word_cons _ _ Hw) as [Hx Hw'].
  destruct sub as [|c t]; [now elim Hne|].
  destruct (all_word_cons _ _ Hs) as [Hc Ht].
  rewrite same_cons.
  change (run ic (Seq (lit (String x w)) WordB) prev
            (String c t ++ rest) stop)
    with (if accepts ic (Lit x) c
          then run ic (Seq (lit w) WordB) (Some c) (t ++ rest) stop
          else None).
  destruct (accepts ic (Lit x) c); [|reflexivity].
  now apply lit_wordb_then_rest_after_word.
Qed.

End ReFacts.

(** ** The command guard *)

Module DockerFacts.
Import Chars Re Shape Py Event DockerGuard Family CharFacts ReFacts.

(** What a run of the hook gives on an event that carries a command. *)
Lemma main_on_command (i : stdin) (cmd : string) :
  carries_command i cmd ->
  process (main i)
  = if cmd =? "" then (0%Z, [])
    else if fst (should_block_command cmd)
         then (2%Z, [snd (should_block_command cmd)])
         else (0%Z, []).
Proof.
  intros (d & ti & -> & Hti & Hcmd).
  unfold process, main, try_except, main_body, bind, json_load, get, ret.
  rewrite Hti, Hcmd. simpl.
  destruct cmd as [|c t]; [reflexivity|]. simpl.
  now destruct (should_block_command (String c t)) as [[] reason].
Qed.

Lemma bash_event_carries (cmd : string) : carries_command (bash_event cmd) cmd.
Proof. now exists [("tool_name", VStr "Bash"); ("tool_input", VDict [("command", VStr cmd)])], [("command", VStr cmd)]. Qed.

Lemma matched_in (ic : bool) (ps : list regex) (cmd : string) :
  (exists p, In p ps /\ search ic p cmd = true) <->
  existsb (fun p => search ic p cmd) ps = true.
Proof. symmetry. apply existsb_exists. Qed.

Lemma unmatched_in (ic : bool) (ps : list regex) (cmd : string) :
  (forall p, In p ps -> search ic p cmd = false) <->
  existsb (fun p => search ic p cmd) ps = false.
Proof.
  induction ps as [|q ps IH]; simpl.
  - split; auto. intros _ p [].
  - rewrite orb_false_iff, <- IH. split.
    + intros H; split; [apply H; now left|]. intros p Hp; apply H; now right.
    + intros [Hq H] p [<-|Hp]; auto.
Qed.

(** C1.  A command in which an allow pattern is found is allowed:
    [should_block_command] answers [(False, "")] and the hook leaves
    with status 0 and prints nothing, whatever block patterns are found
    in the command as well. *)
Theorem allow_precedence (cmd : string) (i : stdin) :
  (exists p, In p ALLOWED_PATTERNS /\ search true p cmd = true) ->
  carries_command i cmd ->
  should_block_command cmd = (false, "")
  /\ process (main i) = (0%Z, []).
Proof.
  intros Hp Hi.
  apply matched_in in Hp.
  assert (E : should_block_command cmd = (false, ""))
    by (unfold should_block_command; now rewrite Hp).
  split; [exact E|].
  rewrite (main_on_command i cmd Hi), E. simpl.
  now destruct (cmd =? "").
Qed.

(** The command of the fourth end-to-end example holds an allow pattern
    (the third docker pattern) and a block pattern (the management
    command); it is allowed. *)
Lemma allow_precedence_witness :
  let cmd := "docker compose run --rm django python manage.py migrate" in
  (exists p, In p ALLOWED_PATTERNS /\ search true p cmd = true)
  /\ carries_command (bash_event cmd) cmd
  /\ existsb (fun p => search true p cmd) BLOCKED_PATTERNS = true
  /\ should_block_command cmd = (false, "")
  /\ process (main (bash_event cmd)) = (0%Z, []).
Proof.
  intros cmd.
  assert (Hp : exists p, In p ALLOWED_PATTERNS /\ search true p cmd = true).
  { exists (cat [WordB; lit "docker"; sp; lit "compose"; WordB]).
    split; [simpl; tauto | vm_compute; reflexivity]. }
  pose proof (allow_precedence cmd (bash_event cmd) Hp (bash_event_carries cmd))
    as [E1 E2].
  refine (conj Hp (conj (bash_event_carries cmd) (conj _ (conj E1 E2)))).
  vm_compute; reflexivity.
Defined.

(** C9.  A command in which neither an allow pattern nor a block
    pattern is found is allowed with an empty reason, and the hook
    leaves with status 0 and prints nothing; so does the hook on the
    empty command. *)
Theorem default_allow (cmd : string) (i : stdin) :
  carries_command i cmd ->
  ((forall p, In p ALLOWED_PATTERNS -> search true p cmd = false) ->
   (forall p, In p BLOCKED_PATTERNS -> search true p cmd = false) ->
   should_block_command cmd = (false, "")
   /\ process (main i) = (0%Z, []))
  /\ (cmd = "" ->
      should_block_command cmd = (false, "")
      /\ process (main i) = (0%Z, [])).
Proof.
  intros Hi. split.
  - intros Ha Hb.
    apply unmatched_in in Ha. apply unmatched_in in Hb.
    assert (E : should_block_command cmd = (false, ""))
      by (unfold should_block_command; now rewrite Ha, Hb).
    split; [exact E|].
    rewrite (main_on_command i cmd Hi), E. simpl.
    now destruct (cmd =? "").
  - intros ->. split; [vm_compute; reflexivity|].
    now rewrite (main_on_command i "" Hi).
Qed.

Lemma default_allow_witness :
  carries_command (bash_event "ls -la") "ls -la"
  /\ (forall p, In p ALLOWED_PATTERNS -> search true p "ls -la" = false)
  /\ (forall p, In p BLOCKED_PATTERNS -> search true p "ls -la" = false)
  /\ should_block_command "ls -la" = (false, "")
  /\ process (main (bash_event "ls -la")) = (0%Z, [])
  /\ process (main (bash_event "")) = (0%Z, []).
Proof.
  assert (Ha : forall p, In p ALLOWED_PATTERNS -> search true p "ls -la" = false)
    by (apply unmatched_in; vm_compute; reflexivity).
  assert (Hb : forall p, In p BLOCKED_PATTERNS -> search true p "ls -la" = false)
    by (apply unmatched_in; vm_compute; reflexivity).
  destruct (default_allow "ls -la" (bash_event "ls -la")
              (bash_event_carries "ls -la")) as [H _].
  destruct (H Ha Hb) as [E1 E2].
  destruct (default_allow "" (bash_event "") (bash_event_carries ""))
    as [_ H0].
  destruct (H0 eq_refl) as [_ E3].
  exact (conj (bash_event_carries "ls -la")
           (conj Ha (conj Hb (conj E1 (conj E2 E3))))).
Defined.

(** What the classifier does when no allow pattern is found and some
    block pattern is: it blocks, with the text that [get_help_message]
    picks by looking at the command once more. *)
Lemma block_when_not_allowed (cmd : string) :
  (forall p, In p ALLOWED_PATTERNS -> search true p cmd = false) ->
  (exists p, In p BLOCKED_PATTERNS /\ search true p cmd = true) ->
  should_block_command cmd = (true, get_help_message cmd).
Proof.
  intros Ha Hb.
  apply unmatched_in in Ha. apply matched_in in Hb.
  unfold should_block_command. now rewrite Ha, Hb.
Qed.

(** C2.  The commands "yarn dev" and "pnpm serve" hold no allow pattern;
    the first block pattern found in them is the second, respectively
    third, pattern of the front-end dev-server group.  Both are blocked
    with status 2, but the text printed is the generic fallback and not
    the front-end dev-server message that "npm run dev" gets. *)
Theorem yarn_dev_gets_fallback :
  existsb (fun p => search true p "yarn dev") ALLOWED_PATTERNS = false
  /\ find (fun p => search true p "yarn dev") BLOCKED_PATTERNS
     = nth_error BLOCKED_PATTERNS 1
  /\ find (fun p => search true p "pnpm serve") BLOCKED_PATTERNS
     = nth_error BLOCKED_PATTERNS 2
  /\ should_block_command "yarn dev" = (true, fallback_message)
  /\ should_block_command "pnpm serve" = (true, fallback_message)
  /\ process (main (bash_event "yarn dev")) = (2%Z, [fallback_message])
  /\ should_block_command "npm run dev" = (true, HELP_MESSAGES npm_dev)
  /\ fallback_message <> HELP_MESSAGES npm_dev.
Proof.
  repeat apply conj; try (vm_compute; reflexivity).
  intros H; discriminate H.
Qed.

(** The decision of the classifier does not depend on letter case. *)
Lemma decision_case (c1 c2 : string) :
  same_letters c1 c2 ->
  fst (should_block_command c1) = fst (should_block_command c2).
Proof.
  intros H. unfold should_block_command.
  assert (E : forall ps,
             existsb (fun p => search true p c1) ps
             = existsb (fun p => search true p c2) ps).
  { induction ps as [|q ps IH]; simpl; auto.
    now rewrite IH, (search_case q c1 c2 H). }
  rewrite !E.
  destruct (existsb _ ALLOWED_PATTERNS); auto.
  destruct (existsb _ BLOCKED_PATTERNS); auto.
Qed.

(** C6.  Changing the case of letters never changes the decision, but
    it changes the message: "npm run dev" is blocked with the front-end
    dev-server message, "NPM RUN DEV" is blocked with the generic
    fallback, since [get_help_message] searches without
    [re.IGNORECASE]. *)
Theorem upper_case_gets_fallback :
  (forall c1 c2, same_letters c1 c2 ->
     fst (should_block_command c1) = fst (should_block_command c2))
  /\ same_letters "NPM RUN DEV" "npm run dev"
  /\ should_block_command "npm run dev" = (true, HELP_MESSAGES npm_dev)
  /\ should_block_command "NPM RUN DEV" = (true, fallback_message)
  /\ process (main (bash_event "npm run dev")) = (2%Z, [HELP_MESSAGES npm_dev])
  /\ process (main (bash_event "NPM RUN DEV")) = (2%Z, [fallback_message])
  /\ fallback_message <> HELP_MESSAGES npm_dev.
Proof.
  split; [exact decision_case|].
  repeat apply conj; try (vm_compute; reflexivity).
  intros H; discriminate H.
Qed.

Lemma upper_case_gets_fallback_witness :
  same_letters "Yarn Dev" "yarn dev"
  /\ fst (should_block_command "Yarn Dev")
     = fst (should_block_command "yarn dev").
Proof.
  assert (H : same_letters "Yarn Dev" "yarn dev") by reflexivity.
  destruct upper_case_gets_fallback as [D _].
  exact (conj H (D "Yarn Dev" "yarn dev" H)).
Defined.

(** *** The management-command family *)

Lemma search_here (ic : bool) (r : regex) (s : string) :
  is_some (run ic r None s stop) = true -> search ic r s = true.
Proof.
  unfold search. destruct s; simpl; now destruct (run ic r None _ stop).
Qed.

Lemma same_ic_false (sub w : string) :
  same true sub (lower_str w) = false -> same false sub (lower_str w) = false.
Proof.
  unfold same. rewrite lower_str_idem. intros H.
  destruct (String.eqb_spec sub (lower_str w)) as [->|]; auto.
  now rewrite lower_str_idem, String.eqb_refl in H.
Qed.

Section ManagePy.
Variable sub : string.
Hypothesis sub_word : all_word sub = true.

Let cmd : string := "python manage.py " ++ sub.
Let sp_c : option ascii := Some " "%char.

(** Patterns that find nothing in the command: they need a character
    that is not a word character after a word that the command does not
    hold. *)
Ltac nothing_found ic p :=
  change (search ic p cmd) with (is_some (search_from ic p sp_c sub));
  rewrite (search_from_needs ic p eq_refl sub sp_c sub_word).

(** Patterns that read "python manage.py " and then look at [sub]. *)
Ltac reaches_sub ic p tail :=
  change (search ic p cmd)
    with (is_some
            match star ic Space sp_c sub
                    (fun q s => run ic tail q s stop) with
            | Some e => Some e
            | None => search_from ic p sp_c sub
            end);
  rewrite (star_space_word ic sp_c sub _ sub_word),
          (search_from_needs ic p eq_refl sub sp_c sub_word).

Lemma startapp_allow_found :
  search true startapp_allow cmd = same true sub "startapp".
Proof.
  reaches_sub true startapp_allow (Seq (lit "startapp") WordB).
  rewrite <- (lit_wordb true "s" "tartapp" sub sp_c sub_word).
  now destruct (run true _ _ _ _).
Qed.

Lemma allowed_in_family :
  existsb (fun p => search true p cmd) ALLOWED_PATTERNS
  = same true sub "startapp".
Proof.
  destruct (same true sub "startapp") eqn:E.
  - apply matched_in. exists startapp_allow.
    split; [simpl; tauto | now rewrite startapp_allow_found].
  - apply unmatched_in. intros p Hp. simpl in Hp.
    repeat (destruct Hp as [<-|Hp]); try contradiction;
      try (match goal with
           | |- search true ?p _ = false => nothing_found true p
           end; reflexivity).
    exact (eq_trans startapp_allow_found E).
Qed.

Ltac management_found_with ic Hne E :=
  reaches_sub ic management_block (cat [not_startapp; ws]);
  change (run ic (cat [not_startapp; ws]) sp_c sub stop)
    with (match run ic (Seq (lit "startapp") WordB) sp_c sub stop with
          | Some _ => None
          | None => plus ic Word sp_c sub stop
          end);
  let L := fresh "L" in
  pose proof (lit_wordb ic "s" "tartapp" sub sp_c sub_word) as L;
  rewrite E in L;
  destruct (run ic (Seq (lit "startapp") WordB) sp_c sub stop);
    [discriminate L|];
  destruct sub as [|c t]; [now elim Hne|];
  destruct (all_word_cons _ _ sub_word) as [Hc _];
  simpl; rewrite Hc;
  pose proof (star_stop ic Word t (Some c)) as S;
  now destruct (star ic Word (Some c) t stop).

Lemma management_found (ic : bool) :
  sub <> "" -> same ic sub "startapp" = false ->
  search ic management_block cmd = true.
Proof.
  intros Hne E.
  destruct ic; [management_found_with true Hne E
               | management_found_with false Hne E].
Qed.

Lemma help_npm_not_found : search false help_npm cmd = false.
Proof. nothing_found false help_npm. reflexivity. Qed.

Lemma help_runserver_found :
  search false help_runserver cmd = (sub =? "runserver").
Proof.
  reaches_sub false help_runserver (Seq (lit "runserver") WordB).
  change (sub =? "runserver") with (same false sub "runserver").
  rewrite <- (lit_wordb false "r" "unserver" sub sp_c sub_word).
  now destruct (run false _ _ _ _).
Qed.

(** The command "python manage.py <sub>", for a word [sub] other than
    "startapp" in any letter case, is blocked with the message of
    [family_message]. *)
Lemma family_blocked :
  sub <> "" -> same true sub "startapp" = false ->
  should_block_command cmd = (true, family_message sub).
Proof.
  intros Hne E.
  unfold should_block_command.
  rewrite allowed_in_family, E.
  assert (B : existsb (fun p => search true p cmd) BLOCKED_PATTERNS = true).
  { apply matched_in. exists management_block.
    split; [simpl; tauto | now apply management_found]. }
  rewrite B. f_equal.
  unfold get_help_message, family_message.
  rewrite help_npm_not_found, help_runserver_found.
  destruct (sub =? "runserver"); [reflexivity|].
  change help_management with management_block.
  rewrite (management_found false Hne); [reflexivity|].
  now apply (same_ic_false sub "startapp").
Qed.

End ManagePy.

(** The management block pattern matches where the command
    "python manage.py <sub><args>" starts, when [sub] is a word other
    than "startapp" and [args] does not go on with a word character. *)
Lemma management_found_with_args (ic : bool) (sub args : string) :
  all_word sub = true -> sub <> "" -> same ic sub "startapp" = false ->
  word_opt (head args) = false ->
  search ic management_block ("python manage.py " ++ sub ++ args) = true.
Proof.
  intros Hs Hne E Ha. apply search_here.
  pose proof (lit_wordb_then_rest ic "s" "tartapp" sub args (Some " "%char)
                Ha eq_refl Hs Hne) as L.
  rewrite E in L.
  destruct sub as [|c t]; [now elim Hne|].
  destruct (all_word_cons _ _ Hs) as [Hc _].
  change (String c t ++ args) with (String c (t ++ args)) in *.
  assert (G : forall b,
             is_some (run b (Seq (lit "startapp") WordB) (Some " "%char)
                        (String c (t ++ args)) stop) = false ->
             is_some
               (star b Space (Some " "%char) (String c (t ++ args))
                  (fun q s =>
                     match run b (Seq (lit "startapp") WordB) q s stop with
                     | Some _ => None
                     | None => plus b Word q s stop
                     end)) = true).
  { intros b N.
    cbn [star accepts]. rewrite (word_not_space c Hc).
    destruct (run b (Seq (lit "startapp") WordB) (Some " "%char)
                (String c (t ++ args)) stop); [discriminate N|].
    cbn [plus accepts]. rewrite Hc.
    apply star_stop. }
  destruct ic; [exact (G true L) | exact (G false L)].
Qed.

(** The command "python manage.py <sub><args>" of such a shape, in
    which no allow pattern is found, is blocked; the message is the one
    of the first of the three tests of [get_help_message] that
    succeeds, the test for a management command being sure to. *)
Lemma family_blocked_with_args (sub args : string) :
  all_word sub = true -> sub <> "" -> same true sub "startapp" = false ->
  word_opt (head args) = false ->
  existsb (fun p => search true p ("python manage.py " ++ sub ++ args))
    ALLOWED_PATTERNS = false ->
  should_block_command ("python manage.py " ++ sub ++ args)
  = (true,
     if search false help_npm ("python manage.py " ++ sub ++ args)
     then HELP_MESSAGES npm_dev
     else if search false help_runserver ("python manage.py " ++ sub ++ args)
          then HELP_MESSAGES django_runserver
          else HELP_MESSAGES django_management).
Proof.
  intros Hs Hne E Ha Hal.
  unfold should_block_command. rewrite Hal.
  assert (B : existsb (fun p => search true p
                         ("python manage.py " ++ sub ++ args))
                BLOCKED_PATTERNS = true).
  { apply matched_in. exists management_block.
    split; [simpl; tauto | now apply management_found_with_args]. }
  rewrite B. f_equal.
  unfold get_help_message.
  destruct (search false help_npm _); [reflexivity|].
  destruct (search false help_runserver _); [reflexivity|].
  change help_management with management_block.
  rewrite (management_found_with_args false sub args Hs Hne); auto.
  now apply (same_ic_false sub "startapp").
Qed.

Lemma startapp_allowed (rest : string) :
  word_opt (head rest) = false ->
  should_block_command ("python manage.py startapp" ++ rest) = (false, "").
Proof.
  intros H. unfold should_block_command.
  assert (A : existsb (fun p => search true p ("python manage.py startapp" ++ rest))
                ALLOWED_PATTERNS = true).
  { apply matched_in. exists startapp_allow.
    split; [simpl; tauto|]. apply search_here.
    change (run true startapp_allow None ("python manage.py startapp" ++ rest) stop)
      with (if at_boundary (Some "p"%char) rest
            then Some (Some "p"%char, rest) else None).
    unfold at_boundary. now rewrite H. }
  now rewrite A.
Qed.

(** Tried where the command starts, the management block pattern stops
    at its negative look-ahead when the subcommand is "startapp". *)
Lemma management_block_skips_startapp (rest : string) :
  word_opt (head rest) = false ->
  run true management_block None ("python manage.py startapp" ++ rest) stop
  = None.
Proof.
  intros H.
  change (run true management_block None
            ("python manage.py startapp" ++ rest) stop)
    with (match (if at_boundary (Some "p"%char) rest
                 then Some (Some "p"%char, rest) else None) with
          | Some _ => None
          | None => run true ws (Some " "%char) ("startapp" ++ rest) stop
          end).
  unfold at_boundary. now rewrite H.
Qed.

(** C3, as the code has it.  A command "python manage.py startapp",
    followed by nothing or by text that starts with an ASCII character
    other than a word character, is allowed: status 0, nothing
    printed.  The command "python manage.py <sub>" for any other word
    [sub] is blocked with status 2; the text printed is the
    management-command message, except for "runserver", which gets the
    dev-server message.  The same command followed by ASCII text [args]
    that does not start with a word character, and in which the code
    finds no allow pattern, is blocked with status 2 as well; its
    message is the management-command one unless an earlier test of
    [get_help_message] succeeds on the command (the front-end test, the
    runserver test).  Tried at the start of a "python manage.py
    startapp" command, the broad block pattern does not match, so the
    exemption holds by that pattern alone. *)
Theorem startapp_exemption (rest sub args : string) (i1 i2 i3 : stdin) :
  ascii_nonword (head rest) = true ->
  all_word sub = true -> sub <> "" -> lower_str sub <> "startapp" ->
  ascii_text args = true -> ascii_nonword (head args) = true ->
  existsb (fun p => search true p ("python manage.py " ++ sub ++ args))
    ALLOWED_PATTERNS = false ->
  carries_command i1 ("python manage.py startapp" ++ rest) ->
  carries_command i2 ("python manage.py " ++ sub) ->
  carries_command i3 ("python manage.py " ++ sub ++ args) ->
  (should_block_command ("python manage.py startapp" ++ rest) = (false, "")
   /\ process (main i1) = (0%Z, []))
  /\ (should_block_command ("python manage.py " ++ sub)
      = (true, family_message sub)
      /\ process (main i2) = (2%Z, [family_message sub]))
  /\ (let cmd := "python manage.py " ++ sub ++ args in
      let message :=
        if search false help_npm cmd then HELP_MESSAGES npm_dev
        else if search false help_runserver cmd
             then HELP_MESSAGES django_runserver
             else HELP_MESSAGES django_management in
      should_block_command cmd = (true, message)
      /\ process (main i3) = (2%Z, [message]))
  /\ In management_block BLOCKED_PATTERNS
  /\ run true management_block None ("python manage.py startapp" ++ rest) stop
     = None.
Proof.
  intros Hrest Hword Hne Hsub _ Hargs Hal H1 H2 H3.
  apply ascii_nonword_word in Hrest, Hargs.
  assert (E : same true sub "startapp" = false).
  { unfold same. now apply String.eqb_neq. }
  pose proof (startapp_allowed rest Hrest) as A.
  pose proof (family_blocked sub Hword Hne E) as B.
  pose proof (family_blocked_with_args sub args Hword Hne E Hargs Hal) as C.
  split; [|split; [|split; [|split]]].
  - split; [exact A|].
    rewrite (main_on_command i1 _ H1), A. reflexivity.
  - split; [exact B|].
    rewrite (main_on_command i2 _ H2), B. reflexivity.
  - cbv zeta. split; [exact C|].
    rewrite (main_on_command i3 _ H3), C. reflexivity.
  - simpl; tauto.
  - now apply management_block_skips_startapp.
Qed.

(** C3 as stated fails for the subcommand "runserver": it is blocked
    with status 2, but with the dev-server message, which is another
    text than the management-command message. *)
Lemma runserver_gets_dev_server_message :
  all_word "runserver" = true
  /\ lower_str "runserver" <> "startapp"
  /\ should_block_command "python manage.py runserver"
     = (true, HELP_MESSAGES django_runserver)
  /\ process (main (bash_event "python manage.py runserver"))
     = (2%Z, [HELP_MESSAGES django_runserver])
  /\ HELP_MESSAGES django_runserver <> HELP_MESSAGES django_management.
Proof.
  repeat apply conj; try (vm_compute; reflexivity);
    intros H; discriminate H.
Qed.

(** The second and third end-to-end examples, and a management command
    with an option. *)
Lemma startapp_exemption_witness :
  let allowed := "python manage.py startapp blog" in
  let blocked := "python manage.py migrate" in
  let with_option := "python manage.py migrate --noinput" in
  (ascii_nonword (head " blog") = true
   /\ all_word "migrate" = true /\ "migrate" <> ""
   /\ lower_str "migrate" <> "startapp"
   /\ ascii_text " --noinput" = true
   /\ ascii_nonword (head " --noinput") = true
   /\ existsb (fun p => search true p with_option) ALLOWED_PATTERNS = false
   /\ carries_command (bash_event allowed) allowed
   /\ carries_command (bash_event blocked) blocked
   /\ carries_command (bash_event with_option) with_option)
  /\ (should_block_command allowed = (false, "")
      /\ process (main (bash_event allowed)) = (0%Z, []))
  /\ (should_block_command blocked = (true, HELP_MESSAGES django_management)
      /\ process (main (bash_event blocked))
         = (2%Z, [HELP_MESSAGES django_management]))
  /\ (should_block_command with_option
      = (true, HELP_MESSAGES django_management)
      /\ process (main (bash_event with_option))
         = (2%Z, [HELP_MESSAGES django_management]))
  /\ In management_block BLOCKED_PATTERNS
  /\ run true management_block None allowed stop = None.
Proof.
  intros allowed blocked with_option.
  assert (H1 : ascii_nonword (head " blog") = true) by reflexivity.
  assert (H2 : all_word "migrate" = true) by reflexivity.
  assert (H3 : "migrate" <> "") by (intros H; discriminate H).
  assert (H4 : lower_str "migrate" <> "startapp")
    by (intros H; discriminate H).
  assert (H5 : ascii_text " --noinput" = true) by reflexivity.
  assert (H6 : ascii_nonword (head " --noinput") = true) by reflexivity.
  assert (H7 : existsb (fun p => search true p with_option) ALLOWED_PATTERNS
               = false) by (vm_compute; reflexivity).
  exact (conj (conj H1 (conj H2 (conj H3 (conj H4 (conj H5 (conj H6 (conj H7
                 (conj (bash_event_carries allowed)
                    (conj (bash_event_carries blocked)
                       (bash_event_carries with_option))))))))))
           (startapp_exemption " blog" "migrate" " --noinput"
              (bash_event allowed) (bash_event blocked)
              (bash_event with_option)
              H1 H2 H3 H4 H5 H6 H7
              (bash_event_carries allowed) (bash_event_carries blocked)
              (bash_event_carries with_option))).
Defined.

End DockerFacts.

(** ** The advisory guard *)

Module TsFacts.
Import Chars Re Shape Py Event TsGuard CharFacts ReFacts.

(** *** Substrings *)

Lemma prefix_spec (n : string) :
  forall h, String.prefix n h = true <-> exists b, h = n ++ b.
Proof.
  induction n as [|x n IH]; intros h; simpl.
  - split; [intros _; now exists h | intros _; now destruct h].
  - destruct h as [|c t].
    + split; [discriminate | intros [b H]; discriminate H].
    + simpl. destruct (ascii_dec x c) as [->|Hne].
      * rewrite IH. split; intros [b H]; exists b.
        -- now rewrite H.
        -- now injection H.
      * split; [discriminate|]. intros [b H]. injection H as H _.
        now elim Hne.
Qed.

Lemma contains_spec (n : string) :
  forall h, contains n h = true <-> substring_of n h.
Proof.
  unfold substring_of.
  induction h as [|c t IH].
  - change (contains n "") with (String.prefix n "" || false).
    rewrite orb_false_r, prefix_spec. split.
    + intros [b H]. now exists "", b.
    + intros (a & b & H). destruct a; [now exists b|discriminate H].
  - change (contains n (String c t))
      with (String.prefix n (String c t) || contains n t).
    rewrite orb_true_iff, prefix_spec, IH. split.
    + intros [[b H]|(a & b & H)].
      * now exists "", b.
      * exists (String c a), b. simpl. now rewrite H.
    + intros (a & b & H). destruct a as [|c' a].
      * left. now exists b.
      * right. exists a, b. simpl in H. now injection H.
Qed.

Lemma in_frontend_src_spec (path : string) :
  in_frontend_src path = false <->
  ~ substring_of "frontend/src" path /\ ~ substring_of "frontend\src" path.
Proof.
  unfold in_frontend_src.
  rewrite orb_false_iff, <- !contains_spec, !not_true_iff_false.
  reflexivity.
Qed.

(** *** The probe *)

(** The probe never raises and prints nothing. *)
Lemma probe_returns (w : world) (err : list string) :
  check_typescript_error_count w err = (Ret (probe_value w), err).
Proof.
  unfold probe_value, check_typescript_error_count, try_except, bind,
    observe, ret, raise.
  destruct (frontend_exists w) as [[]|e]; simpl; auto.
  destruct (type_check_stderr w) as [text|e]; simpl; auto.
Qed.

Lemma probe_unavailable (w : world) :
  (frontend_exists w = Gives false
   \/ (exists e, frontend_exists w = Fails e)
   \/ (exists e, type_check_stderr w = Fails e)) ->
  probe_value w = None.
Proof.
  unfold probe_value, check_typescript_error_count, try_except, bind,
    observe, ret, raise.
  intros [H|[[e H]|[e H]]]; rewrite H; simpl; auto.
  destruct (frontend_exists w) as [[]|e']; simpl; auto.
Qed.

Lemma probe_available (w : world) (text : string) :
  frontend_exists w = Gives true ->
  type_check_stderr w = Gives text ->
  probe_value w = Some (findall_count error_marker text).
Proof.
  unfold probe_value, check_typescript_error_count, try_except, bind,
    observe, ret, raise.
  now intros -> ->.
Qed.

(** *** The numeral of a count *)

Lemma read_digits_uint (d : Decimal.uint) :
  forall acc,
    read_digits acc (NilEmpty.string_of_uint d)
    = Some (Nat.of_uint_acc d acc).
Proof.
  induction d; intros acc; simpl; try reflexivity;
    rewrite IHd; f_equal; f_equal; rewrite Nat.tail_mul_spec;
    cbv [code nat_of_ascii]; simpl; lia.
Qed.

(** [Nat.to_uint] gives one digit or more, without a leading zero
    before another digit. *)
Lemma to_uint_head (n : nat) :
  match Nat.to_uint n with
  | Decimal.Nil => False
  | Decimal.D0 (Decimal.D0 _ | Decimal.D1 _ | Decimal.D2 _ | Decimal.D3 _
               | Decimal.D4 _ | Decimal.D5 _ | Decimal.D6 _ | Decimal.D7 _
               | Decimal.D8 _ | Decimal.D9 _) => False
  | _ => True
  end.
Proof.
  pose proof (DecimalNat.Unsigned.to_of (Nat.to_uint n)) as H.
  rewrite DecimalNat.Unsigned.of_to in H.
  rewrite H. unfold Decimal.unorm.
  pose proof (DecimalFacts.nzhead_nonzero (Nat.to_uint n)) as Z.
  destruct (Decimal.nzhead (Nat.to_uint n)); try exact I.
  now elim (Z u).
Qed.

(** The text of a count is the numeral that reads back as the count. *)
Lemma read_decimal_decimal (n : nat) : read_decimal (decimal n) = Some n.
Proof.
  unfold decimal.
  pose proof (to_uint_head n) as H.
  pose proof (read_digits_uint (Nat.to_uint n) 0) as R.
  change (Nat.of_uint_acc (Nat.to_uint n) 0)
    with (Nat.of_uint (Nat.to_uint n)) in R.
  rewrite DecimalNat.Unsigned.of_to in R.
  destruct (Nat.to_uint n) as [|u|u|u|u|u|u|u|u|u|u];
    try (elim H); try exact R.
  destruct u; try (elim H); exact R.
Qed.

(** *** The dispatcher *)

Lemma warnings_not_empty (path m : string) :
  get_pattern_warning path = Some m -> (m =? "") = false.
Proof.
  unfold get_pattern_warning, PATTERN_WARNINGS.
  cbn [first_warning trigger warning].
  repeat match goal with
         | |- context [if ?b then _ else _] => destruct b
         end;
    intros H; try discriminate H; injection H as <-; reflexivity.
Qed.

Local Arguments contains : simpl never.
Local Arguments get_pattern_warning : simpl never.
Local Arguments check_typescript_error_count : simpl never.
Local Arguments enrichment : simpl never.

(** What a run of the hook gives on a write or an edit of a file. *)
Lemma main_on_write (w : world) (i : stdin) (path : string) :
  writes_file i path ->
  process (main w i)
  = if in_frontend_src path
    then match get_pattern_warning path with
         | Some m => (0%Z, [m ++ extra (probe_value w)])
         | None => (0%Z, [])
         end
    else (0%Z, []).
Proof.
  intros (d & ti & tool & -> & Hn & Ht & Hti & Hp).
  unfold process, main, try_except, main_body, bind, json_load, get, ret.
  rewrite Hti, Hn.
  assert (T : (tool =? "Write") || (tool =? "Edit") = true)
    by (destruct Ht as [-> | ->]; reflexivity).
  rewrite T, Hp. unfold in_frontend_src. cbn [negb truthy str_in ret].
  destruct path as [|c t]; [reflexivity|].
  cbn [String.eqb negb].
  destruct (contains "frontend/src" (String c t)); cbn [negb orb];
    [|destruct (contains "frontend\src" (String c t)); cbn [negb orb]];
    try reflexivity;
    unfold pattern_warning_of, ret, warning_given, sys_exit, print_stderr;
    destruct (get_pattern_warning (String c t)) as [m|] eqn:G;
    try reflexivity;
    rewrite (warnings_not_empty _ _ G); cbn [negb orb]; cbv beta;
    rewrite probe_returns; reflexivity.
Qed.

(** C7.  The probe always returns, without raising and without
    printing; it returns no count when the frontend directory is
    absent or cannot be looked up, and when the type-check command
    fails or times out.  On a write or edit of a path inside
    frontend/src for which a warning exists, the hook leaves with
    status 0 and prints the warning, alone when the probe gave no count
    or the count 0, followed by the three error-count lines exactly
    when the probe gave a count greater than 0: after a line feed, the
    line of the count, which holds the decimal numeral of the count,
    the advice and the command to run. *)
Theorem probe_failure_robust (w : world) (i : stdin) (path m : string) :
  writes_file i path ->
  in_frontend_src path = true ->
  get_pattern_warning path = Some m ->
  (forall err,
     check_typescript_error_count w err = (Ret (probe_value w), err))
  /\ (frontend_exists w = Gives false
      \/ (exists e, frontend_exists w = Fails e)
      \/ (exists e, type_check_stderr w = Fails e) ->
      probe_value w = None /\ process (main w i) = (0%Z, [m]))
  /\ (probe_value w = None \/ probe_value w = Some 0 ->
      process (main w i) = (0%Z, [m]))
  /\ (forall n, probe_value w = Some n -> 0 < n ->
      process (main w i)
      = (0%Z,
         [m ++ nl ++ "⚠️  CURRENT TYPESCRIPT ERRORS: " ++ decimal n ++ nl
            ++ "   Consider fixing existing errors before adding new code."
            ++ nl
            ++ "   Run: /lint-and-format --frontend --categorize"
            ++ nl])
      /\ read_decimal (decimal n) = Some n)
  /\ (forall n, m ++ enrichment n <> m).
Proof.
  intros Hi Hsrc Hm.
  pose proof (main_on_write w i path Hi) as E.
  rewrite Hsrc, Hm in E.
  pose proof app_empty as R.
  repeat apply conj.
  - apply probe_returns.
  - intros H. apply probe_unavailable in H.
    split; [exact H|]. rewrite E, H. simpl. now rewrite R.
  - intros [H|H]; rewrite E, H; simpl; now rewrite R.
  - intros n H Hn. split; [|apply read_decimal_decimal].
    rewrite E, H. simpl.
    apply Nat.ltb_lt in Hn. now rewrite Hn.
  - intros n H.
    assert (L : String.length (m ++ enrichment n) = String.length m)
      by now rewrite H.
    unfold enrichment in L. rewrite !length_app in L.
    simpl in L. lia.
Qed.

(** The fifth end-to-end example, with a probe that times out and with
    a probe that counts two errors. *)
Lemma probe_failure_robust_witness :
  let i := file_event "Write" "frontend/src/components/Foo.vue" in
  let m := warning_vue_component in
  (writes_file i "frontend/src/components/Foo.vue"
   /\ in_frontend_src "frontend/src/components/Foo.vue" = true
   /\ get_pattern_warning "frontend/src/components/Foo.vue" = Some m)
  /\ (probe_value world_timeout = None
      /\ process (main world_timeout i) = (0%Z, [m]))
  /\ (probe_value world_two_errors = Some 2
      /\ process (main world_two_errors i)
         = (0%Z,
            [m ++ "
⚠️  CURRENT TYPESCRIPT ERRORS: 2
   Consider fixing existing errors before adding new code.
   Run: /lint-and-format --frontend --categorize
"])
      /\ read_decimal "2" = Some 2).
Proof.
  intros i m.
  assert (Hi : writes_file i "frontend/src/components/Foo.vue").
  { exists [("tool_name", VStr "Write");
            ("tool_input",
             VDict [("file_path", VStr "frontend/src/components/Foo.vue")])],
      [("file_path", VStr "frontend/src/components/Foo.vue")], "Write".
    repeat split. now left. }
  assert (Hs : in_frontend_src "frontend/src/components/Foo.vue" = true)
    by reflexivity.
  assert (Hm : get_pattern_warning "frontend/src/components/Foo.vue" = Some m)
    by (vm_compute; reflexivity).
  destruct (probe_failure_robust world_timeout i _ m Hi Hs Hm)
    as (_ & T & _).
  destruct (probe_failure_robust world_two_errors i _ m Hi Hs Hm)
    as (_ & _ & _ & E & _).
  assert (P : probe_value world_two_errors = Some 2)
    by (vm_compute; reflexivity).
  refine (conj (conj Hi (conj Hs Hm)) (conj (T _) (conj P (E 2 P _)))).
  - right; right.
    now exists (TimeoutExpired "timed out after 30 seconds").
  - exact (Nat.lt_0_succ 1).
Defined.

(** *** One warning for each event *)




(** *** Paths outside the front-end source tree *)

(** C10.  On a write or edit of a path in which neither "frontend/src"
    nor "frontend\src" occurs, the hook leaves with status 0 and prints
    nothing, whatever triggers are found in the path; when the hook
    prints something for a write or edit, one of the two occurs in the
    path. *)
Theorem outside_frontend_silent (w : world) (i : stdin) (path : string) :
  writes_file i path ->
  (~ substring_of "frontend/src" path ->
   ~ substring_of "frontend\src" path ->
   process (main w i) = (0%Z, []))
  /\ (snd (process (main w i)) <> [] ->
      substring_of "frontend/src" path \/ substring_of "frontend\src" path).
Proof.
  intros Hi. pose proof (main_on_write w i path Hi) as E. split.
  - intros H1 H2.
    assert (F : in_frontend_src path = false)
      by (apply in_frontend_src_spec; now split).
    now rewrite E, F.
  - intros H. rewrite E in H.
    destruct (in_frontend_src path) eqn:F; [|now elim H].
    unfold in_frontend_src in F. apply orb_true_iff in F.
    now rewrite !contains_spec in F.
Qed.

(** A Vue component and a test file outside frontend/src: a trigger is
    found in each path, nothing is printed. *)
Lemma outside_frontend_silent_witness :
  let vue := "backend/templates/Foo.vue" in
  let test := "e2e/login.spec.ts" in
  (writes_file (file_event "Write" vue) vue
   /\ ~ substring_of "frontend/src" vue
   /\ ~ substring_of "frontend\src" vue)
  /\ get_pattern_warning vue = Some warning_vue_component
  /\ get_pattern_warning test = Some warning_test_mock
  /\ process (main world_two_errors (file_event "Write" vue)) = (0%Z, [])
  /\ process (main world_two_errors (file_event "Edit" test)) = (0%Z, []).
Proof.
  intros vue test.
  assert (Hi : writes_file (file_event "Write" vue) vue).
  { exists [("tool_name", VStr "Write");
            ("tool_input", VDict [("file_path", VStr vue)])],
      [("file_path", VStr vue)], "Write".
    repeat split. now left. }
  assert (H1 : ~ substring_of "frontend/src" vue).
  { intros H. apply contains_spec in H. vm_compute in H. discriminate H. }
  assert (H2 : ~ substring_of "frontend\src" vue).
  { intros H. apply contains_spec in H. vm_compute in H. discriminate H. }
  destruct (outside_frontend_silent world_two_errors _ vue Hi) as [S _].
  refine (conj (conj Hi (conj H1 H2)) (conj _ (conj _ (conj (S H1 H2) _))));
    vm_compute; reflexivity.
Defined.

End TsFacts.

(** ** The two dispatchers: faults and malformed events *)

Module DispatchFacts.
Import Chars Re Shape Py Event CharFacts ReFacts.

Local Arguments contains : simpl never.
Local Arguments TsGuard.get_pattern_warning : simpl never.
Local Arguments TsGuard.check_typescript_error_count : simpl never.
Local Arguments TsGuard.enrichment : simpl never.
Local Arguments DockerGuard.should_block_command : simpl never.

(** Case analysis along the tests of a [main_body]. *)
Ltac crunch :=
  repeat first
    [ rewrite TsFacts.probe_returns
    | progress cbn beta iota delta [negb orb]
    | match goal with
      | |- context [existsb ?f ?l] => destruct (existsb f l) eqn:?
      | |- context [match ?x with _ => _ end] =>
          lazymatch x with
          | context [match _ with _ => _ end] => fail
          | _ => destruct x eqn:?
          end
      end ].

(** The [try] block of the command guard ends in one of three ways: an
    exception with nothing printed, [sys.exit(0)] with nothing printed,
    or [sys.exit(2)] after the reason of a blocked command was
    printed. *)
Lemma docker_body_cases (input : stdin) :
  (exists e, DockerGuard.main_body input [] = (Raise e, []))
  \/ DockerGuard.main_body input [] = (SysExit 0, [])
  \/ (exists cmd,
        carries_command input cmd
        /\ fst (DockerGuard.should_block_command cmd) = true
        /\ DockerGuard.main_body input []
           = (SysExit 2, [snd (DockerGuard.should_block_command cmd)])).
Proof.
  unfold DockerGuard.main_body, DockerGuard.check_command, re_type_error,
    bind, json_load, get, ret, raise, sys_exit, print_stderr, truthy.
  crunch; subst;
    try (left; eexists; reflexivity);
    try (right; left; reflexivity).
  all: try match goal with
           | H : lookup _ [] = Some _ |- _ => discriminate H
           | H : negb _ = _ |- _ => discriminate H
           end.
  all: right; right; unfold carries_command.
  all: match goal with
       | H : lookup "command" ?ti = Some (VStr ?s) |- _ =>
           exists s; split;
           [eexists; eexists; split; [reflexivity|split; eassumption]|]
       end.
  all: match goal with
       | H : DockerGuard.should_block_command _ = _ |- _ =>
           rewrite H; split; reflexivity
       end.
Qed.

(** The [try] block of the advisory guard ends with an exception and
    nothing printed, or with [sys.exit(0)]. *)
Lemma ts_body_cases (w : TsGuard.world) (input : stdin) :
  (exists e, TsGuard.main_body w input [] = (Raise e, []))
  \/ (exists out, TsGuard.main_body w input [] = (SysExit 0, out)).
Proof.
  unfold TsGuard.main_body, TsGuard.pattern_warning_of, TsGuard.warning_given,
    re_type_error, str_in,
    bind, json_load, get, ret, raise, sys_exit, print_stderr, truthy.
  crunch; subst;
    try (left; eexists; reflexivity);
    try (right; eexists; reflexivity).
Qed.

Lemma block_shape (cmd : string) :
  fst (DockerGuard.should_block_command cmd) = true ->
  DockerGuard.should_block_command cmd
  = (true, DockerGuard.get_help_message cmd).
Proof.
  unfold DockerGuard.should_block_command.
  destruct (existsb _ DockerGuard.ALLOWED_PATTERNS); [discriminate|].
  destruct (existsb _ DockerGuard.BLOCKED_PATTERNS); [auto|discriminate].
Qed.

(** No policy message starts like the line printed for a fault. *)
Lemma help_message_is_no_fault_line (cmd : string) (e : exn) :
  DockerGuard.get_help_message cmd
  <> DockerGuard.error_prefix ++ str_of_exn e.
Proof.
  unfold DockerGuard.get_help_message.
  repeat match goal with
         | |- context [if ?b then _ else _] => destruct b
         end;
    intros H; discriminate H.
Qed.

Lemma warning_is_no_fault_line (path m : string) (c : option nat) (e : exn) :
  TsGuard.get_pattern_warning path = Some m ->
  m ++ extra c <> TsGuard.error_prefix ++ str_of_exn e.
Proof.
  unfold TsGuard.get_pattern_warning, TsGuard.PATTERN_WARNINGS.
  cbn [TsGuard.first_warning TsGuard.trigger TsGuard.warning].
  repeat match goal with
         | |- context [if ?b then _ else _] => destruct b
         end;
    intros H; try discriminate H; injection H as <-;
    intros H; discriminate H.
Qed.

(** Which exception the [try] block of the advisory guard raises does
    not depend on the world outside: nothing that the probe meets
    there reaches the handler of [main]. *)
Lemma ts_faults_ignore_world (w w' : TsGuard.world) (input : stdin) (e : exn) :
  TsGuard.main_body w input [] = (Raise e, []) ->
  TsGuard.main_body w' input [] = (Raise e, []).
Proof.
  unfold TsGuard.main_body, TsGuard.pattern_warning_of, TsGuard.warning_given,
    re_type_error, str_in,
    bind, json_load, get, ret, raise, sys_exit, print_stderr, truthy.
  crunch; subst; intros H; first [discriminate H | exact H].
Qed.

(** C4, as the code has it.  When the [try] block of either hook
    raises an exception, nothing was printed before, the handler prints
    one line made of the hook's prefix and the text of the exception,
    and the process leaves with status 0.  The command guard leaves
    with status 2 only after a command was read and classified as
    blocked; the advisory guard always leaves with status 0.  No policy
    message is equal to a fault line.  A fault of the probe is not
    among the exceptions that reach the handler: the probe never
    raises, the exceptions of the [try] block are the same in every
    state of the world outside, and on a write or edit that gets a
    warning a probe that fails leaves the warning alone on standard
    error, without a fault line. *)
Theorem fail_open (input : stdin) (w : TsGuard.world) :
  (forall e err,
     DockerGuard.main_body input [] = (Raise e, err) ->
     err = []
     /\ process (DockerGuard.main input)
        = (0%Z, [DockerGuard.error_prefix ++ str_of_exn e]))
  /\ (forall e err,
        TsGuard.main_body w input [] = (Raise e, err) ->
        err = []
        /\ process (TsGuard.main w input)
           = (0%Z, [TsGuard.error_prefix ++ str_of_exn e]))
  /\ (forall out,
        process (DockerGuard.main input) = (2%Z, out) ->
        exists cmd,
          carries_command input cmd
          /\ DockerGuard.should_block_command cmd
             = (true, DockerGuard.get_help_message cmd)
          /\ out = [DockerGuard.get_help_message cmd])
  /\ fst (process (TsGuard.main w input)) = 0%Z
  /\ (forall cmd e,
        DockerGuard.get_help_message cmd
        <> DockerGuard.error_prefix ++ str_of_exn e)
  /\ (forall path m c e,
        TsGuard.get_pattern_warning path = Some m ->
        m ++ extra c <> TsGuard.error_prefix ++ str_of_exn e)
  /\ (forall err,
        exists count,
          TsGuard.check_typescript_error_count w err = (Ret count, err))
  /\ (forall w' e,
        TsGuard.main_body w input [] = (Raise e, []) ->
        TsGuard.main_body w' input [] = (Raise e, []))
  /\ (forall path m,
        writes_file input path ->
        in_frontend_src path = true ->
        TsGuard.get_pattern_warning path = Some m ->
        TsGuard.frontend_exists w = TsGuard.Gives false
        \/ (exists e, TsGuard.frontend_exists w = TsGuard.Fails e)
        \/ (exists e, TsGuard.type_check_stderr w = TsGuard.Fails e) ->
        process (TsGuard.main w input) = (0%Z, [m])
        /\ forall e, m <> TsGuard.error_prefix ++ str_of_exn e).
Proof.
  split; [|split; [|split; [|split; [|split; [|split; [|split; [|split]]]]]]].
  - intros e err H.
    destruct (docker_body_cases input) as [[e0 E]|[E|(cmd & _ & _ & E)]];
      rewrite E in H; try discriminate H.
    injection H as -> <-. split; [reflexivity|].
    unfold process, DockerGuard.main, try_except. now rewrite E.
  - intros e err H.
    destruct (ts_body_cases w input) as [[e0 E]|[out E]];
      rewrite E in H; try discriminate H.
    injection H as -> <-. split; [reflexivity|].
    unfold process, TsGuard.main, try_except. now rewrite E.
  - intros out.
    unfold process, DockerGuard.main, try_except.
    destruct (docker_body_cases input) as [[e0 E]|[E|(cmd & Hc & Hb & E)]];
      rewrite E; simpl; intros H; try discriminate H.
    injection H as <-. exists cmd.
    rewrite (block_shape cmd Hb). auto.
  - unfold process, TsGuard.main, try_except.
    destruct (ts_body_cases w input) as [[e0 E]|[out E]];
      now rewrite E.
  - exact help_message_is_no_fault_line.
  - exact warning_is_no_fault_line.
  - intros err. exists (probe_value w). apply TsFacts.probe_returns.
  - intros w' e. apply ts_faults_ignore_world.
  - intros path m Hi Hs Hm Hf.
    apply TsFacts.probe_unavailable in Hf.
    split.
    + rewrite (TsFacts.main_on_write w input path Hi), Hs, Hm, Hf.
      simpl. now rewrite app_empty.
    + intros e.
      pose proof (warning_is_no_fault_line path m None e Hm) as N.
      simpl in N. now rewrite app_empty in N.
Qed.

(** C4 as stated fails for the probe: the type-check command runs into
    its time-out, so a step of the pipeline raises, yet no fault line
    is printed; the exception ends inside the probe and the hook prints
    the warning alone. *)
Lemma probe_fault_is_swallowed :
  let i := file_event "Write" "frontend/src/components/Foo.vue" in
  TsGuard.observe (TsGuard.type_check_stderr world_timeout) []
  = (Raise (TimeoutExpired "timed out after 30 seconds"), [])
  /\ process (TsGuard.main world_timeout i)
     = (0%Z, [TsGuard.warning_vue_component])
  /\ (forall e,
        process (TsGuard.main world_timeout i)
        <> (0%Z, [TsGuard.error_prefix ++ str_of_exn e])).
Proof.
  intros i.
  assert (P : process (TsGuard.main world_timeout i)
              = (0%Z, [TsGuard.warning_vue_component]))
    by (vm_compute; reflexivity).
  split; [reflexivity|]. split; [exact P|].
  intros e H. rewrite P in H. discriminate H.
Qed.

(** Text that is no JSON, a document that is no object, and a command
    that is no string: each ends with one fault line and status 0. *)
Lemma fail_open_witness :
  let bad_text := Malformed "Expecting value: line 1 column 1 (char 0)" in
  let bad_command :=
    Json (VDict [("tool_name", VStr "Bash");
                 ("tool_input", VDict [("command", VInt 7)])]) in
  let bad_path :=
    Json (VDict [("tool_name", VStr "Write");
                 ("tool_input", VDict [("file_path", VInt 7)])]) in
  (DockerGuard.main_body bad_text []
   = (Raise (JSONDecodeError "Expecting value: line 1 column 1 (char 0)"), [])
   /\ process (DockerGuard.main bad_text)
      = (0%Z, ["Hook error: Expecting value: line 1 column 1 (char 0)"]))
  /\ (DockerGuard.main_body bad_command []
      = (Raise (TypeError "expected string or bytes-like object, got 'int'"),
         [])
      /\ process (DockerGuard.main bad_command)
         = (0%Z,
            ["Hook error: expected string or bytes-like object, got 'int'"]))
  /\ (TsGuard.main_body world_timeout bad_path []
      = (Raise (TypeError "argument of type 'int' is not iterable"), [])
      /\ process (TsGuard.main world_timeout bad_path)
         = (0%Z,
            ["TypeScript Quality Guard hook error: argument of type 'int' is not iterable"])).
Proof.
  intros bad_text bad_command bad_path.
  destruct (fail_open bad_text world_timeout) as (D1 & _).
  destruct (fail_open bad_command world_timeout) as (D2 & _).
  destruct (fail_open bad_path world_timeout) as (_ & T3 & _).
  refine (conj (conj eq_refl (proj2 (D1 _ [] eq_refl)))
            (conj (conj eq_refl (proj2 (D2 _ [] eq_refl)))
               (conj eq_refl (proj2 (T3 _ [] eq_refl))))).
Defined.

(** C5 as stated fails for the command guard: an event of the kind
    "Read", which neither hook knows, is classified and blocked when
    its payload holds a command. *)
Lemma unknown_kind_with_command_is_blocked :
  let d := [("tool_name", VStr "Read");
            ("tool_input", VDict [("command", VStr "npm run dev")])] in
  lookup "tool_name" d = Some (VStr "Read")
  /\ not_write_or_edit d
  /\ process (DockerGuard.main (Json (VDict d)))
     = (2%Z, [DockerGuard.HELP_MESSAGES DockerGuard.npm_dev])
  /\ process (DockerGuard.main (Json (VDict d))) <> (0%Z, []).
Proof.
  intros d. repeat apply conj.
  - reflexivity.
  - intros tool H. injection H as <-. split; intros E; discriminate E.
  - vm_compute; reflexivity.
  - vm_compute. intros H; discriminate H.
Qed.

(** C5, as the code has it.  The command guard leaves with status 0
    and prints nothing on every event whose payload has no command
    (absent, or a value that Python takes as false); it never reads
    the action kind, so two events with the same payload get the same
    outcome whatever their kinds.  The advisory guard leaves with
    status 0 and prints nothing on every event whose kind is neither
    "Write" nor "Edit", whatever the payload, and on every event whose
    payload has no file path.  The other malformed events are allowed
    as well, with status 0 and without classification, but not in
    silence: a document that is no object, a [tool_input] that is no
    object, a command or a file path that is neither false nor a string
    end with one fault line of the handler (for a list or an object as
    file path: with one fault line when it holds "frontend/src" or
    "frontend\src" as an element or a key, with nothing otherwise). *)
Theorem malformed_event_allowed
  (w : TsGuard.world) (d d' : list (string * value)) (v : value) :
  (lacks_field "command" d ->
   process (DockerGuard.main (Json (VDict d))) = (0%Z, []))
  /\ (lookup "tool_input" d' = lookup "tool_input" d ->
      process (DockerGuard.main (Json (VDict d')))
      = process (DockerGuard.main (Json (VDict d))))
  /\ (not_write_or_edit d ->
      process (TsGuard.main w (Json (VDict d))) = (0%Z, []))
  /\ (lacks_field "file_path" d ->
      process (TsGuard.main w (Json (VDict d))) = (0%Z, []))
  /\ (is_object v = false ->
      process (DockerGuard.main (Json v))
      = (0%Z, [DockerGuard.error_prefix ++ no_get v])
      /\ process (TsGuard.main w (Json v))
         = (0%Z, [TsGuard.error_prefix ++ no_get v]))
  /\ (lookup "tool_input" d = Some v -> is_object v = false ->
      process (DockerGuard.main (Json (VDict d)))
      = (0%Z, [DockerGuard.error_prefix ++ no_get v])
      /\ (write_or_edit d ->
          process (TsGuard.main w (Json (VDict d)))
          = (0%Z, [TsGuard.error_prefix ++ no_get v])))
  /\ (forall ti,
        lookup "tool_input" d = Some (VDict ti) ->
        lookup "command" ti = Some v ->
        truthy v = true -> is_text v = false ->
        process (DockerGuard.main (Json (VDict d)))
        = (0%Z, [DockerGuard.error_prefix ++ no_text v]))
  /\ (forall ti,
        write_or_edit d ->
        lookup "tool_input" d = Some (VDict ti) ->
        lookup "file_path" ti = Some v ->
        truthy v = true -> is_text v = false ->
        process (TsGuard.main w (Json (VDict d)))
        = (0%Z, wrong_path_output v)).
Proof.
  split; [|split; [|split; [|split; [|split; [|split; [|split]]]]]].
  - unfold process, DockerGuard.main, try_except, DockerGuard.main_body,
      bind, json_load, get, ret.
    intros [H|(ti & H & [H'|(x & H' & Hx)])]; rewrite H, ?H';
      cbn [lookup]; rewrite ?Hx; reflexivity.
  - intros H.
    unfold process, DockerGuard.main, try_except, DockerGuard.main_body,
      bind, json_load, get, ret.
    now rewrite H.
  - intros H.
    unfold process, TsGuard.main, try_except, TsGuard.main_body,
      bind, json_load, get, ret.
    destruct (lookup "tool_name" d) as [[| | | |tool| |]|] eqn:E;
      try reflexivity.
    destruct (H tool E) as [H1 H2].
    apply String.eqb_neq in H1, H2. now rewrite H1, H2.
  - unfold process, TsGuard.main, try_except, TsGuard.main_body,
      bind, json_load, get, ret.
    intros [H|(ti & H & [H'|(x & H' & Hx)])]; rewrite H; cbn [lookup];
      rewrite ?H';
      destruct (match lookup "tool_name" d with
                | Some v => v | None => VStr "" end)
        as [| | | |tool| |]; try reflexivity;
      destruct ((tool =? "Write") || (tool =? "Edit")); try reflexivity;
      cbn [negb]; rewrite ?Hx; reflexivity.
  - intros H. destruct v; try discriminate H; split; reflexivity.
  - intros H Hv. split.
    + unfold process, DockerGuard.main, try_except, DockerGuard.main_body,
        bind, json_load, get, ret.
      rewrite H. destruct v; try discriminate Hv; reflexivity.
    + intros (tool & Hn & Ht).
      unfold process, TsGuard.main, try_except, TsGuard.main_body,
        bind, json_load, get, ret.
      rewrite H, Hn.
      assert (T : (tool =? "Write") || (tool =? "Edit") = true)
        by (destruct Ht as [-> | ->]; reflexivity).
      rewrite T. destruct v; try discriminate Hv; reflexivity.
  - intros ti H Hc Hv Ht.
    unfold process, DockerGuard.main, try_except, DockerGuard.main_body,
      bind, json_load, get, ret.
    rewrite H, Hc, Hv.
    destruct v; try discriminate Ht; reflexivity.
  - intros ti (tool & Hn & Hk) H Hc Hv Ht.
    unfold process, TsGuard.main, try_except, TsGuard.main_body,
      bind, json_load, get, ret.
    rewrite H, Hn.
    assert (T : (tool =? "Write") || (tool =? "Edit") = true)
      by (destruct Hk as [-> | ->]; reflexivity).
    rewrite T, Hc, Hv. cbn [negb].
    destruct v as [|b|n|f|t|l|kv]; try discriminate Ht;
      try reflexivity;
      unfold wrong_path_output, member, str_in, ret, bind.
    + destruct (existsb _ l); cbn [negb orb]; [reflexivity|].
      destruct (existsb _ l); cbn [negb]; reflexivity.
    + destruct (is_some (lookup "frontend/src" kv)); cbn [negb orb];
        [reflexivity|].
      destruct (is_some (lookup "frontend\src" kv)); cbn [negb];
        reflexivity.
Qed.

(** A command event without payload, one whose command is [null], an
    event of an unknown kind that names a Vue component inside
    frontend/src, a write event without path, and three events of the
    wrong shape: a [tool_input] that is [null], a command that is a
    number, a file path that is a list. *)
Lemma malformed_event_allowed_witness :
  let no_payload := [("tool_name", VStr "Bash")] in
  let null_command :=
    [("tool_name", VStr "Bash"); ("tool_input", VDict [("command", VNone)])] in
  let other_kind :=
    [("tool_name", VStr "Read");
     ("tool_input",
      VDict [("file_path", VStr "frontend/src/components/Foo.vue")])] in
  let no_path := [("tool_name", VStr "Write"); ("tool_input", VDict [])] in
  let null_payload := [("tool_name", VStr "Write"); ("tool_input", VNone)] in
  let number_command :=
    [("tool_name", VStr "Bash"); ("tool_input", VDict [("command", VInt 7)])] in
  let list_path :=
    [("tool_name", VStr "Edit");
     ("tool_input", VDict [("file_path", VList [VStr "frontend/src"])])] in
  (lacks_field "command" no_payload
   /\ process (DockerGuard.main (Json (VDict no_payload))) = (0%Z, []))
  /\ (lacks_field "command" null_command
      /\ process (DockerGuard.main (Json (VDict null_command))) = (0%Z, []))
  /\ (lookup "tool_input" other_kind = lookup "tool_input" (tl other_kind)
      /\ process (DockerGuard.main (Json (VDict other_kind)))
         = process (DockerGuard.main (Json (VDict (tl other_kind)))))
  /\ (not_write_or_edit other_kind
      /\ process (TsGuard.main world_two_errors (Json (VDict other_kind)))
         = (0%Z, []))
  /\ (lacks_field "file_path" no_path
      /\ process (TsGuard.main world_two_errors (Json (VDict no_path)))
         = (0%Z, []))
  /\ (process (DockerGuard.main (Json (VDict null_payload)))
      = (0%Z, ["Hook error: 'NoneType' object has no attribute 'get'"])
      /\ process (TsGuard.main world_two_errors (Json (VDict null_payload)))
         = (0%Z,
            ["TypeScript Quality Guard hook error: 'NoneType' object has no attribute 'get'"]))
  /\ process (DockerGuard.main (Json (VDict number_command)))
     = (0%Z, ["Hook error: expected string or bytes-like object, got 'int'"])
  /\ process (TsGuard.main world_two_errors (Json (VDict list_path)))
     = (0%Z,
        ["TypeScript Quality Guard hook error: expected string or bytes-like object, got 'list'"]).
Proof.
  intros no_payload null_command other_kind no_path null_payload
    number_command list_path.
  assert (H1 : lacks_field "command" no_payload) by (left; reflexivity).
  assert (H1' : lacks_field "command" null_command).
  { right. exists [("command", VNone)]. split; [reflexivity|].
    right. exists VNone. split; reflexivity. }
  assert (H2 : lookup "tool_input" other_kind
               = lookup "tool_input" (tl other_kind)) by reflexivity.
  assert (H3 : not_write_or_edit other_kind).
  { intros tool H. injection H as <-. split; intros E; discriminate E. }
  assert (H4 : lacks_field "file_path" no_path).
  { right. exists []. split; [reflexivity | left; reflexivity]. }
  assert (K1 : write_or_edit null_payload)
    by (exists "Write"; split; [reflexivity | now left]).
  assert (K2 : write_or_edit list_path)
    by (exists "Edit"; split; [reflexivity | now right]).
  destruct (malformed_event_allowed world_two_errors no_payload no_payload
              VNone) as (A & _).
  destruct (malformed_event_allowed world_two_errors null_command
              null_command VNone) as (A' & _).
  destruct (malformed_event_allowed world_two_errors
              (tl other_kind) other_kind VNone) as (_ & B & _).
  destruct (malformed_event_allowed world_two_errors other_kind other_kind
              VNone) as (_ & _ & C & _).
  destruct (malformed_event_allowed world_two_errors no_path no_path VNone)
    as (_ & _ & _ & D & _).
  destruct (malformed_event_allowed world_two_errors null_payload
              null_payload VNone) as (_ & _ & _ & _ & _ & E & _).
  destruct (malformed_event_allowed world_two_errors number_command
              number_command (VInt 7)) as (_ & _ & _ & _ & _ & _ & F & _).
  destruct (malformed_event_allowed world_two_errors list_path list_path
              (VList [VStr "frontend/src"]))
    as (_ & _ & _ & _ & _ & _ & _ & G).
  exact (conj (conj H1 (A H1))
           (conj (conj H1' (A' H1'))
              (conj (conj H2 (B H2))
                 (conj (conj H3 (C H3))
                    (conj (conj H4 (D H4))
                       (conj (conj (proj1 (E eq_refl eq_refl))
                                (proj2 (E eq_refl eq_refl) K1))
                          (conj (F _ eq_refl eq_refl eq_refl eq_refl)
                             (G _ K2 eq_refl eq_refl eq_refl
                                eq_refl)))))))).
Defined.

End DispatchFacts.

(** ** More facts on the matcher *)

Module ReMore.
Import Chars Re Shape Py Cases CharFacts ReFacts.

Lemma is_some_first (x y : option pos) :
  y = None ->
  is_some (match x with Some e => Some e | None => y end) = is_some x.
Proof. intros ->. now destruct x. Qed.

(** A match that starts after [a] is found by the search. *)
Lemma search_from_skip (ic : bool) (r : regex) (a : string) :
  forall prev s,
    is_some (run ic r (last_of prev a) s stop) = true ->
    is_some (search_from ic r prev (a ++ s)) = true.
Proof.
  induction a as [|c t IH]; intros prev s H.
  - simpl in *. destruct s; simpl; now destruct (run ic r prev _ stop).
  - simpl. destruct (run ic r prev (String c (t ++ s)) stop); auto.
Qed.

(** A pattern that opens with [\b] finds nothing inside a run of word
    characters that follows a word character, unless it can match the
    empty string at the end of the run. *)
Lemma search_after_word (ic : bool) (R : regex) :
  (forall p k, run ic R p "" k = None) ->
  forall s prev,
    word_opt prev = true -> all_word s = true ->
    search_from ic (Seq WordB R) prev s = None.
Proof.
  intros HR; induction s as [|c t IH]; intros prev Hp Hs.
  - simpl. unfold at_boundary. rewrite Hp. simpl. now rewrite HR.
  - destruct (all_word_cons _ _ Hs) as [Hc Ht].
    simpl. unfold at_boundary. rewrite Hp. simpl. rewrite Hc. simpl.
    now apply IH.
Qed.

(** At the start of a run of word characters it can only match there. *)
Lemma search_at_word_start (ic : bool) (R : regex) (prev : option ascii)
  (s : string) :
  (forall p k, run ic R p "" k = None) ->
  word_opt prev = false -> all_word s = true ->
  search_from ic (Seq WordB R) prev s = run ic R prev s stop.
Proof.
  intros HR Hp Hs. destruct s as [|c t].
  - simpl. unfold at_boundary. rewrite Hp. simpl. now rewrite HR.
  - destruct (all_word_cons _ _ Hs) as [Hc Ht].
    simpl. unfold at_boundary. rewrite Hp. simpl. rewrite Hc. simpl.
    destruct (run ic R prev (String c t) stop); auto.
    now apply search_after_word.
Qed.

(** A literal word, then [\b], then a pattern that accepts the end of
    the subject: found at the head of a run of word characters exactly
    when the run is that word. *)
Lemma lit_wordb_then_after_word (ic : bool) (k : cont) (w : string) :
  (forall p, is_some (k p "") = true) ->
  forall sub prev,
    all_word sub = true -> word_opt prev = true ->
    is_some (run ic (lit w) prev sub
               (fun p s => if at_boundary p s then k p s else None))
    = same ic sub w.
Proof.
  intros Hk. induction w as [|x w IH]; intros sub prev Hs Hp.
  - simpl. unfold at_boundary. rewrite Hp.
    destruct sub as [|c t]; [simpl; rewrite Hk; now destruct ic|].
    destruct (all_word_cons _ _ Hs) as [Hc _].
    simpl. rewrite Hc. now destruct ic.
  - destruct sub as [|c t]; [now destruct ic|].
    destruct (all_word_cons _ _ Hs) as [Hc Ht].
    rewrite same_cons.
    change (run ic (lit (String x w)) prev (String c t)
              (fun p s => if at_boundary p s then k p s else None))
      with (if accepts ic (Lit x) c
            then run ic (lit w) (Some c) t
                   (fun p s => if at_boundary p s then k p s else None)
            else None).
    destruct (accepts ic (Lit x) c); [|reflexivity].
    now apply IH.
Qed.

Lemma lit_wordb_then (ic : bool) (k : cont) (x : ascii) (w sub : string)
  (prev : option ascii) :
  (forall p, is_some (k p "") = true) ->
  all_word sub = true ->
  is_some (run ic (lit (String x w)) prev sub
             (fun p s => if at_boundary p s then k p s else None))
  = same ic sub (String x w).
Proof.
  intros Hk Hs.
  destruct sub as [|c t]; [now destruct ic|].
  destruct (all_word_cons _ _ Hs) as [Hc Ht].
  rewrite same_cons.
  change (run ic (lit (String x w)) prev (String c t)
            (fun p s => if at_boundary p s then k p s else None))
    with (if accepts ic (Lit x) c
          then run ic (lit w) (Some c) t
                 (fun p s => if at_boundary p s then k p s else None)
          else None).
  destruct (accepts ic (Lit x) c); [|reflexivity].
  now apply lit_wordb_then_after_word.
Qed.

(** [\bWORD\b] followed by a guard that accepts the end of the subject,
    searched in a run of word characters that follows a character that
    is not a word character. *)
Lemma guarded_word_in_word (ic : bool) (x : ascii) (w : string) (N : regex)
  (sub : string) (prev : option ascii) :
  (forall p, is_some (run ic (Seq N Eps) p "" stop) = true) ->
  word_opt prev = false -> all_word sub = true ->
  is_some (search_from ic (cat [WordB; lit (String x w); WordB; N]) prev sub)
  = same ic sub (String x w).
Proof.
  intros HN Hp Hs.
  change (cat [WordB; lit (String x w); WordB; N])
    with (Seq WordB (Seq (lit (String x w)) (Seq WordB (Seq N Eps)))).
  rewrite search_at_word_start; auto.
  apply (lit_wordb_then ic (fun p s => run ic (Seq N Eps) p s stop)
           x w sub prev HN Hs).
Qed.

(** A literal read at the head of the subject, with
    [re.IGNORECASE]. *)
Lemma lit_is_prefix (L : string) :
  forall s prev,
    is_some (run true (lit L) prev s stop)
    = String.prefix (lower_str L) (lower_str s).
Proof.
  induction L as [|x L IH]; intros s prev.
  - now destruct s.
  - destruct s as [|c t]; [reflexivity|].
    change (run true (lit (String x L)) prev (String c t) stop)
      with (if Ascii.eqb (lower c) (lower x)
            then run true (lit L) (Some c) t stop else None).
    simpl. destruct (Ascii.eqb_spec (lower c) (lower x)) as [E|E];
      destruct (ascii_dec (lower x) (lower c)) as [E'|E'];
      try congruence; auto.
Qed.

Lemma no_newline_word (s : string) :
  all_word s = true -> no_newline s = true.
Proof.
  induction s as [|c t IH]; simpl; auto.
  intros H. apply andb_true_iff in H as [Hc Ht].
  rewrite (IH Ht), andb_true_r.
  clear - Hc. revert Hc. all_chars c; intros H;
    first [reflexivity | discriminate H].
Qed.

(** [.*] followed by a literal, tried at the head of a subject without
    line feed: the literal occurs somewhere. *)
Lemma any_then_lit (L : string) (s : string) :
  forall prev,
    no_newline s = true ->
    is_some (star true Dot prev s (fun p t => run true (lit L) p t stop))
    = contains (lower_str L) (lower_str s).
Proof.
  induction s as [|c t IH]; intros prev Hs.
  - simpl. now rewrite lit_is_prefix, orb_false_r.
  - simpl in Hs. apply andb_true_iff in Hs as [Hc Ht].
    change (contains (lower_str L) (lower_str (String c t)))
      with (String.prefix (lower_str L) (lower_str (String c t))
            || contains (lower_str L) (lower_str t)).
    simpl star. rewrite Hc, is_some_orelse, (IH _ Ht), lit_is_prefix.
    apply orb_comm.
Qed.

End ReMore.

(** ** The command guard on families of commands *)

Module DockerMore.
Import Chars Re Shape Py Event DockerGuard Family Cases.
Import CharFacts ReFacts ReMore DockerFacts.

(** [\b(uvicorn|gunicorn|daphne)\b] searched in a run of word
    characters. *)
Lemma asgi_in_word (ic : bool) (sub : string) (prev : option ascii) :
  word_opt prev = false -> all_word sub = true ->
  is_some (search_from ic help_asgi prev sub) = asgi_word ic sub.
Proof.
  intros Hp Hs.
  change help_asgi
    with (Seq WordB
            (Seq (Alt (lit "uvicorn") (Alt (lit "gunicorn") (lit "daphne")))
               (Seq WordB Eps))).
  rewrite search_at_word_start; auto.
  change (run ic
            (Seq (Alt (lit "uvicorn") (Alt (lit "gunicorn") (lit "daphne")))
               (Seq WordB Eps)) prev sub stop)
    with (orelse
            (run ic (lit "uvicorn") prev sub
               (fun p s => if at_boundary p s then stop p s else None))
            (orelse
               (run ic (lit "gunicorn") prev sub
                  (fun p s => if at_boundary p s then stop p s else None))
               (run ic (lit "daphne") prev sub
                  (fun p s => if at_boundary p s then stop p s else None)))).
  rewrite !is_some_orelse.
  rewrite !(lit_wordb_then ic stop _ _ sub prev (fun _ => eq_refl) Hs).
  unfold asgi_word. now rewrite orb_assoc.
Qed.

(** [(dev|serve)\b] tried at the head of a run of word characters. *)
Lemma dev_or_serve_at_word (ic : bool) (sub : string) (prev : option ascii) :
  all_word sub = true ->
  is_some (run ic (cat [dev_or_serve; WordB]) prev sub stop)
  = same ic sub "dev" || same ic sub "serve".
Proof.
  intros Hs.
  change (run ic (cat [dev_or_serve; WordB]) prev sub stop)
    with (orelse
            (run ic (lit "dev") prev sub
               (fun p s => if at_boundary p s then stop p s else None))
            (run ic (lit "serve") prev sub
               (fun p s => if at_boundary p s then stop p s else None))).
  rewrite is_some_orelse.
  now rewrite !(lit_wordb_then ic stop _ _ sub prev (fun _ => eq_refl) Hs).
Qed.

(** The search in [pre ++ sub] comes down to the search in [sub] when
    no match starts in [pre]; [q] is the last character of [pre]. *)
Ltac skip_prefix ic p pre sub q :=
  change (search ic p (pre ++ sub)) with (is_some (search_from ic p q sub)).

(** The same when one attempt, at the start of [pre], reads all of
    [pre], which ends with one blank, and goes on in [sub] with
    [tail]. *)
Ltac reach ic p pre sub q tail Hw :=
  change (search ic p (pre ++ sub))
    with (is_some
            match star ic Space q sub (fun a s => run ic tail a s stop) with
            | Some e => Some e
            | None => search_from ic p q sub
            end);
  rewrite (star_space_word ic q sub _ Hw),
          (is_some_first _ _ (search_from_needs ic p eq_refl sub q Hw)).

(** Every search left in the goal for [pre ++ sub] is settled by one of
    the two facts on runs of word characters. *)
Ltac settle pre sub q Hw :=
  repeat match goal with
         | |- context [search ?ic ?p (pre ++ sub)] =>
             skip_prefix ic p pre sub q;
             first
               [ rewrite (search_from_needs ic p eq_refl sub q Hw)
               | lazymatch p with
                 | cat [WordB; lit (String ?x ?w); WordB; ?N] =>
                     rewrite (guarded_word_in_word ic x w N sub q
                                (fun _ => eq_refl) eq_refl Hw)
                 end
               | rewrite (asgi_in_word ic sub q eq_refl Hw) ]
         end.

Section NpmRun.
Variable script : string.
Hypothesis script_word : all_word script = true.

Lemma npm_run_allowed :
  existsb (fun p => search true p ("npm run " ++ script)) ALLOWED_PATTERNS
  = same true script "build" || same true script "test".
Proof.
  unfold ALLOWED_PATTERNS. cbn [existsb].
  reach true (cat [WordB; lit "npm"; sp; lit "run"; sp; lit "build"; WordB])
    "npm run " script (Some " "%char) (Seq (lit "build") WordB) script_word.
  reach true (cat [WordB; lit "npm"; sp; lit "run"; sp; lit "test"; WordB])
    "npm run " script (Some " "%char) (Seq (lit "test") WordB) script_word.
  rewrite !(lit_wordb true _ _ script _ script_word).
  settle "npm run " script (Some " "%char) script_word.
  cbn [is_some]. now rewrite !orb_false_r.
Qed.

Lemma npm_run_blocked :
  existsb (fun p => search true p ("npm run " ++ script)) BLOCKED_PATTERNS
  = same true script "dev" || same true script "serve"
    || lone_blocked_word script.
Proof.
  unfold BLOCKED_PATTERNS. cbn [existsb].
  reach true (cat [WordB; lit "npm"; sp; lit "run"; sp; dev_or_serve; WordB])
    "npm run " script (Some " "%char) (cat [dev_or_serve; WordB]) script_word.
  rewrite (dev_or_serve_at_word true script _ script_word).
  settle "npm run " script (Some " "%char) script_word.
  cbn [is_some]. unfold lone_blocked_word, asgi_word.
  repeat match goal with
         | |- context [same true script ?w] =>
             generalize (same true script w); intro
         end.
  repeat match goal with b : bool |- _ => destruct b end; reflexivity.
Qed.

Lemma npm_run_message :
  get_help_message ("npm run " ++ script)
  = if (script =? "dev") || (script =? "serve")
    then HELP_MESSAGES npm_dev
    else if asgi_word false script then HELP_MESSAGES uvicorn
    else fallback_message.
Proof.
  unfold get_help_message.
  reach false help_npm "npm run " script (Some " "%char)
    (cat [dev_or_serve; WordB]) script_word.
  rewrite (dev_or_serve_at_word false script _ script_word).
  settle "npm run " script (Some " "%char) script_word.
  cbn [is_some]. reflexivity.
Qed.

Lemma npm_run_classified :
  should_block_command ("npm run " ++ script) = npm_run_outcome script.
Proof.
  unfold should_block_command, npm_run_outcome.
  now rewrite npm_run_allowed, npm_run_blocked, npm_run_message.
Qed.

End NpmRun.

Section ManagePyDotSlash.
Variable sub : string.
Hypothesis sub_word : all_word sub = true.

Lemma dot_slash_allowed :
  existsb (fun p => search true p ("./manage.py " ++ sub)) ALLOWED_PATTERNS
  = false.
Proof.
  unfold ALLOWED_PATTERNS. cbn [existsb].
  settle "./manage.py " sub (Some " "%char) sub_word.
  reflexivity.
Qed.

Lemma dot_slash_blocked :
  existsb (fun p => search true p ("./manage.py " ++ sub)) BLOCKED_PATTERNS
  = lone_blocked_word sub.
Proof.
  unfold BLOCKED_PATTERNS. cbn [existsb].
  settle "./manage.py " sub (Some " "%char) sub_word.
  cbn [is_some orb]. unfold lone_blocked_word, asgi_word.
  now rewrite !orb_false_r, !orb_assoc.
Qed.

Lemma dot_slash_message :
  get_help_message ("./manage.py " ++ sub)
  = if asgi_word false sub then HELP_MESSAGES uvicorn else fallback_message.
Proof.
  unfold get_help_message.
  settle "./manage.py " sub (Some " "%char) sub_word.
  reflexivity.
Qed.

Lemma dot_slash_classified :
  should_block_command ("./manage.py " ++ sub) = manage_py_outcome sub.
Proof.
  unfold should_block_command, manage_py_outcome.
  now rewrite dot_slash_allowed, dot_slash_blocked, dot_slash_message.
Qed.

End ManagePyDotSlash.

(** A pattern that opens with [\b] and a character that is not a word
    character cannot match after a character that is not a word
    character, nor at the start of the subject. *)
Lemma boundary_then_nonword (ic : bool) (x : ascii) (L : string) (r : regex)
  (prev : option ascii) (s : string) (k : cont) :
  is_word x = false -> word_opt prev = false ->
  run ic (Seq WordB (Seq (lit (String x L)) r)) prev s k = None.
Proof.
  intros Hx Hp. simpl. unfold at_boundary. rewrite Hp.
  destruct s as [|c t]; [reflexivity|]. simpl.
  destruct (is_word c) eqn:Hc; [|reflexivity]. simpl.
  assert (E : accepts ic (Lit x) c = false).
  { apply nonword_item_rejects; auto. simpl. now rewrite Hx. }
  simpl in E. now rewrite E.
Qed.

Lemma help_text_dead (ic : bool) :
  dead (fun p s => run ic (lit "--help") p s stop).
Proof. intros prev s Hs. now apply run_needs. Qed.

Lemma same_lower (s w : string) :
  same true s w = true -> lower_str s = lower_str w.
Proof. unfold same. apply String.eqb_eq. Qed.

Section Servers.
Variable w : string.
Hypothesis w_word : all_word w = true.

(** One proof for the three names: no allow pattern is found, the
    block pattern of the server matches where the command starts, and
    the fourth test of [get_help_message] succeeds. *)
Ltac server_blocked name :=
  unfold should_block_command;
  assert (A : existsb (fun p => search true p (name ++ w)) ALLOWED_PATTERNS
              = false)
    by (unfold ALLOWED_PATTERNS; cbn [existsb];
        settle name w (Some " "%char) w_word; reflexivity);
  assert (B : existsb (fun p => search true p (name ++ w)) BLOCKED_PATTERNS
              = true);
  [ apply matched_in;
    match goal with
    | |- exists p, In p _ /\ search true p (?n ++ _) = true =>
        first
          [ exists (cat [WordB; lit "uvicorn"; WordB; no_help]);
            split; [simpl; tauto|]; apply search_here;
            change (run true (cat [WordB; lit "uvicorn"; WordB; no_help])
                      None (n ++ w) stop)
              with (match
                       orelse
                         (star true Dot (Some " "%char) w
                            (fun p s => run true (lit "--help") p s stop))
                         None
                     with
                     | Some _ => None
                     | None => Some (Some "n"%char, " " ++ w)
                     end)
          | exists (cat [WordB; lit "gunicorn"; WordB; no_help]);
            split; [simpl; tauto|]; apply search_here;
            change (run true (cat [WordB; lit "gunicorn"; WordB; no_help])
                      None (n ++ w) stop)
              with (match
                       orelse
                         (star true Dot (Some " "%char) w
                            (fun p s => run true (lit "--help") p s stop))
                         None
                     with
                     | Some _ => None
                     | None => Some (Some "n"%char, " " ++ w)
                     end)
          | exists (cat [WordB; lit "daphne"; WordB; no_help]);
            split; [simpl; tauto|]; apply search_here;
            change (run true (cat [WordB; lit "daphne"; WordB; no_help])
                      None (n ++ w) stop)
              with (match
                       orelse
                         (star true Dot (Some " "%char) w
                            (fun p s => run true (lit "--help") p s stop))
                         None
                     with
                     | Some _ => None
                     | None => Some (Some "e"%char, " " ++ w)
                     end) ]
    end;
    rewrite (star_dead true Dot _ (help_text_dead true) w _ w_word);
    reflexivity
  | rewrite A, B; f_equal;
    unfold get_help_message;
    change (search false help_asgi (name ++ w)) with true;
    settle name w (Some " "%char) w_word;
    reflexivity ].

Lemma uvicorn_blocked :
  should_block_command ("uvicorn " ++ w) = (true, HELP_MESSAGES uvicorn).
Proof. server_blocked "uvicorn ". Qed.

Lemma gunicorn_blocked :
  should_block_command ("gunicorn " ++ w) = (true, HELP_MESSAGES uvicorn).
Proof. server_blocked "gunicorn ". Qed.

Lemma daphne_blocked :
  should_block_command ("daphne " ++ w) = (true, HELP_MESSAGES uvicorn).
Proof. server_blocked "daphne ". Qed.

End Servers.

Section Vite.
Variable w : string.
Hypothesis w_word : all_word w = true.

Lemma vite_allowed :
  existsb (fun p => search true p ("vite " ++ w)) ALLOWED_PATTERNS
  = same true w "build".
Proof.
  unfold ALLOWED_PATTERNS. cbn [existsb].
  reach true (cat [WordB; lit "vite"; sp; lit "build"; WordB])
    "vite " w (Some " "%char) (Seq (lit "build") WordB) w_word.
  rewrite (lit_wordb true _ _ w _ w_word).
  settle "vite " w (Some " "%char) w_word.
  cbn [is_some orb]. now rewrite orb_false_r.
Qed.

Lemma vite_block_found :
  search true vite_block ("vite " ++ w)
  = negb (contains "build" (lower_str w)).
Proof.
  change (search true vite_block ("vite " ++ w))
    with (is_some
            match
              match
                orelse
                  (star true Dot (Some " "%char) w
                     (fun p s => run true (lit "build") p s stop))
                  None
              with
              | Some _ => None
              | None => Some (Some "e"%char, " " ++ w)
              end
            with
            | Some e => Some e
            | None => search_from true vite_block (Some " "%char) w
            end).
  pose proof (any_then_lit "build" w (Some " "%char)
                (no_newline_word w w_word)) as E.
  change (lower_str "build") with "build" in E.
  destruct (star true Dot (Some " "%char) w
              (fun p s => run true (lit "build") p s stop)) as [e|];
    simpl in E; rewrite <- E; [|reflexivity].
  cbn [orelse negb].
  unfold vite_block.
  change (@is_some (option ascii * string)) with (@is_some pos).
  rewrite (guarded_word_in_word true "v" "ite"
             (NotAhead (Seq any (lit "build"))) w (Some " "%char)
             (fun _ => eq_refl) eq_refl w_word).
  destruct (same true w "vite") eqn:S; [|reflexivity].
  apply same_lower in S. rewrite S in E. discriminate E.
Qed.

Lemma vite_blocked :
  existsb (fun p => search true p ("vite " ++ w)) BLOCKED_PATTERNS
  = negb (contains "build" (lower_str w)).
Proof.
  unfold BLOCKED_PATTERNS. cbn [existsb].
  change (cat [WordB; lit "vite"; WordB; NotAhead (Seq any (lit "build"))])
    with vite_block.
  rewrite vite_block_found.
  settle "vite " w (Some " "%char) w_word.
  cbn [is_some orb]. rewrite !orb_false_r.
  destruct (contains "build" (lower_str w)) eqn:C; [|reflexivity].
  cbn [negb orb].
  repeat match goal with
         | |- context [same true w ?x] =>
             let S := fresh "S" in
             destruct (same true w x) eqn:S;
             [apply same_lower in S; rewrite S in C; discriminate C|]
         end.
  reflexivity.
Qed.

Lemma vite_message :
  get_help_message ("vite " ++ w)
  = if asgi_word false w then HELP_MESSAGES uvicorn else fallback_message.
Proof.
  unfold get_help_message.
  settle "vite " w (Some " "%char) w_word.
  reflexivity.
Qed.

Lemma vite_classified :
  should_block_command ("vite " ++ w) = vite_outcome w.
Proof.
  unfold should_block_command, vite_outcome.
  rewrite vite_allowed, vite_blocked, vite_message.
  destruct (contains "build" (lower_str w)) eqn:C.
  - now destruct (same true w "build").
  - destruct (same true w "build") eqn:S; [|reflexivity].
    apply same_lower in S. rewrite S in C. discriminate C.
Qed.

End Vite.

(** *** Allow phrases anywhere in a command *)

Ltac phrase_with k Hq Hb :=
  exists (nth k ALLOWED_PATTERNS Eps);
  split; [unfold ALLOWED_PATTERNS; simpl; tauto|];
  unfold search; apply search_from_skip;
  cbv -[at_boundary Cases.last_of];
  unfold at_boundary; rewrite Hq, Hb; reflexivity.

Lemma allow_phrase_found (a b phrase : string) :
  In phrase allow_phrases ->
  word_opt (last_of None a) = false ->
  word_opt (head b) = false ->
  existsb (fun p => search true p (a ++ phrase ++ b)) ALLOWED_PATTERNS = true.
Proof.
  intros Hin Hq Hb. apply matched_in.
  unfold allow_phrases in Hin. simpl in Hin.
  repeat (destruct Hin as [<-|Hin]); try contradiction;
    first [ phrase_with 0 Hq Hb | phrase_with 1 Hq Hb | phrase_with 2 Hq Hb
          | phrase_with 3 Hq Hb | phrase_with 4 Hq Hb | phrase_with 6 Hq Hb
          | phrase_with 7 Hq Hb | phrase_with 9 Hq Hb | phrase_with 10 Hq Hb ].
Qed.

Lemma docker_word_found (a b : string) (w : ascii) :
  is_space w = true ->
  word_opt (last_of None a) = false ->
  existsb (fun p => search true p (a ++ "docker" ++ String w b))
    ALLOWED_PATTERNS = true.
Proof.
  intros Hw Hq. apply matched_in.
  exists (cat [WordB; lit "docker"; sp]).
  split; [simpl; tauto|].
  unfold search. apply search_from_skip.
  change (run true (cat [WordB; lit "docker"; sp]) (last_of None a)
            ("docker" ++ String w b) stop)
    with (if at_boundary (last_of None a) ("docker" ++ String w b)
          then (if is_space w then star true Space (Some w) b stop else None)
          else None).
  unfold at_boundary. rewrite Hq, Hw. simpl.
  apply star_stop.
Qed.

(** *** Reason and decision *)

Lemma help_message_not_empty (cmd : string) : get_help_message cmd <> "".
Proof.
  unfold get_help_message.
  repeat match goal with
         | |- context [if ?b then _ else _] => destruct b
         end;
    intros H; discriminate H.
Qed.

Lemma rendered_main (i : stdin) (cmd : string) :
  carries_command i cmd ->
  process (main i) = rendered (should_block_command cmd).
Proof.
  intros Hi. rewrite (main_on_command i cmd Hi). unfold rendered.
  destruct (String.eqb_spec cmd "") as [->|]; reflexivity.
Qed.

(** X1.  The command "./manage.py <word>" is not blocked as a
    management command: it is allowed, with status 0 and nothing
    printed, unless the word itself is one that a block pattern finds
    standing alone (vite, uvicorn, gunicorn, daphne).  The three
    patterns written for "./manage.py" cannot match where a command
    starts, nor after an ASCII character that is not a word
    character. *)
Theorem dot_slash_manage_py (sub : string) (i : stdin) :
  all_word sub = true ->
  carries_command i ("./manage.py " ++ sub) ->
  should_block_command ("./manage.py " ++ sub) = manage_py_outcome sub
  /\ (lone_blocked_word sub = false ->
       should_block_command ("./manage.py " ++ sub) = (false, "")
       /\ process (main i) = (0%Z, []))
  /\ (forall p prev s,
        In p dot_slash_patterns -> ascii_nonword prev = true ->
        run true p prev s stop = None).
Proof.
  intros Hw Hi.
  pose proof (dot_slash_classified sub Hw) as E.
  repeat apply conj.
  - exact E.
  - intros H. rewrite (rendered_main i _ Hi), E.
    unfold manage_py_outcome. now rewrite H.
  - intros p prev s Hp Hq. apply ascii_nonword_word in Hq. simpl in Hp.
    repeat (destruct Hp as [<-|Hp]); try contradiction;
      now apply (boundary_then_nonword true "."%char "/manage.py").
Qed.

Lemma dot_slash_manage_py_witness :
  (all_word "migrate" = true
   /\ carries_command (bash_event "./manage.py migrate") "./manage.py migrate"
   /\ lone_blocked_word "migrate" = false)
  /\ should_block_command "./manage.py migrate" = (false, "")
  /\ process (main (bash_event "./manage.py migrate")) = (0%Z, [])
  /\ should_block_command "./manage.py runserver" = (false, "").
Proof.
  assert (H1 : all_word "migrate" = true) by reflexivity.
  assert (H3 : lone_blocked_word "migrate" = false) by reflexivity.
  destruct (dot_slash_manage_py "migrate" (bash_event "./manage.py migrate")
              H1 (bash_event_carries _)) as (_ & A & _).
  destruct (A H3) as [A1 A2].
  assert (H1' : all_word "runserver" = true) by reflexivity.
  destruct (dot_slash_manage_py "runserver"
              (bash_event "./manage.py runserver")
              H1' (bash_event_carries _)) as (_ & B & _).
  exact (conj (conj H1 (conj (bash_event_carries _) H3))
           (conj A1 (conj A2 (proj1 (B eq_refl))))).
Defined.

(** X2.  The command "npm run <script>", for a word <script>: allowed
    for build and test, blocked for dev and serve and for the names
    that a block pattern finds standing alone (vite, uvicorn, gunicorn,
    daphne), all compared without regard to letter case, and allowed
    for every other script.  The message of a blocked command is the
    front-end one only for dev and serve in lower case. *)
Theorem npm_run_family (script : string) (i : stdin) :
  all_word script = true ->
  carries_command i ("npm run " ++ script) ->
  should_block_command ("npm run " ++ script) = npm_run_outcome script
  /\ process (main i) = rendered (npm_run_outcome script).
Proof.
  intros Hw Hi.
  pose proof (npm_run_classified script Hw) as E.
  split; [exact E|]. now rewrite (rendered_main i _ Hi), E.
Qed.

Lemma npm_run_family_witness :
  (all_word "vite" = true
   /\ carries_command (bash_event "npm run vite") "npm run vite")
  /\ should_block_command "npm run vite" = (true, fallback_message)
  /\ process (main (bash_event "npm run vite")) = (2%Z, [fallback_message])
  /\ should_block_command "npm run lint" = (false, "")
  /\ should_block_command "npm run Serve" = (true, fallback_message).
Proof.
  destruct (npm_run_family "vite" (bash_event "npm run vite")
              eq_refl (bash_event_carries _)) as [A1 A2].
  destruct (npm_run_family "lint" (bash_event "npm run lint")
              eq_refl (bash_event_carries _)) as [B _].
  destruct (npm_run_family "Serve" (bash_event "npm run Serve")
              eq_refl (bash_event_carries _)) as [C _].
  exact (conj (conj eq_refl (bash_event_carries _))
           (conj A1 (conj A2 (conj B C)))).
Defined.

(** X3.  A command that holds one of the allow phrases between the
    start of the command or an ASCII character that is no word
    character, and the end of the command or such a character, is
    allowed, with status 0 and nothing printed, whatever else stands
    before and after the phrase. *)
Theorem allow_phrase_anywhere (a b phrase : string) (i : stdin) :
  In phrase allow_phrases ->
  ascii_nonword (last_of None a) = true ->
  ascii_nonword (head b) = true ->
  carries_command i (a ++ phrase ++ b) ->
  should_block_command (a ++ phrase ++ b) = (false, "")
  /\ process (main i) = (0%Z, []).
Proof.
  intros Hin Hq Hb Hi.
  apply ascii_nonword_word in Hq, Hb.
  assert (E : should_block_command (a ++ phrase ++ b) = (false, "")).
  { unfold should_block_command.
    now rewrite (allow_phrase_found a b phrase Hin Hq Hb). }
  split; [exact E|]. now rewrite (rendered_main i _ Hi), E.
Qed.

Lemma allow_phrase_anywhere_witness :
  let cmd := "npm run dev && pip install -r requirements.txt" in
  (In "pip install" allow_phrases
   /\ ascii_nonword (last_of None "npm run dev && ") = true
   /\ ascii_nonword (head " -r requirements.txt") = true
   /\ carries_command (bash_event cmd) cmd)
  /\ should_block_command cmd = (false, "")
  /\ process (main (bash_event cmd)) = (0%Z, [])
  /\ should_block_command "npm run dev" = (true, HELP_MESSAGES npm_dev).
Proof.
  intros cmd.
  assert (H1 : In "pip install" allow_phrases) by (simpl; tauto).
  destruct (allow_phrase_anywhere "npm run dev && " " -r requirements.txt"
              "pip install" (bash_event cmd) H1 eq_refl eq_refl
              (bash_event_carries cmd)) as [A1 A2].
  refine (conj (conj H1 (conj eq_refl (conj eq_refl (bash_event_carries cmd))))
            (conj A1 (conj A2 _))).
  vm_compute; reflexivity.
Defined.

(** X4.  A command that holds the word docker, at its start or after
    an ASCII character that is no word character, followed by an ASCII
    blank is allowed, with status 0 and nothing printed, whatever else
    stands before the word and after the blank. *)
Theorem docker_word_anywhere (a b : string) (w : ascii) (i : stdin) :
  is_space w = true ->
  ascii_nonword (last_of None a) = true ->
  carries_command i (a ++ "docker" ++ String w b) ->
  should_block_command (a ++ "docker" ++ String w b) = (false, "")
  /\ process (main i) = (0%Z, []).
Proof.
  intros Hw Hq Hi.
  apply ascii_nonword_word in Hq.
  assert (E : should_block_command (a ++ "docker" ++ String w b)
              = (false, "")).
  { unfold should_block_command.
    now rewrite (docker_word_found a b w Hw Hq). }
  split; [exact E|]. now rewrite (rendered_main i _ Hi), E.
Qed.

Lemma docker_word_anywhere_witness :
  let cmd := "python manage.py migrate # docker " in
  (is_space " " = true
   /\ ascii_nonword (last_of None "python manage.py migrate # ") = true
   /\ carries_command (bash_event cmd) cmd)
  /\ should_block_command cmd = (false, "")
  /\ process (main (bash_event cmd)) = (0%Z, []).
Proof.
  intros cmd.
  exact (conj (conj eq_refl (conj eq_refl (bash_event_carries cmd)))
           (docker_word_anywhere "python manage.py migrate # " "" " "
              (bash_event cmd) eq_refl eq_refl (bash_event_carries cmd))).
Defined.

(** X5.  The command "vite <word>" is blocked exactly when "build" does
    not occur in the word, in any letter case: "vite build" is allowed
    by its allow pattern, "vite rebuild" slips through the look-ahead
    of the block pattern.  A blocked vite command gets the generic
    fallback message (or the server message when the word is the name
    of a server). *)
Theorem vite_family (w : string) (i : stdin) :
  all_word w = true ->
  carries_command i ("vite " ++ w) ->
  should_block_command ("vite " ++ w) = vite_outcome w
  /\ process (main i) = rendered (vite_outcome w)
  /\ fst (should_block_command ("vite " ++ w))
     = negb (contains "build" (lower_str w)).
Proof.
  intros Hw Hi.
  pose proof (vite_classified w Hw) as E.
  repeat apply conj.
  - exact E.
  - now rewrite (rendered_main i _ Hi), E.
  - rewrite E. unfold vite_outcome.
    now destruct (contains "build" (lower_str w)).
Qed.

Lemma vite_family_witness :
  (all_word "rebuild" = true
   /\ carries_command (bash_event "vite rebuild") "vite rebuild")
  /\ should_block_command "vite rebuild" = (false, "")
  /\ process (main (bash_event "vite rebuild")) = (0%Z, [])
  /\ should_block_command "vite preview" = (true, fallback_message).
Proof.
  destruct (vite_family "rebuild" (bash_event "vite rebuild")
              eq_refl (bash_event_carries _)) as (A1 & A2 & _).
  destruct (vite_family "preview" (bash_event "vite preview")
              eq_refl (bash_event_carries _)) as (B & _).
  exact (conj (conj eq_refl (bash_event_carries _)) (conj A1 (conj A2 B))).
Defined.

(** X6.  The commands "uvicorn <word>", "gunicorn <word>" and
    "daphne <word>" are blocked with status 2 and the server message,
    for every word. *)
Theorem server_family (server w : string) (i : stdin) :
  In server servers ->
  all_word w = true ->
  carries_command i (server ++ " " ++ w) ->
  should_block_command (server ++ " " ++ w) = (true, HELP_MESSAGES uvicorn)
  /\ process (main i) = (2%Z, [HELP_MESSAGES uvicorn]).
Proof.
  intros Hs Hw Hi.
  assert (E : should_block_command (server ++ " " ++ w)
              = (true, HELP_MESSAGES uvicorn)).
  { simpl in Hs. destruct Hs as [<-|[<-|[<-|[]]]].
    - exact (uvicorn_blocked w Hw).
    - exact (gunicorn_blocked w Hw).
    - exact (daphne_blocked w Hw). }
  split; [exact E|]. now rewrite (rendered_main i _ Hi), E.
Qed.

Lemma server_family_witness :
  (In "gunicorn" servers
   /\ all_word "wsgi" = true
   /\ carries_command (bash_event "gunicorn wsgi") "gunicorn wsgi")
  /\ should_block_command "gunicorn wsgi" = (true, HELP_MESSAGES uvicorn)
  /\ process (main (bash_event "gunicorn wsgi"))
     = (2%Z, [HELP_MESSAGES uvicorn]).
Proof.
  assert (H1 : In "gunicorn" servers) by (simpl; tauto).
  exact (conj (conj H1 (conj eq_refl (bash_event_carries _)))
           (server_family "gunicorn" "wsgi" (bash_event "gunicorn wsgi")
              H1 eq_refl (bash_event_carries _))).
Defined.

(** X7.  The reason returned by the classifier is empty exactly when
    the command is allowed; a blocked command always carries a message,
    which is the one printed with status 2, and an allowed command
    prints nothing. *)
Theorem reason_iff_blocked (cmd : string) (i : stdin) :
  carries_command i cmd ->
  (fst (should_block_command cmd) = true
   <-> snd (should_block_command cmd) <> "")
  /\ process (main i) = rendered (should_block_command cmd)
  /\ (fst (process (main i)) = 2%Z <-> snd (process (main i)) <> []).
Proof.
  intros Hi.
  assert (R : fst (should_block_command cmd) = true
              <-> snd (should_block_command cmd) <> "").
  { unfold should_block_command.
    destruct (existsb (fun p => search true p cmd) ALLOWED_PATTERNS);
      cbn [fst snd];
      [split; [discriminate | intros H; now elim H]|].
    destruct (existsb (fun p => search true p cmd) BLOCKED_PATTERNS);
      cbn [fst snd].
    - split; auto. intros _. apply help_message_not_empty.
    - split; [discriminate | intros H; now elim H]. }
  repeat apply conj; try exact R; try apply R.
  - now apply rendered_main.
  - rewrite (rendered_main i _ Hi). unfold rendered.
    destruct (fst (should_block_command cmd)); simpl;
      [discriminate | intros H; discriminate H].
  - rewrite (rendered_main i _ Hi). unfold rendered.
    destruct (fst (should_block_command cmd)); simpl;
      [reflexivity | intros H; now elim H].
Qed.

Lemma reason_iff_blocked_witness :
  carries_command (bash_event "pnpm dev") "pnpm dev"
  /\ fst (should_block_command "pnpm dev") = true
  /\ snd (should_block_command "pnpm dev") <> ""
  /\ fst (process (main (bash_event "pnpm dev"))) = 2%Z
  /\ snd (process (main (bash_event "pnpm dev"))) <> [].
Proof.
  destruct (reason_iff_blocked "pnpm dev" (bash_event "pnpm dev")
              (bash_event_carries _)) as (A & _ & B).
  assert (F : fst (should_block_command "pnpm dev") = true)
    by (vm_compute; reflexivity).
  assert (G : fst (process (main (bash_event "pnpm dev"))) = 2%Z)
    by (vm_compute; reflexivity).
  exact (conj (bash_event_carries _)
           (conj F (conj (proj1 A F) (conj G (proj1 B G))))).
Defined.

End DockerMore.

(** ** The advisory guard on families of paths and outputs *)

Module TsMore.
Import Chars Re Shape Py Event TsGuard Cases.
Import CharFacts ReFacts ReMore TsFacts.

(** *** The choice of the warning and letter case *)

Lemma first_warning_case (entries : list pattern_info) (p1 p2 : string) :
  same_letters p1 p2 ->
  first_warning entries p1 = first_warning entries p2.
Proof.
  intros H. induction entries as [|e entries IH]; simpl; auto.
  now rewrite (search_case (trigger e) p1 p2 H), IH.
Qed.

(** *** The test-file trigger *)

Lemma two_lits_search (A B : string) (s : string) :
  forall prev,
    is_some (search_from true (Alt (lit A) (lit B)) prev s)
    = contains (lower_str A) (lower_str s)
      || contains (lower_str B) (lower_str s).
Proof.
  induction s as [|c t IH]; intros prev.
  - simpl. rewrite is_some_first by reflexivity.
    now rewrite is_some_orelse, !lit_is_prefix, !orb_false_r.
  - change (contains (lower_str A) (lower_str (String c t)))
      with (String.prefix (lower_str A) (lower_str (String c t))
            || contains (lower_str A) (lower_str t)).
    change (contains (lower_str B) (lower_str (String c t)))
      with (String.prefix (lower_str B) (lower_str (String c t))
            || contains (lower_str B) (lower_str t)).
    rewrite <- !lit_is_prefix with (prev := prev).
    simpl search_from.
    specialize (IH (Some c)).
    destruct (run true (lit A) prev (String c t) stop),
             (run true (lit B) prev (String c t) stop); simpl;
      rewrite ?orb_true_r; auto.
Qed.

Lemma test_trigger_found (path : string) :
  search true test_trigger path
  = contains ".spec.ts" (lower_str path)
    || contains ".test.ts" (lower_str path).
Proof. unfold search, test_trigger. apply two_lits_search. Qed.

Lemma some_eq (A : Type) (a b : A) : Some a = Some b -> a = b.
Proof. now intros [= ->]. Qed.

Lemma warnings_differ :
  warning_test_mock <> warning_vue_component
  /\ warning_test_mock <> warning_typescript_types
  /\ warning_test_mock <> warning_composable
  /\ warning_vue_component <> warning_typescript_types
  /\ warning_vue_component <> warning_composable.
Proof. repeat apply conj; intros H; discriminate H. Qed.

(** *** The Vue trigger *)

Lemma ends_with_empty (X : string) : ends_with X "" <-> "" = X.
Proof.
  split.
  - intros [p H]. destruct p; [exact H|discriminate H].
  - intros <-. now exists "".
Qed.

Lemma ends_with_cons (X : string) (a : ascii) (t : string) :
  ends_with X (String a t) <-> String a t = X \/ ends_with X t.
Proof.
  split.
  - intros [p H]. destruct p as [|a' p]; [now left|].
    right. exists p. simpl in H. now injection H.
  - intros [<-|[p ->]]; [now exists ""|]. now exists (String a p).
Qed.

(** A literal and then [$], tried at the head of the subject. *)
Lemma lit_end_run (L : string) :
  forall s prev,
    is_some (run true (Seq (lit L) EndS) prev s stop) = true
    <-> lower_str s = lower_str L \/ lower_str s = lower_str L ++ nl.
Proof.
  induction L as [|x L IH]; intros s prev.
  - destruct s as [|c [|c' t]]; simpl.
    + split; auto.
    + rewrite <- (newline_lower c).
      destruct (Ascii.eqb_spec (lower c) newline) as [E|E]; simpl.
      * split; auto. intros _. right. unfold nl. now rewrite E.
      * split; [discriminate|]. intros [H|H]; [discriminate H|].
        unfold nl in H. injection H as H. now elim E.
    + split; [discriminate|]. intros [H|H]; discriminate H.
  - destruct s as [|c t].
    + simpl. split; [discriminate|]. intros [H|H]; discriminate H.
    + change (run true (Seq (lit (String x L)) EndS) prev (String c t) stop)
        with (if Ascii.eqb (lower c) (lower x)
              then run true (Seq (lit L) EndS) (Some c) t stop else None).
      simpl lower_str. simpl append.
      destruct (Ascii.eqb_spec (lower c) (lower x)) as [E|E].
      * rewrite IH, E. split.
        -- intros [H|H]; [left|right]; now rewrite H.
        -- intros [H|H]; injection H as H; auto.
      * split; [discriminate|].
        intros [H|H]; injection H as H _; now elim E.
Qed.

Lemma lit_end_search (L : string) (s : string) :
  forall prev,
    is_some (search_from true (Seq (lit L) EndS) prev s) = true
    <-> ends_with (lower_str L) (lower_str s)
        \/ ends_with (lower_str L ++ nl) (lower_str s).
Proof.
  induction s as [|c t IH]; intros prev.
  - change (search_from true (Seq (lit L) EndS) prev "")
      with (match run true (Seq (lit L) EndS) prev "" stop with
            | Some e => Some e
            | None => None
            end).
    rewrite is_some_first by reflexivity.
    rewrite lit_end_run, !ends_with_empty. simpl lower_str.
    split; intros [H|H]; auto.
  - simpl lower_str. rewrite !ends_with_cons.
    specialize (IH (Some c)).
    pose proof (lit_end_run L (String c t) prev) as R.
    simpl lower_str in R.
    change (search_from true (Seq (lit L) EndS) prev (String c t))
      with (match run true (Seq (lit L) EndS) prev (String c t) stop with
            | Some e => Some e
            | None => search_from true (Seq (lit L) EndS) (Some c) t
            end).
    destruct (run true (Seq (lit L) EndS) prev (String c t) stop).
    + assert (T : is_some (Some p) = true) by reflexivity.
      change (is_some (Some p)) with true.
      change (is_some (Some p)) with true in R. tauto.
    + change (is_some (@None pos)) with false in R.
      assert (F : false = true -> False) by discriminate.
      tauto.
Qed.

Lemma vue_trigger_found (path : string) :
  search true vue_trigger path = true
  <-> ends_with ".vue" (lower_str path)
      \/ ends_with (".vue" ++ nl) (lower_str path).
Proof. unfold search, vue_trigger. apply (lit_end_search ".vue"). Qed.

(** *** The count of the probe *)

Lemma run_lit_drop (w : string) :
  forall prev s k,
    run false (lit w) prev s k
    = match drop_prefix w s with
      | Some t => k (last_of prev w) t
      | None => None
      end.
Proof.
  induction w as [|x w IH]; intros prev s k; [reflexivity|].
  destruct s as [|c t]; [reflexivity|].
  change (run false (lit (String x w)) prev (String c t) k)
    with (if Ascii.eqb c x then run false (lit w) (Some c) t k else None).
  simpl drop_prefix. simpl last_of.
  destruct (Ascii.eqb_spec c x) as [->|]; [apply IH | reflexivity].
Qed.

Lemma drop_prefix_spec (w : string) :
  forall s t, drop_prefix w s = Some t -> s = w ++ t.
Proof.
  induction w as [|x w IH]; intros s t; simpl.
  - now intros [= ->].
  - destruct s as [|c s]; [discriminate|].
    destruct (Ascii.eqb_spec c x) as [->|]; [|discriminate].
    intros H. now rewrite (IH _ _ H).
Qed.

Lemma digit_is_no_colon (c : ascii) :
  is_digit c = true -> Ascii.eqb c ":" = false.
Proof. all_chars c; intros H; first [reflexivity | discriminate H]. Qed.

Lemma digit_is_no_e (c : ascii) :
  is_digit c = true -> Ascii.eqb c "e" = false.
Proof. all_chars c; intros H; first [reflexivity | discriminate H]. Qed.

Lemma star_digits (t : string) :
  forall prev,
    is_some (star false Digit prev t after_digits) = digits_then_colon true t.
Proof.
  induction t as [|c t IH]; intros prev; [reflexivity|].
  simpl star. simpl digits_then_colon. unfold accepts.
  destruct (is_digit c) eqn:D.
  - rewrite is_some_orelse, IH.
    unfold after_digits. simpl. rewrite (digit_is_no_colon c D).
    now rewrite orb_false_r.
  - unfold after_digits. simpl. now destruct (Ascii.eqb c ":").
Qed.

Lemma star_digits_shape (t : string) :
  forall prev q rest,
    star false Digit prev t after_digits = Some (q, rest) ->
    exists ds, all_digit ds = true /\ t = ds ++ ":" ++ rest.
Proof.
  induction t as [|c t IH]; intros prev q rest; [discriminate|].
  simpl star. unfold accepts.
  destruct (is_digit c) eqn:D.
  - assert (K : after_digits prev (String c t) = None)
      by (unfold after_digits; simpl; now rewrite (digit_is_no_colon c D)).
    rewrite K.
    destruct (star false Digit (Some c) t after_digits) as [[q' r']|] eqn:S;
      simpl; [|discriminate].
    intros [= <- <-].
    destruct (IH _ _ _ S) as (ds & Hd & ->).
    exists (String c ds). simpl. now rewrite D, Hd.
  - unfold after_digits. simpl.
    destruct (Ascii.eqb_spec c ":") as [->|]; [|discriminate].
    intros [= <- <-]. now exists "".
Qed.

Lemma marker_run (s : string) (prev : option ascii) :
  run false error_marker prev s stop
  = match drop_prefix "error TS" s with
    | Some t => plus false Digit None t after_digits
    | None => None
    end.
Proof.
  change (run false error_marker prev s stop)
    with (run false (lit "error TS") prev s
            (fun p u => plus false Digit None u after_digits)).
  apply run_lit_drop.
Qed.

Lemma marker_found (s : string) (prev : option ascii) :
  is_some (run false error_marker prev s stop) = marker_here s.
Proof.
  rewrite marker_run. unfold marker_here.
  destruct (drop_prefix "error TS" s) as [t|]; [|reflexivity].
  destruct t as [|c t]; [reflexivity|].
  simpl plus. simpl digits_then_colon. unfold accepts.
  destruct (is_digit c); [apply star_digits | reflexivity].
Qed.

Lemma marker_shape (s : string) (prev q : option ascii) (rest : string) :
  run false error_marker prev s stop = Some (q, rest) ->
  exists ds, all_digit ds = true /\ s = "error TS" ++ ds ++ ":" ++ rest.
Proof.
  rewrite marker_run.
  destruct (drop_prefix "error TS" s) as [t|] eqn:P; [|discriminate].
  apply drop_prefix_spec in P. subst s.
  destruct t as [|c t]; [discriminate|].
  simpl plus. unfold accepts.
  destruct (is_digit c) eqn:D; [|discriminate].
  intros S. destruct (star_digits_shape _ _ _ _ S) as (ds & Hd & ->).
  exists (String c ds). simpl. now rewrite D, Hd.
Qed.

Lemma no_e_in_digits (ds rest : string) :
  all_digit ds = true ->
  no_e_prefix (S (String.length ds)) (ds ++ ":" ++ rest) = true.
Proof.
  induction ds as [|c ds IH]; [reflexivity|].
  simpl all_digit. intros H. apply andb_true_iff in H as [D H].
  change (no_e_prefix (S (String.length (String c ds)))
            (String c ds ++ ":" ++ rest))
    with (negb (Ascii.eqb c "e")
          && no_e_prefix (S (String.length ds)) (ds ++ ":" ++ rest)).
  now rewrite (digit_is_no_e c D), (IH H).
Qed.

Lemma marker_needs_e (c : ascii) (t : string) :
  Ascii.eqb c "e" = false -> marker_here (String c t) = false.
Proof. intros H. unfold marker_here. simpl. now rewrite H. Qed.

(** Whatever part of the last match is still to be passed, the scan
    misses no marker in it: the marker starts with the only letter e
    that it holds. *)
Lemma count_from_occurrences (s : string) :
  forall skip prev,
    no_e_prefix skip s = true ->
    count_from error_marker skip prev s = occurrences s.
Proof.
  induction s as [|c t IH]; intros skip prev H.
  - destruct skip; reflexivity.
  - destruct skip as [|k].
    + change (count_from error_marker 0 prev (String c t))
        with (match run false error_marker prev (String c t) stop with
              | Some (_, rest) =>
                  S (count_from error_marker
                       (String.length (String c t) - String.length rest - 1)
                       (Some c) t)
              | None => count_from error_marker 0 (Some c) t
              end).
      change (occurrences (String c t))
        with ((if marker_here (String c t) then 1 else 0) + occurrences t).
      rewrite <- (marker_found (String c t) prev).
      destruct (run false error_marker prev (String c t) stop)
        as [[q rest]|] eqn:R.
      * destruct (marker_shape _ _ _ _ R) as (ds & Hd & E).
        simpl is_some. simpl Nat.add. f_equal. apply IH.
        assert (Et : t = "rror TS" ++ ds ++ ":" ++ rest)
          by (now injection E).
        assert (Len : String.length (String c t)
                      = 9 + String.length ds + String.length rest).
        { rewrite E, !length_app.
          change (String.length "error TS") with 8.
          change (String.length ":") with 1. lia. }
        rewrite Len.
        replace (9 + String.length ds + String.length rest
                 - String.length rest - 1)
          with (7 + S (String.length ds)) by lia.
        rewrite Et.
        change (no_e_prefix (S (String.length ds)) (ds ++ ":" ++ rest) = true).
        now apply no_e_in_digits.
      * simpl. now apply IH.
    + change (count_from error_marker (S k) prev (String c t))
        with (count_from error_marker k (Some c) t).
      change (occurrences (String c t))
        with ((if marker_here (String c t) then 1 else 0) + occurrences t).
      simpl in H. apply andb_true_iff in H as [E H].
      apply negb_true_iff in E.
      rewrite (marker_needs_e c t E). simpl. now apply IH.
Qed.

Lemma file_event_writes (tool path : string) :
  tool = "Write" \/ tool = "Edit" ->
  writes_file (file_event tool path) path.
Proof.
  intros H.
  exists [("tool_name", VStr tool);
          ("tool_input", VDict [("file_path", VStr path)])],
    [("file_path", VStr path)], tool.
  repeat split; auto.
Qed.

(** X8.  The choice of the warning does not depend on the letter case
    of the path: two paths that differ in letter case only get the
    same warning, and two write events for such paths, both inside
    frontend/src, give the same output. *)
Theorem warning_ignores_case (p1 p2 : string) (w : world) (i1 i2 : stdin) :
  same_letters p1 p2 ->
  get_pattern_warning p1 = get_pattern_warning p2
  /\ (writes_file i1 p1 -> writes_file i2 p2 ->
      in_frontend_src p1 = true -> in_frontend_src p2 = true ->
      process (main w i1) = process (main w i2)).
Proof.
  intros H.
  assert (E : get_pattern_warning p1 = get_pattern_warning p2)
    by now apply first_warning_case.
  split; [exact E|].
  intros H1 H2 S1 S2.
  now rewrite (main_on_write w i1 p1 H1), (main_on_write w i2 p2 H2),
    S1, S2, E.
Qed.

Lemma warning_ignores_case_witness :
  let p1 := "frontend/src/components/APP.VUE" in
  let p2 := "frontend/src/components/App.vue" in
  same_letters p1 p2
  /\ get_pattern_warning p1 = get_pattern_warning p2
  /\ get_pattern_warning p2 = Some warning_vue_component
  /\ process (main world_timeout (file_event "Write" p1))
     = process (main world_timeout (file_event "Write" p2)).
Proof.
  intros p1 p2.
  assert (H : same_letters p1 p2) by reflexivity.
  destruct (warning_ignores_case p1 p2 world_timeout
              (file_event "Write" p1) (file_event "Write" p2) H) as [A B].
  refine (conj H (conj A (conj _ (B _ _ eq_refl eq_refl)))).
  - vm_compute; reflexivity.
  - apply file_event_writes; now left.
  - apply file_event_writes; now left.
Defined.

(** X9.  Among the paths written in ASCII, the test-file warning is
    the one given exactly for those in which ".spec.ts" or ".test.ts"
    occurs, in any letter case and at any place of the path. *)
Theorem test_file_warning (path : string) :
  ascii_text path = true ->
  get_pattern_warning path = Some warning_test_mock
  <-> substring_of ".spec.ts" (lower_str path)
      \/ substring_of ".test.ts" (lower_str path).
Proof.
  intros _.
  rewrite <- !contains_spec, <- orb_true_iff, <- test_trigger_found.
  unfold get_pattern_warning, PATTERN_WARNINGS.
  cbn [first_warning trigger warning].
  change (Alt (lit ".spec.ts") (lit ".test.ts")) with test_trigger.
  destruct warnings_differ as (D1 & D2 & D3 & _).
  destruct (search true test_trigger path); [split; auto|].
  split; [|discriminate].
  repeat match goal with
         | |- context [if ?b then _ else _] => destruct b
         end;
    intros H; try discriminate H; apply some_eq in H;
    exfalso; auto.
Qed.

Lemma test_file_warning_witness :
  ascii_text "src/Login.Spec.TSX" = true
  /\ substring_of ".spec.ts" (lower_str "src/Login.Spec.TSX")
  /\ get_pattern_warning "src/Login.Spec.TSX" = Some warning_test_mock.
Proof.
  assert (H : substring_of ".spec.ts" (lower_str "src/Login.Spec.TSX"))
    by (apply contains_spec; vm_compute; reflexivity).
  exact (conj eq_refl
           (conj H (proj2 (test_file_warning "src/Login.Spec.TSX" eq_refl)
                      (or_introl H)))).
Defined.

(** X10.  Among the paths written in ASCII, the Vue warning is the one
    given exactly for those that end with ".vue", in any letter case,
    possibly followed by one line feed, and in which neither ".spec.ts"
    nor ".test.ts" occurs. *)
Theorem vue_file_warning (path : string) :
  ascii_text path = true ->
  get_pattern_warning path = Some warning_vue_component
  <-> (ends_with ".vue" (lower_str path)
       \/ ends_with (".vue" ++ nl) (lower_str path))
      /\ ~ substring_of ".spec.ts" (lower_str path)
      /\ ~ substring_of ".test.ts" (lower_str path).
Proof.
  intros _.
  rewrite <- vue_trigger_found.
  assert (T : search true test_trigger path = false
              <-> ~ substring_of ".spec.ts" (lower_str path)
                  /\ ~ substring_of ".test.ts" (lower_str path)).
  { rewrite test_trigger_found, orb_false_iff, <- !contains_spec,
      !not_true_iff_false. reflexivity. }
  rewrite <- T.
  unfold get_pattern_warning, PATTERN_WARNINGS.
  cbn [first_warning trigger warning].
  change (Alt (lit ".spec.ts") (lit ".test.ts")) with test_trigger.
  change (Seq (lit ".vue") EndS) with vue_trigger.
  destruct warnings_differ as (D1 & _ & _ & D4 & D5).
  destruct (search true test_trigger path).
  - split; [|intros [_ H]; discriminate H].
    intros H. apply some_eq in H. now elim D1.
  - destruct (search true vue_trigger path); [split; auto|].
    split; [|intros [H _]; discriminate H].
    repeat match goal with
           | |- context [if ?b then _ else _] => destruct b
           end;
      intros H; try discriminate H; apply some_eq in H;
      exfalso; auto.
Qed.

Lemma vue_file_warning_witness :
  let path := "frontend/src/App.VUE" ++ nl in
  (ascii_text path = true
   /\ ends_with (".vue" ++ nl) (lower_str path)
   /\ ~ substring_of ".spec.ts" (lower_str path)
   /\ ~ substring_of ".test.ts" (lower_str path))
  /\ get_pattern_warning path = Some warning_vue_component.
Proof.
  intros path.
  assert (H1 : ends_with (".vue" ++ nl) (lower_str path))
    by (now exists "frontend/src/app").
  assert (H2 : ~ substring_of ".spec.ts" (lower_str path)).
  { intros H. apply contains_spec in H. vm_compute in H. discriminate H. }
  assert (H3 : ~ substring_of ".test.ts" (lower_str path)).
  { intros H. apply contains_spec in H. vm_compute in H. discriminate H. }
  exact (conj (conj eq_refl (conj H1 (conj H2 H3)))
           (proj2 (vue_file_warning path eq_refl)
              (conj (or_intror H1) (conj H2 H3)))).
Defined.

(** X11.  On an error stream written in ASCII, the count of the probe
    is the number of places at which the marker stands ("error TS", one
    digit or more, a colon); on a write or edit that gets a warning,
    with a frontend directory and a type-check that ends, the hook
    prints the warning, followed, if that number is not 0, by the line
    of the count with the numeral of that number, the advice and the
    command to run. *)
Theorem count_is_occurrences
  (text : string) (w : world) (i : stdin) (path m : string) :
  ascii_text text = true ->
  findall_count error_marker text = occurrences text
  /\ (frontend_exists w = Gives true ->
      type_check_stderr w = Gives text ->
      probe_value w = Some (occurrences text)
      /\ (writes_file i path -> in_frontend_src path = true ->
          get_pattern_warning path = Some m ->
          process (main w i)
          = (0%Z,
             [m ++ if (0 <? occurrences text)%nat
                   then nl ++ "⚠️  CURRENT TYPESCRIPT ERRORS: "
                        ++ decimal (occurrences text) ++ nl
                        ++ "   Consider fixing existing errors before adding new code."
                        ++ nl
                        ++ "   Run: /lint-and-format --frontend --categorize"
                        ++ nl
                   else ""])
          /\ read_decimal (decimal (occurrences text))
             = Some (occurrences text))).
Proof.
  intros _.
  assert (C : findall_count error_marker text = occurrences text)
    by (apply count_from_occurrences; reflexivity).
  split; [exact C|].
  intros Hf Ht.
  assert (P : probe_value w = Some (occurrences text))
    by (rewrite (probe_available w text Hf Ht); now rewrite C).
  split; [exact P|].
  intros Hi Hs Hm. split; [|apply read_decimal_decimal].
  now rewrite (main_on_write w i path Hi), Hs, Hm, P.
Qed.

Lemma count_is_occurrences_witness :
  let text := "a.ts(1,1): error TS2322: x" ++ nl ++ "error TS: error TS7:" in
  let i := file_event "Edit" "frontend/src/App.vue" in
  (ascii_text text = true
   /\ frontend_exists world_two_errors = Gives true
   /\ writes_file i "frontend/src/App.vue")
  /\ findall_count error_marker text = 2
  /\ occurrences text = 2
  /\ probe_value world_two_errors = Some 2
  /\ process (main world_two_errors i)
     = (0%Z,
        [warning_vue_component ++ "
⚠️  CURRENT TYPESCRIPT ERRORS: 2
   Consider fixing existing errors before adding new code.
   Run: /lint-and-format --frontend --categorize
"]).
Proof.
  intros text i.
  assert (Hi : writes_file i "frontend/src/App.vue")
    by (apply file_event_writes; now right).
  destruct (count_is_occurrences text world_two_errors i
              "frontend/src/App.vue" warning_vue_component eq_refl)
    as [A _].
  destruct (count_is_occurrences
              ("src/a.ts(1,1): error TS2322: Type mismatch." ++ nl
               ++ "src/b.ts(7,3): error TS7006: Implicit any." ++ nl)
              world_two_errors i
              "frontend/src/App.vue" warning_vue_component eq_refl)
    as [_ B].
  destruct (B eq_refl eq_refl) as [P M].
  assert (O : occurrences text = 2) by (vm_compute; reflexivity).
  refine (conj (conj eq_refl (conj eq_refl Hi)) (conj _ (conj O (conj P _)))).
  - now rewrite A.
  - apply (M Hi eq_refl). vm_compute; reflexivity.
Defined.

End TsMore.

(** ** The celery worker family *)

Module CeleryFacts.
Import Chars Re Shape Py Event DockerGuard Family Cases CeleryCases.
Import CharFacts ReFacts ReMore DockerFacts DockerMore.

(** A continuation that succeeds lets the greedy repetition succeed,
    whatever run of accepted characters comes first. *)
Lemma star_zero (ic : bool) (p : cclass) (prev : option ascii) (s : string)
  (k : cont) :
  is_some (k prev s) = true -> is_some (star ic p prev s k) = true.
Proof.
  intros H. destruct s as [|c t]; simpl; auto.
  destruct (accepts ic p c); auto.
  now rewrite is_some_orelse, H, orb_true_r.
Qed.

Lemma star_over_word (ic : bool) (k : cont) (app : string) :
  forall prev rest,
    all_word app = true ->
    is_some (k (last_of prev app) rest) = true ->
    is_some (star ic Word prev (app ++ rest) k) = true.
Proof.
  induction app as [|c t IH]; intros prev rest Hw H.
  - apply star_zero. exact H.
  - destruct (all_word_cons _ _ Hw) as [Hc Ht].
    simpl. rewrite Hc, is_some_orelse, (IH (Some c) rest Ht H).
    reflexivity.
Qed.

Lemma word_lit_rejects_space (ic : bool) (x : ascii) :
  is_word x = true -> accepts ic (Lit x) " " = false.
Proof.
  intros H. destruct ic; unfold accepts.
  - destruct (Ascii.eqb_spec (lower " ") (lower x)) as [E|]; auto.
    rewrite <- is_word_lower, <- E in H. vm_compute in H. discriminate H.
  - destruct (Ascii.eqb_spec " " x) as [E|]; auto.
    rewrite <- E in H. vm_compute in H. discriminate H.
Qed.

(** A literal word read at the head of a word that a blank follows:
    what comes after the literal is tried exactly when the literal is
    the whole word. *)
Lemma lit_in_app_after_word (ic : bool) (k : cont) (r : string) (v : bool) :
  (forall p c t, word_opt p = true -> is_word c = true ->
                 k p (String c t) = None) ->
  (forall p, word_opt p = true -> is_some (k p (String " " r)) = v) ->
  forall W app prev,
    all_word W = true -> all_word app = true -> word_opt prev = true ->
    is_some (run ic (lit W) prev (app ++ String " " r) k)
    = same ic app W && v.
Proof.
  intros Hk1 Hk2. induction W as [|x W IH]; intros app prev HW Ha Hp.
  - destruct app as [|c t].
    + simpl. rewrite (Hk2 prev Hp). now destruct ic.
    + destruct (all_word_cons _ _ Ha) as [Hc _].
      simpl. rewrite (Hk1 prev c _ Hp Hc). now destruct ic.
  - destruct (all_word_cons _ _ HW) as [Hx HW'].
    destruct app as [|c t].
    + change (run ic (lit (String x W)) prev ("" ++ String " " r) k)
        with (if accepts ic (Lit x) " "
              then run ic (lit W) (Some " "%char) r k else None).
      rewrite (word_lit_rejects_space ic x Hx). now destruct ic.
    + destruct (all_word_cons _ _ Ha) as [Hc Ht].
      rewrite same_cons.
      change (run ic (lit (String x W)) prev
                (String c t ++ String " " r) k)
        with (if accepts ic (Lit x) c
              then run ic (lit W) (Some c) (t ++ String " " r) k
              else None).
      destruct (accepts ic (Lit x) c); [|reflexivity].
      now apply IH.
Qed.

Lemma lit_in_app (ic : bool) (k : cont) (r : string) (v : bool)
  (x : ascii) (W app : string) (prev : option ascii) :
  (forall p c t, word_opt p = true -> is_word c = true ->
                 k p (String c t) = None) ->
  (forall p, word_opt p = true -> is_some (k p (String " " r)) = v) ->
  all_word (String x W) = true -> all_word app = true ->
  is_some (run ic (lit (String x W)) prev (app ++ String " " r) k)
  = same ic app (String x W) && v.
Proof.
  intros Hk1 Hk2 HW Ha.
  destruct (all_word_cons _ _ HW) as [Hx HW'].
  destruct app as [|c t].
  - change (run ic (lit (String x W)) prev ("" ++ String " " r) k)
      with (if accepts ic (Lit x) " "
            then run ic (lit W) (Some " "%char) r k else None).
    rewrite (word_lit_rejects_space ic x Hx). now destruct ic.
  - destruct (all_word_cons _ _ Ha) as [Hc Ht].
    rewrite same_cons.
    change (run ic (lit (String x W)) prev (String c t ++ String " " r) k)
      with (if accepts ic (Lit x) c
            then run ic (lit W) (Some c) (t ++ String " " r) k
            else None).
    destruct (accepts ic (Lit x) c); [|reflexivity].
    now apply (lit_in_app_after_word ic k r v Hk1 Hk2).
Qed.

(** A pattern that opens with [\b], searched in a word that a blank
    and [r] follow, after a character that is not a word character. *)
Lemma search_in_app (ic : bool) (R : regex) (r : string) :
  (forall p t k, run ic R p (String " " t) k = None) ->
  search_from ic (Seq WordB R) (Some " "%char) r = None ->
  forall app prev,
    all_word app = true -> app <> "" -> word_opt prev = false ->
    search_from ic (Seq WordB R) prev (app ++ String " " r)
    = run ic R prev (app ++ String " " r) stop.
Proof.
  intros HR1 HR2.
  assert (In_ : forall t prev,
             all_word t = true -> word_opt prev = true ->
             search_from ic (Seq WordB R) prev (t ++ String " " r) = None).
  { induction t as [|c t IH]; intros prev Ht Hp.
    - simpl. unfold at_boundary. rewrite Hp. simpl.
      rewrite HR1. exact HR2.
    - destruct (all_word_cons _ _ Ht) as [Hc Ht'].
      simpl. unfold at_boundary. rewrite Hp. simpl. rewrite Hc. simpl.
      now apply IH. }
  intros app prev Ha Hne Hp.
  destruct app as [|c t]; [now elim Hne|].
  destruct (all_word_cons _ _ Ha) as [Hc Ht].
  simpl. unfold at_boundary. rewrite Hp. simpl. rewrite Hc. simpl.
  destruct (run ic R prev (String c (t ++ String " " r)) stop); auto.
Qed.

Lemma after_word_blank (ic : bool) (rs : list regex) (p : option ascii)
  (c : ascii) (t : string) :
  word_opt p = true -> is_word c = true ->
  run ic (cat (sp :: rs)) p (String c t) stop = None.
Proof.
  intros _ Hc. simpl. now rewrite (word_not_space c Hc).
Qed.

Lemma after_word_boundary (ic : bool) (rs : list regex) (p : option ascii)
  (c : ascii) (t : string) :
  word_opt p = true -> is_word c = true ->
  run ic (cat (WordB :: rs)) p (String c t) stop = None.
Proof.
  intros Hp Hc. simpl. unfold at_boundary. rewrite Hp. simpl.
  now rewrite Hc.
Qed.

Lemma after_word_nonword (ic : bool) (x : ascii) (L : string)
  (rs : list regex) (p : option ascii) (c : ascii) (t : string) :
  is_word x = false -> word_opt p = true -> is_word c = true ->
  run ic (cat (lit (String x L) :: rs)) p (String c t) stop = None.
Proof.
  intros Hx _ Hc.
  change (run ic (cat (lit (String x L) :: rs)) p (String c t) stop)
    with (if accepts ic (Lit x) c
          then run ic (cat (lit L :: rs)) (Some c) t stop else None).
  rewrite (nonword_item_rejects ic (Lit x) c); auto.
  simpl. now rewrite Hx.
Qed.

Lemma boundary_before_blank (ic : bool) (rs : list regex) (r : string)
  (p : option ascii) :
  word_opt p = true ->
  is_some (run ic (cat (WordB :: rs)) p (String " " r) stop)
  = is_some (run ic (cat rs) p (String " " r) stop).
Proof.
  intros Hp. simpl. unfold at_boundary. now rewrite Hp.
Qed.

Lemma nonword_lit_in_app (ic : bool) (x : ascii) (L : string)
  (rs : list regex) (p : option ascii) (app tl : string) :
  is_word x = false -> all_word app = true -> app <> "" ->
  run ic (cat (lit (String x L) :: rs)) p (app ++ tl) stop = None.
Proof.
  intros Hx Hw Hn. destruct app as [|c t]; [now elim Hn|].
  destruct (all_word_cons _ _ Hw) as [Hc _].
  change (run ic (cat (lit (String x L) :: rs)) p (String c t ++ tl) stop)
    with (if accepts ic (Lit x) c
          then run ic (cat (lit L :: rs)) (Some c) (t ++ tl) stop else None).
  rewrite (nonword_item_rejects ic (Lit x) c); auto.
  simpl. now rewrite Hx.
Qed.

Section Celery.
Variable app : string.
Hypothesis app_word : all_word app = true.
Hypothesis app_named : app <> "".

(** A pattern that opens with [\b], a literal word and [\s+]. *)
Ltac word_then_blank ic x W rs :=
  change (cat (WordB :: lit (String x W) :: sp :: rs))
    with (Seq WordB (cat (lit (String x W) :: sp :: rs)));
  rewrite (search_in_app ic (cat (lit (String x W) :: sp :: rs)) "worker"
             (fun _ _ _ => eq_refl) eq_refl
             app (Some " "%char) app_word app_named eq_refl);
  change (run ic (cat (lit (String x W) :: sp :: rs)) (Some " "%char)
            (app ++ " worker") stop)
    with (run ic (lit (String x W)) (Some " "%char) (app ++ " worker")
            (fun p s => run ic (cat (sp :: rs)) p s stop));
  let v := eval vm_compute in
    (is_some (run ic (cat (sp :: rs)) None " worker" stop)) in
  rewrite (lit_in_app ic (fun p s => run ic (cat (sp :: rs)) p s stop)
             "worker" v x W app (Some " "%char)
             (after_word_blank ic rs) (fun _ _ => eq_refl)
             eq_refl app_word).

(** A pattern that opens with [\b] and a literal that starts with a
    character that is not a word character. *)
Ltac nonword_start ic p :=
  lazymatch p with
  | cat (WordB :: ?rs) =>
      change p with (Seq WordB (cat rs));
      rewrite (search_in_app ic (cat rs) "worker"
                 (fun _ _ _ => eq_refl) eq_refl
                 app (Some " "%char) app_word app_named eq_refl);
      lazymatch rs with
      | lit (String ?x ?L) :: ?rs' =>
          rewrite (nonword_lit_in_app ic x L rs' (Some " "%char) app
                     " worker" eq_refl app_word app_named)
      end
  end.

(** "docker-compose": the word docker, then a hyphen. *)
Ltac docker_hyphen ic :=
  change (cat [WordB; lit "docker-compose"; WordB])
    with (Seq WordB (cat [lit "docker-compose"; WordB]));
  rewrite (search_in_app ic (cat [lit "docker-compose"; WordB]) "worker"
             (fun _ _ _ => eq_refl) eq_refl
             app (Some " "%char) app_word app_named eq_refl);
  change (run ic (cat [lit "docker-compose"; WordB]) (Some " "%char)
            (app ++ " worker") stop)
    with (run ic (lit "docker") (Some " "%char) (app ++ " worker")
            (fun p s => run ic (cat [lit "-compose"; WordB]) p s stop));
  rewrite (lit_in_app ic
             (fun p s => run ic (cat [lit "-compose"; WordB]) p s stop)
             "worker" false "d" "ocker" app (Some " "%char)
             (fun p c t => after_word_nonword ic "-" "compose" [WordB] p c t
                             eq_refl)
             (fun _ _ => eq_refl) eq_refl app_word).

Ltac settle_app :=
  repeat match goal with
         | |- context [search ?ic ?p ("celery -A " ++ app ++ " worker")] =>
             change (search ic p ("celery -A " ++ app ++ " worker"))
               with (is_some (search_from ic p (Some " "%char)
                                (app ++ " worker")));
             first
               [ lazymatch p with
                 | cat (WordB :: lit (String ?x ?W) :: sp :: ?rs) =>
                     word_then_blank ic x W rs
                 end
               | lazymatch p with
                 | cat [WordB; lit "docker-compose"; WordB] =>
                     docker_hyphen ic
                 end
               | nonword_start ic p ]
         end.

Lemma celery_allowed :
  existsb (fun p => search true p ("celery -A " ++ app ++ " worker"))
    ALLOWED_PATTERNS
  = same true app "docker".
Proof.
  unfold ALLOWED_PATTERNS. cbn [existsb].
  settle_app.
  cbn [is_some].
  rewrite !andb_false_r, !andb_true_r, !orb_false_r.
  reflexivity.
Qed.

Lemma celery_found (ic : bool) :
  search ic help_celery ("celery -A " ++ app ++ " worker") = true.
Proof.
  apply search_here.
  destruct app as [|c t] eqn:E; [now elim app_named|].
  destruct (all_word_cons _ _ app_word) as [Hc Ht].
  destruct ic; simpl; rewrite (word_not_space c Hc); simpl; rewrite Hc;
    now apply star_over_word.
Qed.

Lemma celery_blocked :
  existsb (fun p => search true p ("celery -A " ++ app ++ " worker"))
    BLOCKED_PATTERNS
  = true.
Proof.
  apply matched_in. exists help_celery. split.
  - unfold BLOCKED_PATTERNS, help_celery. simpl. tauto.
  - apply celery_found.
Qed.

Lemma celery_asgi :
  search false help_asgi ("celery -A " ++ app ++ " worker")
  = asgi_word false app.
Proof.
  change (search false help_asgi ("celery -A " ++ app ++ " worker"))
    with (is_some (search_from false help_asgi (Some " "%char)
                     (app ++ " worker"))).
  change help_asgi
    with (Seq WordB
            (Seq (Alt (lit "uvicorn") (Alt (lit "gunicorn") (lit "daphne")))
               (Seq WordB Eps))).
  rewrite (search_in_app false
             (Seq (Alt (lit "uvicorn") (Alt (lit "gunicorn") (lit "daphne")))
                (Seq WordB Eps))
             "worker" (fun _ _ _ => eq_refl) eq_refl
             app (Some " "%char) app_word app_named eq_refl).
  change (run false
            (Seq (Alt (lit "uvicorn") (Alt (lit "gunicorn") (lit "daphne")))
               (Seq WordB Eps)) (Some " "%char) (app ++ " worker") stop)
    with (orelse
            (run false (lit "uvicorn") (Some " "%char) (app ++ " worker")
               (fun p s => run false (cat [WordB]) p s stop))
            (orelse
               (run false (lit "gunicorn") (Some " "%char) (app ++ " worker")
                  (fun p s => run false (cat [WordB]) p s stop))
               (run false (lit "daphne") (Some " "%char) (app ++ " worker")
                  (fun p s => run false (cat [WordB]) p s stop)))).
  rewrite !is_some_orelse.
  rewrite (lit_in_app false (fun p s => run false (cat [WordB]) p s stop)
             "worker" true "u" "vicorn" app (Some " "%char)
             (after_word_boundary false [])
             (fun p Hp => boundary_before_blank false [] "worker" p Hp)
             eq_refl app_word).
  rewrite (lit_in_app false (fun p s => run false (cat [WordB]) p s stop)
             "worker" true "g" "unicorn" app (Some " "%char)
             (after_word_boundary false [])
             (fun p Hp => boundary_before_blank false [] "worker" p Hp)
             eq_refl app_word).
  rewrite (lit_in_app false (fun p s => run false (cat [WordB]) p s stop)
             "worker" true "d" "aphne" app (Some " "%char)
             (after_word_boundary false [])
             (fun p Hp => boundary_before_blank false [] "worker" p Hp)
             eq_refl app_word).
  rewrite !andb_true_r. unfold asgi_word. now rewrite orb_assoc.
Qed.

Lemma celery_message :
  get_help_message ("celery -A " ++ app ++ " worker")
  = if asgi_word false app then HELP_MESSAGES uvicorn
    else HELP_MESSAGES celery_worker.
Proof.
  unfold get_help_message.
  rewrite celery_asgi, (celery_found false).
  unfold help_npm, help_runserver, help_management.
  settle_app.
  cbn [is_some]. rewrite !andb_false_r. reflexivity.
Qed.

Lemma celery_classified :
  should_block_command ("celery -A " ++ app ++ " worker")
  = celery_outcome app.
Proof.
  unfold should_block_command, celery_outcome.
  rewrite celery_allowed, celery_blocked, celery_message.
  reflexivity.
Qed.

End Celery.

(** X12.  The command "celery -A <app> worker", with a non-empty name
    of word characters, is blocked for every name but "docker" (in any
    letter case), which the allow pattern [\bdocker\s+] finds.  The
    message shown is the one of the celery worker, unless the name is
    exactly uvicorn, gunicorn or daphne: then the earlier test of
    [get_help_message] answers with the message of the application
    servers.  The run of the hook ends accordingly. *)
Theorem celery_family (i : stdin) (app : string) :
  all_word app = true -> app <> "" ->
  carries_command i ("celery -A " ++ app ++ " worker") ->
  should_block_command ("celery -A " ++ app ++ " worker")
  = celery_outcome app
  /\ process (main i) = rendered (celery_outcome app).
Proof.
  intros Hw Hn Hi.
  rewrite (rendered_main i _ Hi), (celery_classified app Hw Hn).
  split; reflexivity.
Qed.

Lemma celery_family_witness :
  all_word "uvicorn" = true /\ "uvicorn" <> ""
  /\ carries_command (bash_event "celery -A uvicorn worker")
       ("celery -A " ++ "uvicorn" ++ " worker")
  /\ should_block_command ("celery -A " ++ "uvicorn" ++ " worker")
     = celery_outcome "uvicorn"
  /\ process (main (bash_event "celery -A uvicorn worker"))
     = rendered (celery_outcome "uvicorn").
Proof.
  refine (conj eq_refl (conj _ (conj (bash_event_carries _) _))).
  - intros H; discriminate H.
  - exact (celery_family (bash_event "celery -A uvicorn worker") "uvicorn"
             eq_refl (fun H => ltac:(discriminate H))
             (bash_event_carries _)).
Defined.

End CeleryFacts.

(** ** The later entries of the warning table *)

Module TsTable.
Import Chars Re Shape Py Event TsGuard Cases PathCases.
Import CharFacts ReFacts ReMore TsFacts TsMore.

Lemma lower_str_app (a b : string) :
  lower_str (a ++ b) = lower_str a ++ lower_str b.
Proof. induction a as [|c a IH]; simpl; [reflexivity | now rewrite IH]. Qed.

Lemma lower_str_split (u : string) :
  forall s v,
    lower_str s = u ++ v ->
    exists a t, s = a ++ t /\ lower_str a = u /\ lower_str t = v.
Proof.
  induction u as [|x u IH]; intros s v H.
  - now exists "", s.
  - destruct s as [|c s]; [discriminate H|].
    simpl in H. injection H as Hc H.
    destruct (IH s v H) as (a & t & -> & Ha & Ht).
    exists (String c a), t. simpl. now rewrite Hc, Ha.
Qed.

Lemma app_assoc_str (a b c : string) : (a ++ b) ++ c = a ++ b ++ c.
Proof. induction a as [|x a IH]; simpl; [reflexivity | now rewrite IH]. Qed.

(** The search succeeds exactly when the pattern matches at the head of
    some suffix of the subject. *)
Lemma search_from_exists (ic : bool) (r : regex) (s : string) :
  forall prev,
    is_some (search_from ic r prev s) = true
    <-> exists a t,
          s = a ++ t /\ is_some (run ic r (last_of prev a) t stop) = true.
Proof.
  induction s as [|c s IH]; intros prev.
  - change (search_from ic r prev "")
      with (match run ic r prev "" stop with
            | Some e => Some e
            | None => None
            end).
    rewrite is_some_first by reflexivity. split.
    + intros H. now exists "", "".
    + intros (a & t & E & H).
      destruct a; [|discriminate E]. simpl in E. now subst t.
  - change (search_from ic r prev (String c s))
      with (match run ic r prev (String c s) stop with
            | Some e => Some e
            | None => search_from ic r (Some c) s
            end).
    split.
    + destruct (run ic r prev (String c s) stop) as [e|] eqn:R.
      * intros _. exists "", (String c s). simpl. now rewrite R.
      * intros H. apply IH in H as (a & t & -> & H).
        now exists (String c a), t.
    + intros (a & t & E & H). destruct a as [|c' a].
      * simpl in E, H. subst t.
        now destruct (run ic r prev (String c s) stop).
      * simpl in E. injection E as <- ->. simpl in H.
        destruct (run ic r prev (String c (a ++ t)) stop); [reflexivity|].
        apply IH. now exists a, t.
Qed.

(** Reading a literal with [re.IGNORECASE]. *)
Lemma strip_lower (X : string) :
  forall prev s p t,
    strip true X prev s = Some (p, t) ->
    lower_str s = lower_str X ++ lower_str t.
Proof.
  induction X as [|x X IH]; intros prev s p t; simpl.
  - now intros [= _ ->].
  - destruct s as [|c s]; [discriminate|].
    destruct (Ascii.eqb_spec (lower c) (lower x)) as [E|]; [|discriminate].
    intros H. simpl. now rewrite E, (IH _ _ _ _ H).
Qed.

Lemma strip_found (X : string) :
  forall prev a t,
    lower_str a = lower_str X ->
    exists p, strip true X prev (a ++ t) = Some (p, t).
Proof.
  induction X as [|x X IH]; intros prev a t H.
  - destruct a; [|discriminate H]. now exists prev.
  - destruct a as [|c a]; [discriminate H|].
    simpl in H. injection H as Hc H. simpl.
    rewrite Hc, Ascii.eqb_refl. now apply IH.
Qed.

Lemma lower_newline (c : ascii) :
  Ascii.eqb (lower c) newline = Ascii.eqb c newline.
Proof. apply newline_lower. Qed.

Lemma no_newline_lower (s : string) :
  no_newline (lower_str s) = no_newline s.
Proof.
  induction s as [|c s IH]; simpl; [reflexivity|].
  now rewrite newline_lower, IH.
Qed.

(** [.*] and then a literal, tried at the head of the subject. *)
Lemma any_lit_run (Y : string) (s : string) :
  forall prev,
    is_some (star true Dot prev s (fun p t => run true (lit Y) p t stop))
      = true
    <-> exists m b,
          lower_str s = m ++ lower_str Y ++ b /\ no_newline m = true.
Proof.
  induction s as [|c s IH]; intros prev.
  - simpl star. rewrite lit_is_prefix, prefix_spec. simpl lower_str. split.
    + intros [b H]. now exists "", b.
    + intros (m & b & H & _). destruct m; [now exists b | discriminate H].
  - simpl star. unfold accepts. simpl lower_str.
    destruct (Ascii.eqb c newline) eqn:N; simpl negb; cbv iota.
    + rewrite lit_is_prefix, prefix_spec. simpl lower_str. split.
      * intros [b H]. now exists "", b.
      * intros (m & b & H & Hm). destruct m as [|x m]; [now exists b|].
        simpl in H. injection H as Hx _. simpl in Hm.
        rewrite <- Hx, newline_lower, N in Hm. discriminate Hm.
    + rewrite is_some_orelse, orb_true_iff, IH, lit_is_prefix, prefix_spec.
      simpl lower_str. split.
      * intros [(m & b & H & Hm)|[b H]].
        -- exists (String (lower c) m), b. simpl.
           now rewrite H, newline_lower, N, Hm.
        -- now exists "", b.
      * intros (m & b & H & Hm). destruct m as [|x m].
        -- right. now exists b.
        -- left. simpl in H. injection H as _ H. simpl in Hm.
           apply andb_true_iff in Hm as [_ Hm]. now exists m, b.
Qed.

Lemma search_from_alt (ic : bool) (r1 r2 : regex) (s : string)
  (prev : option ascii) :
  is_some (search_from ic (Alt r1 r2) prev s) = true
  <-> is_some (search_from ic r1 prev s) = true
      \/ is_some (search_from ic r2 prev s) = true.
Proof.
  rewrite !search_from_exists. split.
  - intros (a & t & E & H). simpl run in H.
    rewrite is_some_orelse in H. apply orb_true_iff in H as [H|H];
      [left|right]; now exists a, t.
  - intros [(a & t & E & H)|(a & t & E & H)]; exists a, t;
      (split; [exact E|]); simpl run; rewrite is_some_orelse, H;
      [reflexivity | apply orb_true_r].
Qed.

Lemma lit_search (A : string) (s : string) (prev : option ascii) :
  is_some (search_from true (lit A) prev s) = true
  <-> substring_of (lower_str A) (lower_str s).
Proof.
  rewrite search_from_exists. unfold substring_of. split.
  - intros (a & t & -> & H).
    rewrite lit_is_prefix in H. apply prefix_spec in H as [b H].
    exists (lower_str a), b. now rewrite lower_str_app, H.
  - intros (a' & b & H).
    destruct (lower_str_split a' s _ H) as (a & t & -> & _ & Ht).
    exists a, t. split; [reflexivity|].
    rewrite lit_is_prefix. apply prefix_spec. now exists b.
Qed.

(** A literal, [.*] and a literal, tried at the head of the subject. *)
Lemma span_run (X Y : string) (s : string) (prev : option ascii) :
  is_some (run true (cat [lit X; any; lit Y]) prev s stop) = true
  <-> exists m b,
        lower_str s = lower_str X ++ m ++ lower_str Y ++ b
        /\ no_newline m = true.
Proof.
  change (run true (cat [lit X; any; lit Y]) prev s stop)
    with (run true (lit X) prev s
            (fun p t =>
               star true Dot p t (fun p' t' => run true (lit Y) p' t' stop))).
  rewrite run_lit. split.
  - destruct (strip true X prev s) as [[p t]|] eqn:S; [|discriminate].
    intros H. apply any_lit_run in H as (m & b & H & Hm).
    exists m, b. now rewrite (strip_lower X _ _ _ _ S), H.
  - intros (m & b & H & Hm).
    destruct (lower_str_split _ s _ H) as (a & t & -> & Ha & Ht).
    destruct (strip_found X prev a t Ha) as [p ->].
    apply any_lit_run. now exists m, b.
Qed.

Lemma span_search (X Y : string) (s : string) (prev : option ascii) :
  is_some (search_from true (cat [lit X; any; lit Y]) prev s) = true
  <-> between (lower_str X) (lower_str Y) (lower_str s).
Proof.
  rewrite search_from_exists. unfold between. split.
  - intros (a & t & -> & H).
    apply span_run in H as (m & b & H & Hm).
    exists (lower_str a), m, b. now rewrite lower_str_app, H.
  - intros (a' & m & b & H & Hm).
    destruct (lower_str_split a' s _ H) as (a & t & -> & _ & Ht).
    exists a, t. split; [reflexivity|].
    apply span_run. now exists m, b.
Qed.

Lemma types_trigger_found (path : string) :
  search true types_trigger path = true <-> types_path (lower_str path).
Proof.
  unfold search, types_trigger, types_path.
  now rewrite search_from_alt, lit_search, span_search.
Qed.

Lemma composable_trigger_found (path : string) :
  search true composable_trigger path = true
  <-> composable_path (lower_str path).
Proof. unfold search, composable_trigger. apply span_search. Qed.

Lemma test_trigger_path (path : string) :
  search true test_trigger path = true <-> test_path (lower_str path).
Proof.
  unfold test_path.
  now rewrite test_trigger_found, orb_true_iff, !contains_spec.
Qed.

Lemma later_warnings_differ :
  warning_typescript_types <> warning_composable
  /\ warning_typescript_types <> warning_test_mock
  /\ warning_typescript_types <> warning_vue_component
  /\ warning_composable <> warning_test_mock
  /\ warning_composable <> warning_vue_component.
Proof. repeat apply conj; intros H; discriminate H. Qed.

(** X13.  Among the paths written in ASCII, the warning for type
    definitions is the one given exactly for
    the paths, taken in lower case, in which ".types.ts" occurs, or
    "types/" and later on the same line ".ts", and that get neither the
    test warning nor the Vue warning; the composable warning exactly
    for those in which "composables/" and later on the same line ".ts"
    occur and that get none of the three warnings before; no warning at
    all exactly when none of the four tests succeeds, and then nothing
    is printed for a write or edit of the path. *)
Theorem later_warnings (path : string) (w : world) (i : stdin) :
  ascii_text path = true ->
  let lp := lower_str path in
  (get_pattern_warning path = Some warning_typescript_types
   <-> types_path lp /\ ~ vue_path lp /\ ~ test_path lp)
  /\ (get_pattern_warning path = Some warning_composable
      <-> composable_path lp
          /\ ~ types_path lp /\ ~ vue_path lp /\ ~ test_path lp)
  /\ (get_pattern_warning path = None
      <-> ~ composable_path lp
          /\ ~ types_path lp /\ ~ vue_path lp /\ ~ test_path lp)
  /\ (writes_file i path -> get_pattern_warning path = None ->
      process (main w i) = (0%Z, [])).
Proof.
  intros _ lp.
  pose proof (test_trigger_path path) as T.
  pose proof (vue_trigger_found path) as V.
  pose proof (types_trigger_found path) as Y.
  pose proof (composable_trigger_found path) as C.
  fold lp in T, V, Y, C. fold (vue_path lp) in V.
  destruct later_warnings_differ as (D1 & D2 & D3 & D4 & D5).
  assert (G : get_pattern_warning path
              = if search true test_trigger path then Some warning_test_mock
                else if search true vue_trigger path
                     then Some warning_vue_component
                else if search true types_trigger path
                     then Some warning_typescript_types
                else if search true composable_trigger path
                     then Some warning_composable
                else None) by reflexivity.
  split; [|split; [|split]].
  - rewrite G.
    destruct (search true test_trigger path) eqn:ET;
      [split; [intros H; apply some_eq in H; now elim D2
              | intros (_ & _ & N); elim N; now apply T]|].
    destruct (search true vue_trigger path) eqn:EV;
      [split; [intros H; apply some_eq in H; now elim D3
              | intros (_ & N & _); elim N; now apply V]|].
    assert (NT : ~ test_path lp) by (intros X; apply T in X; discriminate X).
    assert (NV : ~ vue_path lp) by (intros X; apply V in X; discriminate X).
    destruct (search true types_trigger path) eqn:EY.
    + split; auto. intros _. repeat split; auto. now apply Y.
    + assert (NY : ~ types_path lp) by (intros X; apply Y in X; discriminate X). split; [|tauto].
      destruct (search true composable_trigger path); intros E;
        [apply some_eq in E; now elim D1 | discriminate E].
  - rewrite G.
    destruct (search true test_trigger path) eqn:ET;
      [split; [intros H; apply some_eq in H; now elim D4
              | intros (_ & _ & _ & N); elim N; now apply T]|].
    destruct (search true vue_trigger path) eqn:EV;
      [split; [intros H; apply some_eq in H; now elim D5
              | intros (_ & _ & N & _); elim N; now apply V]|].
    assert (NT : ~ test_path lp) by (intros X; apply T in X; discriminate X).
    assert (NV : ~ vue_path lp) by (intros X; apply V in X; discriminate X).
    destruct (search true types_trigger path) eqn:EY;
      [split; [intros H; apply some_eq in H; now elim D1
              | intros (_ & N & _); elim N; now apply Y]|].
    assert (NY : ~ types_path lp) by (intros X; apply Y in X; discriminate X).
    destruct (search true composable_trigger path) eqn:EC.
    + split; auto. intros _. repeat split; auto. now apply C.
    + assert (NC : ~ composable_path lp)
      by (intros X; apply C in X; discriminate X). split; [discriminate | tauto].
  - rewrite G.
    destruct (search true test_trigger path) eqn:ET;
      [split; [discriminate
              | intros (_ & _ & _ & N); elim N; now apply T]|].
    destruct (search true vue_trigger path) eqn:EV;
      [split; [discriminate
              | intros (_ & _ & N & _); elim N; now apply V]|].
    destruct (search true types_trigger path) eqn:EY;
      [split; [discriminate
              | intros (_ & N & _); elim N; now apply Y]|].
    destruct (search true composable_trigger path) eqn:EC;
      [split; [discriminate
              | intros (N & _); elim N; now apply C]|].
    split; auto. intros _.
    assert (NT : ~ test_path lp) by (intros X; apply T in X; discriminate X).
    assert (NV : ~ vue_path lp) by (intros X; apply V in X; discriminate X).
    assert (NY : ~ types_path lp) by (intros X; apply Y in X; discriminate X).
    assert (NC : ~ composable_path lp)
      by (intros X; apply C in X; discriminate X).
    tauto.
  - intros Hi E. rewrite (main_on_write w i path Hi), E.
    now destruct (in_frontend_src path).
Qed.

Lemma later_warnings_witness :
  let p1 := "frontend/src/prototypes/Shape.tsx" in
  let p2 := "frontend/src/composables/useAuth.ts" in
  (ascii_text p1 = true
   /\ types_path (lower_str p1)
   /\ ~ vue_path (lower_str p1) /\ ~ test_path (lower_str p1))
  /\ get_pattern_warning p1 = Some warning_typescript_types
  /\ get_pattern_warning p2 = Some warning_composable.
Proof.
  intros p1 p2.
  destruct (later_warnings p1 world_timeout (file_event "Write" p1) eq_refl)
    as (A & _).
  assert (H1 : types_path (lower_str p1)).
  { right. exists "frontend/src/proto", "shape", "x". now split. }
  assert (H2 : ~ vue_path (lower_str p1)).
  { intros H. apply vue_trigger_found in H. vm_compute in H. discriminate H. }
  assert (H3 : ~ test_path (lower_str p1)).
  { intros H. apply test_trigger_path in H. vm_compute in H. discriminate H. }
  refine (conj (conj eq_refl (conj H1 (conj H2 H3)))
            (conj (proj2 A (conj H1 (conj H2 H3))) _)).
  vm_compute; reflexivity.
Defined.

End TsTable.
